(** * Clipboard Hub v6: ingest, de-duplication and persistence pipeline

    A shallow embedding of the content script ([src/content-script.js]) and
    of the background service worker ([src/unnamed/part_000], the
    [background.js] of the README) in Rocq, and the properties of the
    specification proved (or refuted) on it.

    Conventions of the embedding:
    - a JavaScript string is the list of its UTF-16 code units ([list N]);
      [str] turns an ASCII literal into such a list;
    - a JavaScript number that is an integer in the source (sizes, lengths,
      timestamps) is a [Z]; the 32-bit operations of [hash32] are written
      out with their wrap-around;
    - an optional property of an object is an [option];
    - the environment (clock, random numbers, storage and transport
      failures, image decoding) is an oracle record that the code reads;
      every reading consumes one tick of the world. *)

From Stdlib Require Import ZArith NArith QArith Qround Qminmax Lqa Ascii String List Lia.
From stdpp Require Import base option list gmap.

Local Open Scope Z_scope.

(* ===================================================================== *)
(** ** JavaScript strings *)
(* ===================================================================== *)

Abbreviation jsstring := (list N).

Fixpoint str (s : string) : jsstring :=
  match s with
  | EmptyString => []
  | String a r => N_of_ascii a :: str r
  end.

(** [!s]: the empty string is the only falsy string. *)
Definition truthy (s : jsstring) : bool :=
  match s with [] => false | _ => true end.

(** [o || d] for an optional string property. *)
Definition orStr (o : option jsstring) (d : jsstring) : jsstring :=
  match o with
  | Some s => if truthy s then s else d
  | None => d
  end.

(** [o || d] for an optional numeric property ([0] is falsy). *)
Definition orNum (o : option Z) (d : Z) : Z :=
  match o with
  | Some z => if Z.eqb z 0 then d else z
  | None => d
  end.

(** [o ?? d]. *)
Definition nullish {A} (o : option A) (d : A) : A :=
  match o with Some a => a | None => d end.

(** ECMAScript WhiteSpace and LineTerminator code units, the characters
    that [trim] and [trimEnd] strip. *)
Definition isWhiteSpace (c : N) : bool :=
  ((9 <=? c) && (c <=? 13) || (c =? 32) || (c =? 160) || (c =? 5760)
   || (8192 <=? c) && (c <=? 8202) || (c =? 8232) || (c =? 8233)
   || (c =? 8239) || (c =? 8287) || (c =? 12288) || (c =? 65279))%N.

Fixpoint trimStart (s : jsstring) : jsstring :=
  match s with
  | c :: r => if isWhiteSpace c then trimStart r else s
  | [] => []
  end.

Definition trimEnd (s : jsstring) : jsstring := rev (trimStart (rev s)).

Definition trim (s : jsstring) : jsstring := trimEnd (trimStart s).

(** [s.startsWith(p)]. *)
Fixpoint startsWith (p s : jsstring) : bool :=
  match p, s with
  | [], _ => true
  | a :: p', b :: s' => (a =? b)%N && startsWith p' s'
  | _ :: _, [] => false
  end.

(** [s.slice(-n)]: the last [n] code units. *)
Definition sliceLast (n : nat) (s : jsstring) : jsstring :=
  drop (length s - n)%nat s.

(** [parts.join(sep)]. *)
Fixpoint joinWith (sep : jsstring) (parts : list jsstring) : jsstring :=
  match parts with
  | [] => []
  | [p] => p
  | p :: rest => p ++ sep ++ joinWith sep rest
  end.

(** *** Number to string *)

Definition digitChar (d : N) : N :=
  (if d <? 10 then 48 + d else 87 + d)%N.

Fixpoint digitsFuel (fuel : nat) (radix n : N) (acc : jsstring) : jsstring :=
  match fuel with
  | O => acc
  | S fuel' =>
      let acc' := digitChar (n mod radix) :: acc in
      if (n / radix =? 0)%N then acc' else digitsFuel fuel' radix (n / radix) acc'
  end.

(** [n.toString(radix)] for an integer [n] and [2 <= radix <= 36]. *)
Definition toStringRadix (radix : N) (z : Z) : jsstring :=
  let n := Z.abs_N z in
  let ds := digitsFuel (S (N.to_nat (N.log2 n))) radix n [] in
  if z <? 0 then 45%N :: ds else ds.

Definition numToString (z : Z) : jsstring := toStringRadix 10 z.

(* ===================================================================== *)
(** ** Signature utility: [hash32] *)
(* ===================================================================== *)

(** ToInt32 and ToUint32 of an integer-valued number. *)
Definition toInt32 (z : Z) : Z := (z + 2 ^ 31) mod 2 ^ 32 - 2 ^ 31.
Definition toUint32 (z : Z) : Z := z mod 2 ^ 32.

(** [a ^ b] and [a << k] on numbers: both operands go through ToInt32 and
    the result is a signed 32-bit integer. *)
Definition xor32 (a b : Z) : Z := toInt32 (Z.lxor (toInt32 a) (toInt32 b)).
Definition shl32 (a k : Z) : Z := toInt32 (Z.shiftl (toInt32 a) k).

(** One round of the loop of [hash32]:
    [h ^= c; h = (h + (h << 1) + (h << 4) + (h << 7) + (h << 8) + (h << 24)) >>> 0]. *)
Definition hash32_step (h : Z) (c : N) : Z :=
  let h1 := xor32 h (Z.of_N c) in
  toUint32 (h1 + shl32 h1 1 + shl32 h1 4 + shl32 h1 7 + shl32 h1 8 + shl32 h1 24).

Definition hash32_fold (s : jsstring) : Z := fold_left hash32_step s 0x811c9dc5.

(** [('0000000' + h.toString(16)).slice(-8)]. *)
Definition hash32 (s : jsstring) : jsstring :=
  sliceLast 8 (str "0000000" ++ toStringRadix 16 (hash32_fold s)).

(* ===================================================================== *)
(** ** Binary payloads *)
(* ===================================================================== *)

(** A [Blob] is its bytes and its MIME type; a [File] is a [Blob] with a
    name and a modification time.  [file_name = None] is a plain [Blob]
    ([working instanceof File] is false, ['name' in blob] is false). *)
Record File := mkFile {
  file_type : jsstring;
  file_bytes : list N;
  file_name : option jsstring;
  file_lastModified : Z
}.

Definition file_size (f : File) : Z := Z.of_nat (length (file_bytes f)).

Definition isFile (f : File) : bool :=
  match file_name f with Some _ => true | None => false end.

(** A value caught by a [catch] clause: an error object with its [message]
    and its [String(e)] form, or [null] (an aborted transaction rejects
    with [tx.error], which can be [null]). *)
Inductive Thrown :=
| ThrownError (message : jsstring) (asString : jsstring)
| ThrownNull.

(** [String(e?.message || e)]. *)
Definition errorText (e : Thrown) : jsstring :=
  match e with
  | ThrownError m s => if truthy m then m else s
  | ThrownNull => str "null"
  end.

(* ===================================================================== *)
(** ** The Blob Store of the background service worker *)
(* ===================================================================== *)

Module Worker.

(** A record of the object store [blobs] (key path [id]). *)
Record BlobRecord := mkBlobRecord {
  rec_blob_type : jsstring;          (* record.blob.type *)
  rec_blob_bytes : list N;           (* the bytes of record.blob *)
  rec_mime : option jsstring;
  rec_name : option jsstring;
  rec_size : option Z;
  rec_lastModified : option Z;
  rec_savedAt : Z
}.

(** The [payload] property of a request.  A property that is [undefined]
    is [None]; [pl_id = None] is an [id] that is no valid IndexedDB key. *)
Record Payload := mkPayload {
  pl_id : option jsstring;
  pl_buffer : option (list N);
  pl_mime : option jsstring;
  pl_name : option jsstring;
  pl_size : option Z;
  pl_lastModified : option Z
}.

(** A message as the listener sees it. *)
Inductive Message :=
| MsgNotObject                      (* falsy, or [typeof msg !== 'object'] *)
| MsgObject (type : option jsstring) (payload : option Payload).

(** What [sendResponse] is called with. *)
Inductive Response :=
| RespOk                                            (* {ok: true} *)
| RespPong (ts : Z)                                 (* {ok: true, ts} *)
| RespBlob (id : jsstring) (buffer : list N) (mime name : jsstring)
           (size lastModified : Z)                  (* the answer of blob.get *)
| RespErr (error : jsstring).                       (* {ok: false, error} *)

Definition resp_ok (r : Response) : bool :=
  match r with RespErr _ => false | _ => true end.

(** The environment of one request: the clock, whether IndexedDB fails
    (opening the database, or the transaction erroring or aborting) and
    with what, and the errors the engine throws for destructuring
    [undefined] and for an invalid key. *)
Record Env := mkEnv {
  date_now : Z;
  idb_fault : option Thrown;
  type_error : Thrown;
  data_error : Thrown
}.

Record State := mkState {
  blobs : gmap jsstring BlobRecord;
  outbox : list Response            (* the responses sent, oldest first *)
}.

(** State and exceptions: the [async] functions of the worker. *)
Definition M (A : Type) : Type := State -> (Thrown + A) * State.

Definition ret {A} (a : A) : M A := fun s => (inr a, s).
Definition throw {A} (e : Thrown) : M A := fun s => (inl e, s).
Definition bind {A B} (m : M A) (k : A -> M B) : M B :=
  fun s => match m s with
           | (inr a, s') => k a s'
           | (inl e, s') => (inl e, s')
           end.
Definition tryCatch {A} (m : M A) (h : Thrown -> M A) : M A :=
  fun s => match m s with
           | (inl e, s') => h e s'
           | r => r
           end.

Notation "x <- m ;; k" := (bind m (fun x => k))
  (at level 100, m at next level, right associativity).

Definition sendResponse (r : Response) : M unit :=
  fun s => (inr tt, mkState (blobs s) (outbox s ++ [r])).

Section Handlers.
Variable env : Env.

(** [withStore(mode, fn)]: the transaction either completes, and [fn]
    has taken effect, or the promise rejects and nothing is written. *)
Definition withStore {A} (fn : gmap jsstring BlobRecord ->
                               Thrown + (A * gmap jsstring BlobRecord)) : M A :=
  fun s =>
    match idb_fault env with
    | Some e => (inl e, s)
    | None =>
        match fn (blobs s) with
        | inl e => (inl e, s)
        | inr (a, b') => (inr a, mkState b' (outbox s))
        end
    end.

(** [new Blob([buffer], ...)]: an [undefined] part is the text
    "undefined". *)
Definition blobPart (b : option (list N)) : list N :=
  match b with Some bytes => bytes | None => str "undefined" end.

Definition putBlob (payload : option Payload) : M Response :=
  match payload with
  | None => throw (type_error env)
  | Some p =>
      let blob_type := orStr (pl_mime p) (str "application/octet-stream") in
      _ <- withStore (fun b =>
             match pl_id p with
             | None => inl (data_error env)
             | Some i =>
                 inr (tt, <[i := mkBlobRecord blob_type (blobPart (pl_buffer p))
                                   (pl_mime p) (pl_name p) (pl_size p)
                                   (pl_lastModified p) (date_now env)]> b)
             end) ;;
      ret RespOk
  end.

Definition getBlob (payload : option Payload) : M Response :=
  match payload with
  | None => throw (type_error env)
  | Some p =>
      record <- withStore (fun b =>
             match pl_id p with
             | None => inl (data_error env)
             | Some i => inr (option_map (fun r => (i, r)) (b !! i), b)
             end) ;;
      match record with
      | None => ret (RespErr (str "not_found"))
      | Some (i, r) =>
          ret (RespBlob i (rec_blob_bytes r)
                 (orStr (rec_mime r)
                    (orStr (Some (rec_blob_type r)) (str "application/octet-stream")))
                 (orStr (rec_name r) [])
                 (nullish (rec_size r) (Z.of_nat (length (rec_blob_bytes r))))
                 (nullish (rec_lastModified r) 0))
      end
  end.

Definition deleteBlob (payload : option Payload) : M Response :=
  match payload with
  | None => throw (type_error env)
  | Some p =>
      _ <- withStore (fun b =>
             match pl_id p with
             | None => inl (data_error env)
             | Some i => inr (tt, delete i b)
             end) ;;
      ret RespOk
  end.

Definition clearAll : M Response :=
  _ <- withStore (fun _ => inr (tt, ∅)) ;;
  ret RespOk.

Definition isType (t : option jsstring) (tag : string) : bool :=
  match t with
  | Some s => bool_decide (s = str tag)
  | None => false
  end.

(** The [try] block of the [chrome.runtime.onMessage] listener. *)
Definition dispatch (msg : Message) : M unit :=
  match msg with
  | MsgNotObject => sendResponse (RespErr (str "bad_request"))
  | MsgObject t payload =>
      if isType t "blob.put" then r <- putBlob payload ;; sendResponse r
      else if isType t "blob.get" then r <- getBlob payload ;; sendResponse r
      else if isType t "blob.delete" then r <- deleteBlob payload ;; sendResponse r
      else if isType t "blob.clear" then r <- clearAll ;; sendResponse r
      else if isType t "ping" then sendResponse (RespPong (date_now env))
      else sendResponse (RespErr (str "unknown_type"))
  end.

(** The listener: the [try] block and its [catch] clause. *)
Definition listener (msg : Message) : M unit :=
  tryCatch (dispatch msg)
    (fun e => sendResponse (RespErr (errorText e))).

(** The known request tags. *)
Definition knownType (t : option jsstring) : bool :=
  isType t "blob.put" || isType t "blob.get" || isType t "blob.delete"
  || isType t "blob.clear" || isType t "ping".

(** Delivering one message to a worker whose store holds [blobs0]: the
    responses sent on the channel, and the store afterwards. *)
Definition responses (msg : Message) (blobs0 : gmap jsstring BlobRecord)
  : list Response :=
  outbox (snd (listener msg (mkState blobs0 []))).

Definition blobsAfter (msg : Message) (blobs0 : gmap jsstring BlobRecord)
  : gmap jsstring BlobRecord :=
  blobs (snd (listener msg (mkState blobs0 []))).
End Handlers.

End Worker.

(* ===================================================================== *)
(** ** The content script: data model *)
(* ===================================================================== *)

Module Hub.

Definition INGEST_DEDUP_WINDOW_MS : Z := 900.
Definition IMAGE_SOFT_LIMIT : Z := 2 * 1024 * 1024.
Definition IMAGE_MAX_DIM : Z := 2048.

Inductive Kind := KText | KImage | KFile.

(** A history item, as the object the script builds and mutates.  The
    properties an item may lack are options. *)
Record Item := mkItem {
  id : jsstring;
  kind : Kind;
  createdAt : Z;
  text : option jsstring;
  html : option jsstring;
  blobId : option jsstring;
  name : option jsstring;
  mime : option jsstring;
  size : option Z;
  dataUrl : option jsstring;
  pending : option bool;
  error : option jsstring;
  expanded : option bool
}.

(** An entry of the v5 record [clip_hub_v5_data]. *)
Record LegacyItem := mkLegacyItem {
  l_kind : option jsstring;
  l_createdAt : option Z;
  l_text : option jsstring;
  l_html : option jsstring;
  l_dataUrlPersisted : option jsstring;
  l_dataUrl : option jsstring;
  l_name : option jsstring;
  l_mime : option jsstring;
  l_size : option Z
}.

(** [storage.local], restricted to the two keys the script reads.
    [None] is a key that is absent or holds no array; an element of the
    v5 array that is no object is [None]. *)
Record Storage := mkStorage {
  clip_hub_v6_state : option (list Item);
  clip_hub_v5_data : option (list (option LegacyItem))
}.

(** An ingest candidate: [{type:'text', plain?, html?}] or
    [{type:'file', file: File}].  The three producers of candidates push
    a file candidate only for a file they hold, so the [if (!f) continue]
    of the commit loop is not reached and has no counterpart here. *)
Inductive Candidate :=
| CText (plain html : option jsstring)
| CFile (file : File).

(** An entry of [clipboardData.items]. *)
Inductive DTItem :=
| DTFile (getAsFile : option File)            (* kind 'file' *)
| DTString (type : jsstring) (getAsString : jsstring)   (* kind 'string' *)
| DTOther.

(** How the n-th [runtime.sendMessage] goes: it is delivered and handled,
    or the promise rejects (no receiving end), or it is delivered and
    IndexedDB fails in the worker. *)
Inductive SendFault :=
| Delivered
| SendRejected
| IdbFails (e : Thrown).

(** How the n-th [reader.readAsDataURL] of [blobToDataUrl] ends: the
    [load] event comes; or the read fails, the [error] event comes, for
    which the script sets no handler, and the promise never settles; or
    the call itself throws, and the promise rejects. *)
Inductive ReadOutcome :=
| ReadLoads
| ReadFails
| ReadThrows.

(** The environment of the content script.  The oracles indexed by [nat]
    are read at the current tick of the world. *)
Record Env := mkEnv {
  date_now : nat -> Z;                   (* Date.now() *)
  math_random : nat -> jsstring;         (* Math.random().toString(36).slice(2) *)
  storage_set_rejects : nat -> bool;     (* storage.local.set rejects *)
  send_fault : nat -> SendFault;
  array_buffer_rejects : nat -> bool;    (* fileLike.arrayBuffer() rejects *)
  data_url_read : nat -> ReadOutcome;    (* readAsDataURL in blobToDataUrl *)
  decode : File -> option (Z * Z);       (* img.decode(): width and height *)
  encode : File -> Z -> Z -> option (list N);
     (* drawing on a w x h canvas and canvas.toBlob as WebP at 0.88;
        [None]: no 2d context, or a null blob *)
  type_error : Thrown;
  data_error : Thrown
}.

Record World := mkWorld {
  heap : list Item;                      (* the item objects, by address *)
  items : list nat;                      (* state.items, as addresses *)
  blobCache : gmap jsstring File;
  lastIngest : jsstring * Z;             (* {sig, at} *)
  storage : Storage;
  idb : gmap jsstring Worker.BlobRecord; (* the worker's object store *)
  toasts : list jsstring;                (* the toasts shown, oldest first *)
  ticks : nat
}.

Definition set_heap h w :=
  mkWorld h (items w) (blobCache w) (lastIngest w) (storage w) (idb w) (toasts w) (ticks w).
Definition set_items l w :=
  mkWorld (heap w) l (blobCache w) (lastIngest w) (storage w) (idb w) (toasts w) (ticks w).
Definition set_blobCache c w :=
  mkWorld (heap w) (items w) c (lastIngest w) (storage w) (idb w) (toasts w) (ticks w).
Definition set_lastIngest li w :=
  mkWorld (heap w) (items w) (blobCache w) li (storage w) (idb w) (toasts w) (ticks w).
Definition set_storage st w :=
  mkWorld (heap w) (items w) (blobCache w) (lastIngest w) st (idb w) (toasts w) (ticks w).
Definition set_idb b w :=
  mkWorld (heap w) (items w) (blobCache w) (lastIngest w) (storage w) b (toasts w) (ticks w).
Definition set_toasts t w :=
  mkWorld (heap w) (items w) (blobCache w) (lastIngest w) (storage w) (idb w) t (ticks w).
Definition set_ticks n w :=
  mkWorld (heap w) (items w) (blobCache w) (lastIngest w) (storage w) (idb w) (toasts w) n.

(** The script as it starts on a page: [state = { items: [] }], an empty
    blob cache, [lastIngest = { sig: '', at: 0 }]. *)
Definition freshSession (st : Storage) (b : gmap jsstring Worker.BlobRecord) : World :=
  mkWorld [] [] ∅ ([], 0) st b [] 0.

(** The items of [state.items], in order. *)
Definition itemsOf (w : World) : list Item :=
  omap (fun r => heap w !! r) (items w).

(** The state monad of the script.  The result of an [async] function
    whose promise may never settle is an [option]: [None] is the promise
    that stays pending for ever, so that nothing that awaits it goes
    on. *)
Definition M (A : Type) : Type := World -> A * World.

Definition ret {A} (a : A) : M A := fun w => (a, w).
Definition bind {A B} (m : M A) (k : A -> M B) : M B :=
  fun w => let (a, w') := m w in k a w'.
Definition get : M World := fun w => (w, w).
Definition modify (f : World -> World) : M unit := fun w => (tt, f w).
Definition exec {A} (m : M A) (w : World) : World := snd (m w).

Notation "x <- m ;; k" := (bind m (fun x => k))
  (at level 100, m at next level, right associativity).
Notation "m ;;; k" := (bind m (fun _ => k))
  (at level 100, right associativity).

(** *** Small utilities *)

(** [s.split(sep)] for a one-character separator. *)
Fixpoint splitOn (sep : N) (s : jsstring) : list jsstring :=
  match s with
  | [] => [[]]
  | c :: r =>
      if (c =? sep)%N then [] :: splitOn sep r
      else match splitOn sep r with
           | p :: ps => (c :: p) :: ps
           | [] => [[c]]
           end
  end.

Definition base64Char (n : N) : N :=
  (if n <? 26 then 65 + n
   else if n <? 52 then 71 + n
   else if n <? 62 then n - 4
   else if n =? 62 then 43 else 47)%N.

Fixpoint base64 (bytes : list N) : jsstring :=
  match bytes with
  | [] => []
  | [a] =>
      [base64Char (a / 4); base64Char ((a mod 4) * 16); 61; 61]%N
  | [a; b] =>
      [base64Char (a / 4); base64Char ((a mod 4) * 16 + b / 16);
       base64Char ((b mod 16) * 4); 61]%N
  | a :: b :: c :: rest =>
      [base64Char (a / 4); base64Char ((a mod 4) * 16 + b / 16);
       base64Char ((b mod 16) * 4 + c / 64); base64Char (c mod 64)]%N
      ++ base64 rest
  end.

(** [reader.readAsDataURL(blob)], on success. *)
Definition dataUrlOf (f : File) : jsstring :=
  str "data:" ++ file_type f ++ str ";base64," ++ base64 (file_bytes f).

Definition clampQ (n a b : Q) : Q := Qmin b (Qmax a n).

(** [Math.round]. *)
Definition mathRound (q : Q) : Z := Qfloor (q + (1 # 2))%Q.

Definition isImageType (t : jsstring) : bool := startsWith (str "image/") t.

Definition strip (it : Item) : Item :=
  mkItem (id it) (kind it) (createdAt it) (text it) (html it) (blobId it)
         (name it) (mime it) (size it) (dataUrl it) None None None.

(** *** Signature of a batch *)

Definition sigPart (c : Candidate) : jsstring :=
  match c with
  | CFile f =>
      str "F:" ++ file_type f ++ str "|" ++ numToString (file_size f)
        ++ str "|" ++ orStr (file_name f) []
  | CText plain html =>
      let p := take 256 (orStr plain []) in
      let h := take 256 (orStr html []) in
      str "T:" ++ hash32 p ++ str ":" ++ hash32 h
        ++ str ":" ++ numToString (Z.of_nat (length (orStr plain [])))
        ++ str ":" ++ numToString (Z.of_nat (length (orStr html [])))
  end.

Definition signature (candidates : list Candidate) : jsstring :=
  hash32 (joinWith (str "||") (map sigPart candidates)).

(** *** Normalising a paste event *)

(** What is pushed when the pending text is flushed. *)
Definition flushText (pendingText : jsstring * jsstring) : list Candidate :=
  if truthy (fst pendingText) || truthy (snd pendingText)
  then [CText (Some (fst pendingText)) (Some (snd pendingText))]
  else [].

(** One string entry folded into the pending text. *)
Definition mergeString (type s : jsstring) (pendingText : jsstring * jsstring)
  : jsstring * jsstring :=
  let (plain, html) := pendingText in
  if bool_decide (type = str "text/plain") then (orStr (Some s) plain, html)
  else if bool_decide (type = str "text/html") then (plain, orStr (Some s) html)
  else if bool_decide (type = str "text/uri-list") then
    let url := trim s in
    if truthy url
    then ((if truthy plain then plain ++ [10%N] ++ url else url), html)
    else (plain, html)
  else (plain, html).

(** The loop over [raw] of [ingestFromPasteEvent], with its two
    variables. *)
Fixpoint pasteLoop (raw : list DTItem) (candidates : list Candidate)
    (pendingText : jsstring * jsstring) : list Candidate * (jsstring * jsstring) :=
  match raw with
  | [] => (candidates, pendingText)
  | DTFile file :: rest =>
      let candidates1 := candidates ++ flushText pendingText in
      let candidates2 :=
        match file with Some f => candidates1 ++ [CFile f] | None => candidates1 end in
      pasteLoop rest candidates2 ([], [])
  | DTString type s :: rest =>
      pasteLoop rest candidates (mergeString type s pendingText)
  | DTOther :: rest => pasteLoop rest candidates pendingText
  end.

Definition normalizePaste (raw : list DTItem) : list Candidate :=
  let (candidates, pendingText) := pasteLoop raw [] ([], []) in
  candidates ++ flushText pendingText.

(** *** Item updates *)

Definition set_pending (b : bool) (it : Item) : Item :=
  mkItem (id it) (kind it) (createdAt it) (text it) (html it) (blobId it)
         (name it) (mime it) (size it) (dataUrl it) (Some b) (error it) (expanded it).
Definition set_error (e : jsstring) (it : Item) : Item :=
  mkItem (id it) (kind it) (createdAt it) (text it) (html it) (blobId it)
         (name it) (mime it) (size it) (dataUrl it) (pending it) (Some e) (expanded it).
Definition set_dataUrl (u : jsstring) (it : Item) : Item :=
  mkItem (id it) (kind it) (createdAt it) (text it) (html it) (blobId it)
         (name it) (mime it) (size it) (Some u) (pending it) (error it) (expanded it).
Definition set_mime_size (m : jsstring) (s : Z) (it : Item) : Item :=
  mkItem (id it) (kind it) (createdAt it) (text it) (html it) (blobId it)
         (name it) (Some m) (Some s) (dataUrl it) (pending it) (error it) (expanded it).

(** The outcome of [await blobToDataUrl(blob)]: the data URL, or a
    rejection, or nothing for ever. *)
Inductive ReadResult :=
| ReadUrl (u : jsstring)
| ReadRejected
| ReadPending.

(** The outcome of [runtimeSend]: the promise rejects, or resolves with
    the response (if any) of the worker. *)
Inductive SendResult :=
| Rejected
| Resolved (resp : option Worker.Response).

Definition getPayload (i : jsstring) : Worker.Payload :=
  Worker.mkPayload (Some i) None None None None None.

Definition emptyPayload : Worker.Payload :=
  Worker.mkPayload None None None None None None.

(** [state.items.findIndex((x) => x.id === id)]. *)
Fixpoint findIndex (h : list Item) (i : jsstring) (refs : list nat) : option nat :=
  match refs with
  | [] => None
  | r :: rest =>
      match h !! r with
      | Some it =>
          if bool_decide (id it = i) then Some O
          else option_map S (findIndex h i rest)
      | None => option_map S (findIndex h i rest)
      end
  end.

(** *** Vocabulary of the properties *)

(** The pending text after a run of entries without a file: the string
    entries merged in order. *)
Definition coalesce (entries : list DTItem) : jsstring * jsstring :=
  fold_left (fun p it => match it with
                         | DTString type s => mergeString type s p
                         | _ => p
                         end) entries ([], []).

Definition notFile (it : DTItem) : bool :=
  match it with DTFile _ => false | _ => true end.

(** Normalization as the specification words it, written without the
    loop of the script.  A run is a stretch of entries between two file
    entries; [seen] holds the entries of a run, the latest first.

    The plain-text body of a run, line by line: the last [text/plain]
    string that is not empty, followed by one line for every
    [text/uri-list] entry after it (trimmed; a blank one gives no
    line). *)
Fixpoint spec_bodyLines (seen : list DTItem) : list jsstring :=
  match seen with
  | [] => []
  | DTString type s :: earlier =>
      if bool_decide (type = str "text/plain")
      then (if truthy s then [s] else spec_bodyLines earlier)
      else if bool_decide (type = str "text/uri-list")
      then (if truthy (trim s) then spec_bodyLines earlier ++ [trim s]
            else spec_bodyLines earlier)
      else spec_bodyLines earlier
  | _ :: earlier => spec_bodyLines earlier
  end.

(** The HTML of a run: the last [text/html] string that is not empty. *)
Fixpoint spec_html (seen : list DTItem) : jsstring :=
  match seen with
  | [] => []
  | DTString type s :: earlier =>
      if bool_decide (type = str "text/html") && truthy s then s
      else spec_html earlier
  | _ :: earlier => spec_html earlier
  end.

Definition spec_pending (seen : list DTItem) : jsstring * jsstring :=
  (joinWith [10%N] (spec_bodyLines seen), spec_html seen).

(** The one text candidate of a run, if the run has a body or an HTML. *)
Definition spec_text (seen : list DTItem) : list Candidate :=
  match spec_bodyLines seen, spec_html seen with
  | [], [] => []
  | body, h => [CText (Some (joinWith [10%N] body)) (Some h)]
  end.

(** The candidates of a paste event: the text candidate of each run and
    the files between the runs, in the order of the event. *)
Fixpoint spec_normalize (raw seen : list DTItem) : list Candidate :=
  match raw with
  | [] => spec_text seen
  | DTFile file :: rest =>
      spec_text seen
        ++ match file with Some f => [CFile f] | None => [] end
        ++ spec_normalize rest []
  | it :: rest => spec_normalize rest (it :: seen)
  end.

(** Whether processing a candidate puts an item into the list: a file
    always does, a text does when something is left of it after
    [trimEnd]. *)
Definition commits (c : Candidate) : bool :=
  match c with
  | CFile _ => true
  | CText plain html =>
      truthy (trimEnd (orStr plain [])) || truthy (trimEnd (orStr html []))
  end.

(** Every address in [state.items] is an object of the heap. *)
Definition wellFormed (w : World) : Prop :=
  Forall (fun r => (r < length (heap w))%nat) (items w).

(** [new] is [old] but for [mime] and [size], which may have been filled
    in when they were empty, zero or missing; an item without a [blobId]
    is left as it is. *)
Definition filled (old new : Item) : Prop :=
  id new = id old /\ kind new = kind old /\ createdAt new = createdAt old
  /\ text new = text old /\ html new = html old /\ blobId new = blobId old
  /\ name new = name old /\ dataUrl new = dataUrl old
  /\ pending new = pending old /\ error new = error old
  /\ expanded new = expanded old
  /\ (truthy (orStr (mime old) []) = true -> mime new = mime old)
  /\ (orNum (size old) 0 <> 0 -> size new = size old)
  /\ (truthy (orStr (blobId old) []) = false -> new = old).

(** A blob item that has a MIME type and a size. *)
Definition hasMimeAndSize (it : Item) : Prop :=
  truthy (orStr (blobId it) []) = true ->
  truthy (orStr (mime it) []) = true /\ orNum (size it) 0 <> 0.

#[global] Instance hasMimeAndSize_dec (it : Item) : Decision (hasMimeAndSize it).
Proof. unfold hasMimeAndSize. apply _. Defined.

(* ===================================================================== *)
(** ** The content script: operations *)
(* ===================================================================== *)

Section Script.
Variable env : Env.

Definition tick : M nat :=
  fun w => (ticks w, set_ticks (S (ticks w)) w).

Definition dateNow : M Z := n <- tick ;; ret (date_now env n).

(** [Date.now().toString(36) + Math.random().toString(36).slice(2)]. *)
Definition uid : M jsstring :=
  t <- dateNow ;;
  n <- tick ;;
  ret (toStringRadix 36 t ++ math_random env n).

Definition toast (msg : jsstring) : M unit :=
  modify (fun w => set_toasts (toasts w ++ [msg]) w).

(** A new object. *)
Definition alloc (it : Item) : M nat :=
  fun w => (length (heap w), set_heap (heap w ++ [it]) w).

(** An assignment to properties of the object at [r]. *)
Definition update (r : nat) (f : Item -> Item) : M unit :=
  modify (fun w => set_heap (alter f r (heap w)) w).

Definition storageSet (v : list Item) : M bool :=
  n <- tick ;;
  if storage_set_rejects env n then ret false
  else
    modify (fun w => set_storage
                       (mkStorage (Some v) (clip_hub_v5_data (storage w))) w) ;;;
    ret true.

(** [runtimeSend(type, payload)]: the worker's listener runs on the
    message, on its own store. *)
Definition runtimeSend (type : string) (payload : option Worker.Payload)
  : M SendResult :=
  n <- tick ;;
  match send_fault env n with
  | SendRejected => ret Rejected
  | fault =>
      now <- dateNow ;;
      w <- get ;;
      let wenv := Worker.mkEnv now
                    (match fault with IdbFails e => Some e | _ => None end)
                    (type_error env) (data_error env) in
      let msg := Worker.MsgObject (Some (str type)) payload in
      modify (set_idb (Worker.blobsAfter wenv msg (idb w))) ;;;
      ret (Resolved (head (Worker.responses wenv msg (idb w))))
  end.

(** The environment in which the worker handles the message sent at
    tick [n]: what [runtimeSend] builds there. *)
Definition workerEnvAt (n : nat) : Worker.Env :=
  Worker.mkEnv (date_now env (S n))
    (match send_fault env n with IdbFails e => Some e | _ => None end)
    (type_error env) (data_error env).

(** [blobToDataUrl]: the promise is resolved in [reader.onload] and
    nowhere else.  When the read fails the reader fires [error], for
    which no handler is set, and the promise stays pending; it rejects
    only when [readAsDataURL] throws inside the executor. *)
Definition blobToDataUrl (blob : File) : M ReadResult :=
  n <- tick ;;
  match data_url_read env n with
  | ReadLoads => ret (ReadUrl (dataUrlOf blob))
  | ReadFails => ret ReadPending
  | ReadThrows => ret ReadRejected
  end.

(** The scale of [maybeCompressImage]:
    [clamp(IMAGE_MAX_DIM / maxDim, 0.15, 1)]; a zero [maxDim] divides to
    [Infinity], which clamps to 1.  Double arithmetic is taken exact. *)
Definition compressScale (maxDim : Z) : Q :=
  if maxDim =? 0 then 1%Q
  else clampQ (inject_Z IMAGE_MAX_DIM / inject_Z maxDim) (15 # 100) 1.

Definition maybeCompressImage (blob : File) : File :=
  if negb (isImageType (file_type blob)) then blob
  else if file_size blob <=? IMAGE_SOFT_LIMIT then blob
  else
    match decode env blob with
    | None => blob
    | Some (width, height) =>
        let maxDim := Z.max width height in
        let scale := compressScale maxDim in
        if Qle_bool (999 # 1000) scale then blob
        else
          let w := Z.max 1 (mathRound (inject_Z width * scale)) in
          let h := Z.max 1 (mathRound (inject_Z height * scale)) in
          match encode env blob w h with
          | None => blob
          | Some bytes =>
              let out := mkFile (str "image/webp") bytes None 0 in
              if (negb (file_size out =? 0)) && (file_size out <? file_size blob)
              then out else blob
          end
    end.

Definition persistMetadata : M unit :=
  w <- get ;;
  let serializable := map strip (itemsOf w) in
  ok <- storageSet serializable ;;
  if ok then ret tt else toast (str "Storage quota hit").

Fixpoint restoreBlobs (refs : list nat) : M unit :=
  match refs with
  | [] => ret tt
  | r :: rest =>
      w <- get ;;
      match heap w !! r with
      | None => ret tt
      | Some it =>
          let b := orStr (blobId it) [] in
          if negb (truthy b) then ret tt
          else if bool_decide (is_Some (blobCache w !! b)) then ret tt
          else
            resp <- runtimeSend "blob.get" (Some (getPayload b)) ;;
            match resp with
            | Resolved (Some (Worker.RespBlob _ buffer rmime _ rsize _)) =>
                let blob := mkFile (orStr (Some rmime)
                                      (orStr (mime it) (str "application/octet-stream")))
                                   buffer None 0 in
                modify (fun w => set_blobCache (<[b := blob]> (blobCache w)) w) ;;;
                update r (set_mime_size (orStr (mime it) rmime) (orNum (size it) rsize))
            | _ => ret tt
            end
      end ;;;
      restoreBlobs rest
  end.

(** The loop of the v5 migration. *)
Fixpoint migrate (old : list (option LegacyItem)) : M (list Item) :=
  match old with
  | [] => ret []
  | None :: rest => migrate rest
  | Some it :: rest =>
      if bool_decide (l_kind it = Some (str "text")) then
        i <- uid ;;
        c <- (if orNum (l_createdAt it) 0 =? 0 then dateNow
              else ret (orNum (l_createdAt it) 0)) ;;
        tl <- migrate rest ;;
        ret (mkItem i KText c (Some (orStr (l_text it) [])) (Some (orStr (l_html it) []))
               None None None None None None None None :: tl)
      else if bool_decide (l_kind it = Some (str "image")) then
        let dataUrl := orStr (l_dataUrlPersisted it) (orStr (l_dataUrl it) []) in
        i <- uid ;;
        c <- (if orNum (l_createdAt it) 0 =? 0 then dateNow
              else ret (orNum (l_createdAt it) 0)) ;;
        tl <- migrate rest ;;
        ret (mkItem i KImage c None None None (Some (orStr (l_name it) (str "image")))
               (Some (orStr (l_mime it) [])) (Some (orNum (l_size it) 0))
               (Some dataUrl) None None None :: tl)
      else migrate rest
  end.

(** Fresh objects for the elements of an array. *)
Fixpoint allocAll (l : list Item) : M (list nat) :=
  match l with
  | [] => ret []
  | it :: rest => r <- alloc it ;; rs <- allocAll rest ;; ret (r :: rs)
  end.

Definition load : M unit :=
  res <- (w <- get ;; ret (storage w)) ;;
  refs <- allocAll (nullish (clip_hub_v6_state res) []) ;;
  modify (set_items refs) ;;;
  (match refs, clip_hub_v5_data res with
   | [], Some (e :: old) =>
       migrated <- migrate (e :: old) ;;
       mrefs <- allocAll migrated ;;
       modify (set_items mrefs) ;;;
       persistMetadata ;;;
       toast (str "Migrated v5 items")
   | _, _ => ret tt
   end) ;;;
  w <- get ;;
  restoreBlobs (items w).

Definition addItemLocal (r : nat) : M unit :=
  modify (fun w => set_items (r :: items w) w) ;;;
  persistMetadata.

Definition removeItem (i : jsstring) : M unit :=
  w <- get ;;
  match findIndex (heap w) i (items w) with
  | None => ret tt
  | Some idx =>
      let it := items w !! idx ≫= (fun r => heap w !! r) in
      modify (set_items (delete idx (items w))) ;;;
      (match it with
       | Some it =>
           let b := orStr (blobId it) [] in
           if truthy b && bool_decide (is_Some (blobCache w !! b)) then
             modify (fun w => set_blobCache (delete b (blobCache w)) w) ;;;
             _ <- runtimeSend "blob.delete" (Some (getPayload b)) ;;
             ret tt
           else ret tt
       | None => ret tt
       end) ;;;
      persistMetadata
  end.

Definition clearAll : M unit :=
  modify (set_blobCache ∅) ;;;
  modify (set_items []) ;;;
  persistMetadata ;;;
  _ <- runtimeSend "blob.clear" (Some emptyPayload) ;;
  toast (str "Cleared").

(** [persistBlobToBackground]: [false] when it throws. *)
Definition persistBlobToBackground (i : jsstring) (fileLike : File) : M bool :=
  n <- tick ;;
  if array_buffer_rejects env n then ret false
  else
    let buf := file_bytes fileLike in
    resp <- runtimeSend "blob.put"
              (Some (Worker.mkPayload (Some i) (Some buf)
                       (Some (orStr (Some (file_type fileLike))
                                (str "application/octet-stream")))
                       (Some (orStr (file_name fileLike) []))
                       (Some (orNum (Some (file_size fileLike))
                                (Z.of_nat (length buf))))
                       (Some (orNum (Some (file_lastModified fileLike)) 0)))) ;;
    ret (match resp with
         | Resolved (Some r) => Worker.resp_ok r
         | _ => false
         end).

(** [addBlob] up to and including [addItemLocal(item)]: the address of
    the item, its id and the file to persist. *)
Definition addBlob_begin (blob : File) (name : jsstring) (kindHint : Kind)
  : M (nat * jsstring * File) :=
  i <- uid ;;
  let originalName := orStr (Some name) (orStr (file_name blob) []) in
  let working :=
    if isImageType (file_type blob) then maybeCompressImage blob else blob in
  let mime := orStr (Some (file_type working))
                (orStr (Some (file_type blob)) (str "application/octet-stream")) in
  let fileName :=
    orStr (Some originalName)
      (if isImageType mime
       then str "image." ++ orStr (splitOn 47 mime !! 1%nat) (str "png")
       else str "file") in
  fileToPersist <- (if isFile working then ret working
                    else now <- dateNow ;;
                         ret (mkFile mime (file_bytes working) (Some fileName) now)) ;;
  modify (fun w => set_blobCache (<[i := fileToPersist]> (blobCache w)) w) ;;;
  let kind := if isImageType mime then KImage else kindHint in
  c <- dateNow ;;
  r <- alloc (mkItem i kind c None None (Some i) (Some fileName) (Some mime)
                (Some (orNum (Some (file_size fileToPersist)) 0)) None
                (Some true) None None) ;;
  addItemLocal r ;;;
  ret (r, i, fileToPersist).

(** The rest of [addBlob], once the item is in the list: the write to
    the Blob Store and what follows it.  [None]: the function never
    returns, its [await blobToDataUrl(...)] staying pending. *)
Definition addBlob_finish (r : nat) (i : jsstring) (fileToPersist : File)
  : M (option unit) :=
  ok <- persistBlobToBackground i fileToPersist ;;
  if ok then
    update r (set_pending false) ;;;
    persistMetadata ;;;
    ret (Some tt)
  else
    update r (set_pending false) ;;;
    update r (set_error (str "persist_failed")) ;;;
    dataUrl <- blobToDataUrl fileToPersist ;;
    match dataUrl with
    | ReadUrl u =>
        update r (set_dataUrl u) ;;;
        persistMetadata ;;;
        toast (str "Saved (fallback)") ;;;
        ret (Some tt)
    | ReadRejected =>
        toast (str "Saved (session only)") ;;;
        ret (Some tt)
    | ReadPending => ret None
    end.

Definition addBlob (blob : File) (name : jsstring) (kindHint : Kind)
  : M (option unit) :=
  p <- addBlob_begin blob name kindHint ;;
  let '(r, i, fileToPersist) := p in
  addBlob_finish r i fileToPersist.

Definition addText (text html : option jsstring) : M unit :=
  let t := trimEnd (orStr text []) in
  let h := trimEnd (orStr html []) in
  if negb (truthy t) && negb (truthy h) then ret tt
  else
    i <- uid ;;
    c <- dateNow ;;
    r <- alloc (mkItem i KText c (Some (orStr (Some t) [])) (Some (orStr (Some h) []))
                  None None None None None None None None) ;;
    addItemLocal r.

(** The object [addText] builds in world [w] for the trimmed strings
    [t] and [h]. *)
Definition textItem (t h : jsstring) (w : World) : Item :=
  mkItem (toStringRadix 36 (date_now env (ticks w)) ++ math_random env (S (ticks w)))
         KText (date_now env (S (S (ticks w)))) (Some t) (Some h)
         None None None None None None None None.

(** The second loop of [ingestCandidates]; the result is [added], or
    [None] when an [await addBlob(...)] never returns: the loop then goes
    no further. *)
Fixpoint processCandidates (candidates : list Candidate) (added : Z)
  : M (option Z) :=
  match candidates with
  | [] => ret (Some added)
  | CFile f :: rest =>
      r <- addBlob f (orStr (file_name f) []) KFile ;;
      match r with
      | Some _ => processCandidates rest (added + 1)
      | None => ret None
      end
  | CText cplain chtml :: rest =>
      let plain := orStr cplain [] in
      let html := orStr chtml [] in
      if negb (truthy plain) && negb (truthy html) then processCandidates rest added
      else
        addText (Some plain) (Some html) ;;;
        processCandidates rest (added + 1)
  end.

(** [ingestCandidates] after the de-duplication test.  [None]: the loop
    never ends, and no toast is shown. *)
Definition commitBatch (candidates : list Candidate) (sourceLabel : jsstring)
  : M (option unit) :=
  r <- processCandidates candidates 0 ;;
  match r with
  | None => ret None
  | Some added =>
      (if negb (added =? 0) then
         toast (str "Added " ++ numToString added ++ str " item"
                  ++ (if added >? 1 then str "s" else []))
       else if truthy sourceLabel then toast (str "Nothing to add")
       else ret tt) ;;;
      ret (Some tt)
  end.

Definition ingestCandidates (candidates : list Candidate) (sourceLabel : jsstring)
  : M (option unit) :=
  let sig := signature candidates in
  now <- dateNow ;;
  w <- get ;;
  if bool_decide (sig = fst (lastIngest w))
     && (now - snd (lastIngest w) <? INGEST_DEDUP_WINDOW_MS)
  then ret (Some tt)
  else
    modify (set_lastIngest (sig, now)) ;;;
    commitBatch candidates sourceLabel.

(** [dtItems = None]: no [clipboardData], or no [items]. *)
Definition ingestFromPasteEvent (dtItems : option (list DTItem))
  : M (option unit) :=
  match dtItems with
  | None | Some [] => ret (Some tt)
  | Some raw => ingestCandidates (normalizePaste raw) (str "paste")
  end.

(** [enqueueIngest(fn)]:
    [ingestQueue = ingestQueue.then(fn).catch(...)].  [stuck] tells
    whether a function enqueued before has never settled: [fn] is then
    never called.  The result is the state of the queue afterwards. *)
Definition enqueueIngest {A} (fn : M (option A)) (stuck : bool) : M bool :=
  if stuck then ret true
  else
    r <- fn ;;
    ret (match r with Some _ => false | None => true end).
End Script.

End Hub.

(* ===================================================================== *)
(** ** Concrete environments and worlds *)
(* ===================================================================== *)

Module Demo.
Import Hub.

Definition typeError : Thrown :=
  ThrownError (str "payload is undefined") (str "TypeError: payload is undefined").
Definition dataError : Thrown :=
  ThrownError (str "The parameter is not a valid key") (str "DataError").

(** An environment in which nothing fails: the clock advances by 20 ms
    at every reading, images do not decode. *)
Definition env : Env :=
  mkEnv (fun n => 1000 + 20 * Z.of_nat n)
        (fun n => toStringRadix 36 (Z.of_nat n))
        (fun _ => false) (fun _ => Delivered) (fun _ => false) (fun _ => ReadLoads)
        (fun _ => None) (fun _ _ _ => None)
        typeError dataError.

(** The same, but the first message to the worker is not delivered. *)
Definition flakyEnv : Env :=
  mkEnv (date_now env) (math_random env) (storage_set_rejects env)
        (fun n => match n with O => SendRejected | _ => Delivered end)
        (array_buffer_rejects env) (data_url_read env)
        (decode env) (encode env) typeError dataError.

(** The same as [env], but every image decodes as 2049 by 100 pixels. *)
Definition wideEnv : Env :=
  mkEnv (date_now env) (math_random env) (storage_set_rejects env)
        (send_fault env) (array_buffer_rejects env) (data_url_read env)
        (fun _ => Some (2049, 100)) (encode env) typeError dataError.

(** The same as [env], two seconds later. *)
Definition laterEnv : Env :=
  mkEnv (fun n => 3000 + 20 * Z.of_nat n) (math_random env)
        (storage_set_rejects env) (send_fault env) (array_buffer_rejects env)
        (data_url_read env) (decode env) (encode env) typeError dataError.

Definition emptyStorage : Storage := mkStorage None None.

(** The script as it starts on a page with nothing stored. *)
Definition start : World := freshSession emptyStorage ∅.

Definition helloPaste : list DTItem :=
  [DTString (str "text/plain") (str "hello");
   DTString (str "text/html") (str "<b>hello</b>")].

Definition helloBatch : list Candidate :=
  [CText (Some (str "hello")) (Some (str "<b>hello</b>"))].

(** After the paste of [helloPaste]. *)
Definition afterHello : World :=
  exec (ingestFromPasteEvent env (Some helloPaste)) start.

Definition png : File :=
  mkFile (str "image/png") [137; 80; 78]%N (Some (str "a.png")) 5.

(** A PNG one byte above the soft limit. *)
Definition bigPng : File :=
  mkFile (str "image/png") (replicate (Z.to_nat 2097153) 0%N)
         (Some (str "big.png")) 0.

(** After [png] was dropped on the drawer of [afterHello]. *)
Definition afterPng : World :=
  exec (ingestCandidates env [CFile png] (str "drop")) afterHello.

(** A later session on what [afterPng] left in the two stores. *)
Definition reloaded : World :=
  exec (load env) (freshSession (storage afterPng) (idb afterPng)).

(** The same session, when the [blob.get] of the load was not delivered:
    the image is listed, its blob is stored, the blob cache is empty. *)
Definition reloadedFlaky : World :=
  exec (load flakyEnv) (freshSession (storage afterPng) (idb afterPng)).

Definition pngId : jsstring := str "v47".

(** A v5 record with one note. *)
Definition legacyNote : LegacyItem :=
  mkLegacyItem (Some (str "text")) (Some 500) (Some (str "old note"))
               None None None None None None.

(** The first session of a user who comes from v5: nothing under the v6
    key, one note in the v5 record. *)
Definition upgraded : World :=
  exec (load env) (freshSession (mkStorage None (Some [Some legacyNote])) ∅).

(** An environment for a later session, whose ids are at least four
    characters long. *)
Definition nextEnv : Env :=
  mkEnv (fun n => 90000 + 20 * Z.of_nat n)
        (fun n => str "0000" ++ toStringRadix 36 (Z.of_nat n))
        (storage_set_rejects env) (send_fault env) (array_buffer_rejects env)
        (data_url_read env) (decode env) (encode env) typeError dataError.

(** An item that refers to a blob and has neither MIME type nor size. *)
Definition bareItem : Item :=
  mkItem (str "x1") KImage 900 None None (Some (str "b1")) (Some (str "a.png"))
         None None None None None None.

Definition bareRecord : Worker.BlobRecord :=
  Worker.mkBlobRecord (str "image/png") [137; 80; 78]%N (Some (str "image/png"))
                      (Some (str "a.png")) (Some 3) (Some 5) 950.

Definition bareWorld : World :=
  mkWorld [bareItem] [O] ∅ ([], 0) emptyStorage {[ str "b1" := bareRecord ]} [] O.

End Demo.

(* ===================================================================== *)
(** ** Text utilities of the content script *)
(* ===================================================================== *)

Module Text.

(** [s.replaceAll(c, by)] for a one-character pattern [c]. *)
Fixpoint replaceAllChar (c : N) (by_ : jsstring) (s : jsstring) : jsstring :=
  match s with
  | [] => []
  | x :: r => (if (x =? c)%N then by_ else [x]) ++ replaceAllChar c by_ r
  end.

Definition escapeHtml (s : jsstring) : jsstring :=
  replaceAllChar 39 (str "&#39;")
    (replaceAllChar 34 (str "&quot;")
       (replaceAllChar 62 (str "&gt;")
          (replaceAllChar 60 (str "&lt;")
             (replaceAllChar 38 (str "&amp;") s)))).

(** The entity of one character. *)
Definition escapeChar (c : N) : jsstring :=
  if (c =? 38)%N then str "&amp;"
  else if (c =? 60)%N then str "&lt;"
  else if (c =? 62)%N then str "&gt;"
  else if (c =? 34)%N then str "&quot;"
  else if (c =? 39)%N then str "&#39;"
  else [c].

(** The characters [0-9a-f]. *)
Definition isHexDigit (c : N) : bool :=
  ((48 <=? c) && (c <=? 57) || (97 <=? c) && (c <=? 102))%N.

(** The integers that a double holds exactly and that the script writes
    in full ([Number.isSafeInteger]): from 1e21 on, [String] and
    [toFixed] write a number in exponent notation, which the
    definitions below do not follow. *)
Definition safeInteger (z : Z) : Prop := - 2 ^ 53 <= z <= 2 ^ 53.

(** [x.toFixed(1)] for a rational [x >= 0] below 1e21: the tenths are
    rounded half up. *)
Definition toFixed1 (x : Q) : jsstring :=
  let tenths := Qfloor (x * 10 + (1 # 2))%Q in
  numToString (tenths / 10) ++ str "." ++ numToString (tenths mod 10).

Definition units : list jsstring := [str "B"; str "KB"; str "MB"; str "GB"].

(** The loop of [formatBytes]: [while (n >= 1024 && u < units.length - 1)].
    It runs at most three times. *)
Fixpoint formatLoop (fuel : nat) (n : Q) (u : nat) : Q * nat :=
  match fuel with
  | O => (n, u)
  | S fuel' =>
      if Qle_bool 1024 n && (u <? length units - 1)%nat
      then formatLoop fuel' (n / 1024)%Q (S u)
      else (n, u)
  end.

(** [formatBytes(bytes)] for a number of bytes that is a safe integer,
    as the sizes of blobs are.  Dividing such a double by 1024 is exact
    and [toFixed] rounds the exact value, so the rationals here are the
    doubles of the script; outside the safe integers the definition
    says nothing of the script. *)
Definition formatBytes (bytes : Z) : jsstring :=
  let (n, u) := formatLoop 3 (inject_Z bytes) 0 in
  let v := if (u =? 0)%nat then numToString (Qfloor (n + (1 # 2))%Q) else toFixed1 n in
  v ++ str " " ++ nth u units [].

(** [timeAgo(ts)] when [Date.now()] reads [now], for [now], [ts] and
    their difference safe integers, as times in milliseconds are.  The
    quotients of the script are doubles: below 2^53 a quotient by 1000,
    60 or 24 that is no integer is further from the next integer than
    the rounding of the division can reach, so [Math.floor] of it is the
    integer quotient; outside the safe integers the definition says
    nothing of the script. *)
Definition timeAgoAt (now ts : Z) : jsstring :=
  let d := now - ts in
  let s := d / 1000 in
  if s <? 60 then numToString s ++ str "s ago"
  else
    let m := s / 60 in
    if m <? 60 then numToString m ++ str "m ago"
    else
      let h := m / 60 in
      if h <? 24 then numToString h ++ str "h ago"
      else numToString (h / 24) ++ str "d ago".

End Text.

(* ===================================================================== *)
(** ** The content script: the gestures that feed the pipeline *)
(* ===================================================================== *)

Module Gestures.
Import Hub.

(** A blob handed out by [ClipboardItem.getType]: its bytes and what
    [blob.text()] resolves with. *)
Record ClipBlob := mkClipBlob {
  cb_bytes : list N;
  cb_text : jsstring
}.

(** A [ClipboardItem].  [clip_types = None]: [types] is no array;
    [clip_getType t = None]: the promise rejects. *)
Record ClipItem := mkClipItem {
  clip_types : option (list jsstring);
  clip_getType : jsstring -> option ClipBlob
}.

(** The characters that [replace(/[^a-z0-9]+/gi, '')] keeps. *)
Definition isAlnum (c : N) : bool :=
  ((48 <=? c) && (c <=? 57) || (65 <=? c) && (c <=? 90)
   || (97 <=? c) && (c <=? 122))%N.

(** The text read for the type [t]: empty unless [types] includes [t] and
    both [getType] and [text] resolve. *)
Definition clipText (c : ClipItem) (types : list jsstring) (t : jsstring) : jsstring :=
  if bool_decide (t ∈ types) then
    match clip_getType c t with
    | Some b => cb_text b
    | None => []
    end
  else [].

(** The files of the candidates, in order. *)
Definition filesOf (cs : list Candidate) : list File :=
  omap (fun c => match c with CFile f => Some f | CText _ _ => None end) cs.

(** The files a paste event holds, in order. *)
Definition rawFiles (raw : list DTItem) : list File :=
  omap (fun it => match it with DTFile f => f | _ => None end) raw.

(** Whether the second loop of [ingestCandidates] counts a candidate: a
    file always, a text unless both its strings are empty. *)
Definition counted (c : Candidate) : bool :=
  match c with
  | CFile _ => true
  | CText plain html => truthy (orStr plain []) || truthy (orStr html [])
  end.

(** The kind the v5 migration gives an entry, if it keeps it. *)
Definition legacyKind (o : option LegacyItem) : option Kind :=
  match o with
  | None => None
  | Some it =>
      if bool_decide (l_kind it = Some (str "text")) then Some KText
      else if bool_decide (l_kind it = Some (str "image")) then Some KImage
      else None
  end.

(** One entry of [textParts] in [copyAll]. *)
Definition copyTextPart (it : Item) : jsstring :=
  match kind it with
  | KText =>
      orStr (text it) (if truthy (orStr (html it) []) then str "[Rich Text]" else [])
  | KImage => str "[Image]"
  | KFile =>
      str "[File] " ++ orStr (name it) [] ++ str " ("
        ++ Text.formatBytes (orNum (size it) 0) ++ str ")"
  end.

(** The plain text that [copyAll] builds for the clipboard: the parts of
    the items, oldest first, joined by an empty line.  [None]: the list
    is empty, and [copyAll] ends with the toast "Empty". *)
Definition copyAllText (its : list Item) : option jsstring :=
  match its with
  | [] => None
  | _ => Some (joinWith [10; 10]%N (map copyTextPart (rev its)))
  end.

(** An item as [addBlob] leaves it once the write to the Blob Store has
    been answered, given the [kindHint] of the call. *)
Definition blobItemShape (kindHint : Kind) (it : Item) : Prop :=
  blobId it = Some (id it)
  /\ text it = None /\ html it = None
  /\ pending it = Some false
  /\ truthy (orStr (name it) []) = true
  /\ truthy (orStr (mime it) []) = true
  /\ kind it = (if isImageType (orStr (mime it) []) then KImage else kindHint)
  /\ (error it = None /\ dataUrl it = None
      \/ error it = Some (str "persist_failed")).

(** An item as [addText] makes it. *)
Definition textItemShape (it : Item) : Prop :=
  kind it = KText /\ blobId it = None /\ pending it = None /\ error it = None
  /\ (exists t, text it = Some t /\ trimEnd t = t)
  /\ (exists h, html it = Some h /\ trimEnd h = h)
  /\ truthy (orStr (text it) []) || truthy (orStr (html it) []) = true.

(** The toasts that [addBlob] and [persistMetadata] can show. *)
Definition saveToasts : list jsstring :=
  [str "Saved (fallback)"; str "Saved (session only)"; str "Storage quota hit"].

(** The item that the commit loop makes of a candidate. *)
Definition committedAs (c : Candidate) (it : Item) : Prop :=
  match c with
  | CText cplain chtml =>
      textItemShape it
      /\ text it = Some (trimEnd (orStr cplain []))
      /\ html it = Some (trimEnd (orStr chtml []))
  | CFile f =>
      blobItemShape KFile it
      /\ (truthy (orStr (file_name f) []) = true -> name it = file_name f)
  end.

(** The text candidates, in order. *)
Definition textsOf (cs : list Candidate) : list (option jsstring * option jsstring) :=
  omap (fun c => match c with CText p h => Some (p, h) | CFile _ => None end) cs.

(** A file candidate of Smart Paste for the clipboard item [c]: its type
    is one of the types of the item and no text type, its bytes are
    those of the blob of that type, and it is named "clipboard-image."
    or "clipboard." with an extension that is not empty. *)
Definition smartFileShape (c : ClipItem) (cand : Candidate) : Prop :=
  match cand with
  | CText _ _ => False
  | CFile f =>
      In (file_type f) (nullish (clip_types c) [])
      /\ startsWith (str "text/") (file_type f) = false
      /\ (exists blob, clip_getType c (file_type f) = Some blob
                       /\ file_bytes f = cb_bytes blob)
      /\ exists ext,
           truthy ext = true
           /\ file_name f
              = Some (if isImageType (file_type f)
                      then str "clipboard-image." ++ ext
                      else str "clipboard." ++ ext)
           /\ (isImageType (file_type f) = false -> forallb isAlnum ext = true)
  end.

Section Script.
Variable env : Env.

(** The inner loop of [smartPasteFromClipboardAPI] over the types of one
    clipboard item.  A [File] made without [lastModified] takes the
    current time.  The types are lower-case MIME types, as a
    [ClipboardItem] lists them. *)
Fixpoint smartFiles (c : ClipItem) (types : list jsstring) : M (list Candidate) :=
  match types with
  | [] => ret []
  | t :: rest =>
      if startsWith (str "image/") t then
        match clip_getType c t with
        | Some blob =>
            let extGuess := orStr (splitOn 47 t !! 1%nat) (str "png") in
            now <- dateNow env ;;
            tl <- smartFiles c rest ;;
            ret (CFile (mkFile t (cb_bytes blob)
                          (Some (str "clipboard-image." ++ extGuess)) now) :: tl)
        | None => smartFiles c rest
        end
      else if bool_decide (t = str "text/plain") || bool_decide (t = str "text/html")
      then smartFiles c rest
      else if negb (startsWith (str "text/") t) then
        match clip_getType c t with
        | Some blob =>
            let extGuess :=
              List.filter isAlnum (orStr (splitOn 47 t !! 1%nat) (str "bin")) in
            now <- dateNow env ;;
            tl <- smartFiles c rest ;;
            ret (CFile (mkFile t (cb_bytes blob)
                          (Some (str "clipboard." ++ orStr (Some extGuess) (str "bin")))
                          now) :: tl)
        | None => smartFiles c rest
        end
      else smartFiles c rest
  end.

(** The loop over the clipboard items. *)
Fixpoint smartLoop (clipItems : list ClipItem) : M (list Candidate) :=
  match clipItems with
  | [] => ret []
  | c :: rest =>
      let types := nullish (clip_types c) [] in
      let html := clipText c types (str "text/html") in
      let plain := clipText c types (str "text/plain") in
      let texts :=
        if truthy plain || truthy html
        then [CText (Some plain) (Some html)] else [] in
      files <- smartFiles c types ;;
      tl <- smartLoop rest ;;
      ret (texts ++ files ++ tl)
  end.

(** [smartPasteFromClipboardAPI]; [read = None]: [navigator.clipboard.read]
    rejects, and so does the function ([Some false]); [Some true]: it
    returns; [None]: it never settles, its [await ingestCandidates(...)]
    staying pending. *)
Definition smartPasteFromClipboardAPI (read : option (list ClipItem))
  : M (option bool) :=
  match read with
  | None => ret (Some false)
  | Some clipItems =>
      candidates <- smartLoop clipItems ;;
      r <- ingestCandidates env candidates (str "smart") ;;
      ret (match r with Some _ => Some true | None => None end)
  end.

(** The function that the click on the Smart Paste button enqueues. *)
Definition btnSmart (read : option (list ClipItem)) : M (option unit) :=
  r <- smartPasteFromClipboardAPI read ;;
  match r with
  | None => ret None
  | Some true => ret (Some tt)
  | Some false =>
      toast (str "Smart Paste blocked " ++ [8212%N] ++ str " use Ctrl/"
               ++ [8984%N] ++ str "+V") ;;;
      ret (Some tt)
  end.

(** The [drop] listener of the drawer, up to [enqueueIngest]: [None]
    when nothing is enqueued ([files = None]: no [dataTransfer], or no
    [files]), else the function that it enqueues. *)
Definition dropped (files : option (list File)) : option (M (option unit)) :=
  match files with
  | None | Some [] => None
  | Some fs => Some (ingestCandidates env (map CFile fs) (str "drop"))
  end.

(** The [drop] listener, given whether the ingest queue is stuck; the
    result is the state of the queue afterwards. *)
Definition onDrop (files : option (list File)) (stuck : bool) : M bool :=
  match dropped files with
  | None => ret stuck
  | Some fn => enqueueIngest fn stuck
  end.

End Script.
End Gestures.

(* ===================================================================== *)
(** ** More concrete environments and worlds *)
(* ===================================================================== *)

Module Samples.
Import Hub Gestures.

(** A worker whose IndexedDB does not fail. *)
Definition workerEnv : Worker.Env :=
  Worker.mkEnv 700 None Demo.typeError Demo.dataError.

Definition notePayload : Worker.Payload :=
  Worker.mkPayload (Some (str "b1")) (Some [1; 2; 3]%N) (Some (str "text/plain"))
                   (Some (str "n.txt")) None None.

Definition report : File :=
  mkFile (str "application/pdf") [37; 80; 68; 70]%N (Some (str "report.pdf")) 7.

(** A file of the type, size and name of [report], with other bytes. *)
Definition report2 : File :=
  mkFile (str "application/pdf") [37; 80; 68; 71]%N (Some (str "report.pdf")) 9.

(** After [report] was dropped on a fresh script. *)
Definition afterReport : World :=
  exec (onDrop Demo.env (Some [report]) false) Demo.start.

(** The same as [Demo.env], but [storage.local.set] always rejects. *)
Definition fullEnv : Env :=
  mkEnv (date_now Demo.env) (math_random Demo.env) (fun _ => true)
        (send_fault Demo.env) (array_buffer_rejects Demo.env)
        (data_url_read Demo.env) (decode Demo.env) (encode Demo.env)
        Demo.typeError Demo.dataError.

(** The same as [Demo.env], but no message reaches the worker. *)
Definition offlineEnv : Env :=
  mkEnv (date_now Demo.env) (math_random Demo.env) (storage_set_rejects Demo.env)
        (fun _ => SendRejected) (array_buffer_rejects Demo.env)
        (data_url_read Demo.env) (decode Demo.env) (encode Demo.env)
        Demo.typeError Demo.dataError.

(** The same as [Demo.env], but the files cannot be read: [arrayBuffer]
    rejects and [readAsDataURL] fails, as for a folder that was dropped
    or a file that was removed in the meantime. *)
Definition unreadableEnv : Env :=
  mkEnv (date_now Demo.env) (math_random Demo.env) (storage_set_rejects Demo.env)
        (send_fault Demo.env) (fun _ => true) (fun _ => ReadFails)
        (decode Demo.env) (encode Demo.env) Demo.typeError Demo.dataError.

(** The same, two seconds later. *)
Definition unreadableLaterEnv : Env :=
  mkEnv (date_now Demo.laterEnv) (math_random Demo.env) (storage_set_rejects Demo.env)
        (send_fault Demo.env) (fun _ => true) (fun _ => ReadFails)
        (decode Demo.env) (encode Demo.env) Demo.typeError Demo.dataError.

(** A session that starts on one stored image item and its blob record. *)
Definition restart : World :=
  freshSession (mkStorage (Some [Demo.bareItem]) None)
               {[ str "b1" := Demo.bareRecord ]}.

(** Two texts of 257 characters that differ in the last one. *)
Definition longNote1 : jsstring := replicate 256 97%N ++ [98%N].
Definition longNote2 : jsstring := replicate 256 97%N ++ [99%N].

(** After [longNote1] was pasted into a fresh script. *)
Definition afterLongNote : World :=
  exec (ingestCandidates Demo.env [CText (Some longNote1) None] (str "paste"))
       Demo.start.

Definition twoNotes : list Candidate :=
  [CText (Some (str "first ")) None; CText (Some (str "second")) (Some (str "<i>second</i>"))].

(** A note and two files in one batch. *)
Definition mixedBatch : list Candidate :=
  [CText (Some (str "see")) None; CFile report; CFile Demo.png].

(** A paste of a line of text followed by an image. *)
Definition mixedPaste : list DTItem :=
  [DTString (str "text/plain") (str "see"); DTFile (Some Demo.png)].

(** The id of the note in [Demo.upgraded]. *)
Definition oldNoteId : jsstring := str "rs1".

End Samples.

(* ##################################################################### *)
(** * Properties *)
(* ##################################################################### *)

(* ===================================================================== *)
(** ** The worker always answers *)
(* ===================================================================== *)

Module WorkerFacts.
Import Worker.

Lemma withStore_outbox {A} (env : Env) (fn : gmap jsstring BlobRecord ->
                                      Thrown + (A * gmap jsstring BlobRecord)) s r s' :
  withStore env fn s = (r, s') -> outbox s' = outbox s.
Proof.
  unfold withStore. intros H.
  destruct (idb_fault env); [by inversion H|].
  destruct (fn (blobs s)) as [e|[a b']]; by inversion H.
Qed.

(** The four store operations send nothing themselves. *)
Lemma putBlob_outbox (env : Env) p s r s' :
  putBlob env p s = (r, s') -> outbox s' = outbox s.
Proof.
  unfold putBlob, bind, throw, ret. destruct p as [p|]; [|by inversion 1].
  destruct (withStore _ _ s) as [[e|a] s1] eqn:E; intros H; inversion H; subst;
    eapply withStore_outbox; eauto.
Qed.

Lemma getBlob_outbox (env : Env) p s r s' :
  getBlob env p s = (r, s') -> outbox s' = outbox s.
Proof.
  unfold getBlob, bind, throw, ret. destruct p as [p|]; [|by inversion 1].
  destruct (withStore _ _ s) as [[e|a] s1] eqn:E; intros H.
  - inversion H; subst. eapply withStore_outbox; eauto.
  - destruct a as [[i rc]|]; inversion H; subst; eapply withStore_outbox; eauto.
Qed.

Lemma deleteBlob_outbox (env : Env) p s r s' :
  deleteBlob env p s = (r, s') -> outbox s' = outbox s.
Proof.
  unfold deleteBlob, bind, throw, ret. destruct p as [p|]; [|by inversion 1].
  destruct (withStore _ _ s) as [[e|a] s1] eqn:E; intros H; inversion H; subst;
    eapply withStore_outbox; eauto.
Qed.

Lemma clearAll_outbox (env : Env) s r s' :
  clearAll env s = (r, s') -> outbox s' = outbox s.
Proof.
  unfold clearAll, bind, ret.
  destruct (withStore _ _ s) as [[e|a] s1] eqn:E; intros H; inversion H; subst;
    eapply withStore_outbox; eauto.
Qed.

(** An operation followed by [sendResponse], under the [catch] clause:
    exactly one response, the operation's or the caught error's. *)
Lemma answer_once (op : M Response) s :
  (forall r s', op s = (r, s') -> outbox s' = outbox s) ->
  exists resp,
    outbox (snd (tryCatch (r <- op ;; sendResponse r)
                   (fun e => sendResponse (RespErr (errorText e))) s))
    = outbox s ++ [resp]
    /\ match fst (op s) with
       | inl e => resp = RespErr (errorText e)
       | inr r => resp = r
       end.
Proof.
  intros Hop. unfold tryCatch, bind.
  specialize (Hop (fst (op s)) (snd (op s)) (surjective_pairing _)).
  destruct (op s) as [[e|r] s1]; simpl in *; rewrite Hop; eauto.
Qed.

Lemma dispatch_throw_fst (op : M Response) s e s' :
  (r <- op ;; sendResponse r) s = (inl e, s') -> fst (op s) = inl e.
Proof.
  unfold bind. destruct (op s) as [[e1|r] s1]; simpl; [by inversion 1|].
  unfold sendResponse. by inversion 1.
Qed.

Local Ltac known_tag :=
  let t0 := fresh "t" in let p0 := fresh "p" in let H := fresh in
  intros t0 p0 [= <- <-]; unfold knownType; intros H;
  repeat match goal with E : isType _ _ = _ |- _ => rewrite E in H; clear E end;
  discriminate H.

(** C9: every message delivered to the worker-side Blob Store gets
    exactly one response.  A message that is no object is answered
    [bad_request]; an unknown request tag is answered [unknown_type]; a
    [blob.get] for an id without a stored record is answered [not_found];
    and whatever the [try] block throws (a payload that cannot be
    destructured, an invalid key, an IndexedDB failure) is answered
    [{ok: false, error: String(e.message || e)}]. *)
Theorem listener_always_answers (env : Env) (msg : Message)
    (b : gmap jsstring BlobRecord) :
  exists resp,
    responses env msg b = [resp]
    /\ (msg = MsgNotObject -> resp = RespErr (str "bad_request"))
    /\ (forall t p, msg = MsgObject t p -> knownType t = false ->
          resp = RespErr (str "unknown_type"))
    /\ (forall p i, msg = MsgObject (Some (str "blob.get")) (Some p) ->
          pl_id p = Some i -> idb_fault env = None -> b !! i = None ->
          resp = RespErr (str "not_found"))
    /\ (forall e s', dispatch env msg (mkState b []) = (inl e, s') ->
          resp = RespErr (errorText e)).
Proof.
  unfold responses, listener.
  destruct msg as [|t p].
  - exists (RespErr (str "bad_request")).
    split; [done|]. split; [done|]. split; [done|]. split; [done|].
    intros e s'. by inversion 1.
  - cbn [dispatch].
    destruct (isType t "blob.put") eqn:Eput;
      [|destruct (isType t "blob.get") eqn:Eget;
        [|destruct (isType t "blob.delete") eqn:Edel;
          [|destruct (isType t "blob.clear") eqn:Eclr;
            [|destruct (isType t "ping") eqn:Eping]]]].
    + destruct (answer_once (putBlob env p) (mkState b [])) as (resp & Ho & Hr);
        [intros; by eapply putBlob_outbox|].
      exists resp. split; [exact Ho|]. split; [done|]. split; [known_tag|]. split.
      * intros p0 i [= -> ->]. done.
      * intros e s' He. apply dispatch_throw_fst in He. by rewrite He in Hr.
    + destruct (answer_once (getBlob env p) (mkState b [])) as (resp & Ho & Hr);
        [intros; by eapply getBlob_outbox|].
      exists resp. split; [exact Ho|]. split; [done|]. split; [known_tag|]. split.
      * intros p0 i [= _ ->] Hid Hf Hb. revert Hr.
        unfold getBlob, bind, withStore. rewrite Hf, Hid. cbn.
        rewrite Hb. cbn. done.
      * intros e s' He. apply dispatch_throw_fst in He. by rewrite He in Hr.
    + destruct (answer_once (deleteBlob env p) (mkState b [])) as (resp & Ho & Hr);
        [intros; by eapply deleteBlob_outbox|].
      exists resp. split; [exact Ho|]. split; [done|]. split; [known_tag|]. split.
      * intros p0 i [= -> ->]. done.
      * intros e s' He. apply dispatch_throw_fst in He. by rewrite He in Hr.
    + destruct (answer_once (clearAll env) (mkState b [])) as (resp & Ho & Hr);
        [intros; by eapply clearAll_outbox|].
      exists resp. split; [exact Ho|]. split; [done|]. split; [known_tag|]. split.
      * intros p0 i [= -> ->]. done.
      * intros e s' He. apply dispatch_throw_fst in He. by rewrite He in Hr.
    + exists (RespPong (date_now env)).
      split; [done|]. split; [done|]. split; [known_tag|]. split.
      * intros p0 i [= -> ->]. done.
      * intros e s'. by inversion 1.
    + exists (RespErr (str "unknown_type")).
      split; [done|]. split; [done|]. split; [done|]. split.
      * intros p0 i [= -> ->]. done.
      * intros e s'. by inversion 1.
Qed.

(** *** The four requests of the content script, as the worker handles them *)

Lemma dispatch_put (env : Env) p :
  dispatch env (MsgObject (Some (str "blob.put")) p)
  = (r <- putBlob env p ;; sendResponse r).
Proof. done. Qed.

Lemma dispatch_get (env : Env) p :
  dispatch env (MsgObject (Some (str "blob.get")) p)
  = (r <- getBlob env p ;; sendResponse r).
Proof. done. Qed.

Lemma dispatch_delete (env : Env) p :
  dispatch env (MsgObject (Some (str "blob.delete")) p)
  = (r <- deleteBlob env p ;; sendResponse r).
Proof. done. Qed.

Lemma dispatch_clear (env : Env) p :
  dispatch env (MsgObject (Some (str "blob.clear")) p)
  = (r <- clearAll env ;; sendResponse r).
Proof. done. Qed.

(** An IndexedDB failure leaves the store as it was, whatever the
    request. *)
Lemma fault_keeps_store (env : Env) e msg b :
  idb_fault env = Some e -> blobsAfter env msg b = b.
Proof.
  intros Hf. unfold blobsAfter, listener, tryCatch.
  destruct msg as [|t p]; [done|]. cbn [dispatch].
  repeat match goal with |- context [if ?c then _ else _] => destruct c end;
    try done;
    unfold bind, putBlob, getBlob, deleteBlob, clearAll, withStore, throw, bind;
    destruct p; rewrite ?Hf; done.
Qed.

Lemma put_handled (env : Env) p i b :
  idb_fault env = None -> pl_id p = Some i ->
  responses env (MsgObject (Some (str "blob.put")) (Some p)) b = [RespOk]
  /\ blobsAfter env (MsgObject (Some (str "blob.put")) (Some p)) b
     = <[i := mkBlobRecord (orStr (pl_mime p) (str "application/octet-stream"))
                (blobPart (pl_buffer p)) (pl_mime p) (pl_name p) (pl_size p)
                (pl_lastModified p) (date_now env)]> b.
Proof.
  intros Hf Hi. unfold responses, blobsAfter, listener, tryCatch.
  rewrite dispatch_put. unfold bind, putBlob, withStore, bind.
  rewrite Hf, Hi. done.
Qed.

Lemma put_answer_ok (env : Env) p b r :
  head (responses env (MsgObject (Some (str "blob.put")) (Some p)) b) = Some r ->
  resp_ok r = true ->
  idb_fault env = None /\ exists i, pl_id p = Some i.
Proof.
  unfold responses, listener, tryCatch.
  rewrite dispatch_put. unfold bind, putBlob, withStore, bind.
  destruct (idb_fault env) as [e|]; [simpl; by intros [= <-]|].
  destruct (pl_id p) as [i|]; [eauto|].
  simpl. by intros [= <-].
Qed.

Lemma delete_handled (env : Env) i b :
  idb_fault env = None ->
  blobsAfter env (MsgObject (Some (str "blob.delete"))
                    (Some (mkPayload (Some i) None None None None None))) b
  = delete i b.
Proof.
  intros Hf. unfold blobsAfter, listener, tryCatch.
  rewrite dispatch_delete. unfold bind, deleteBlob, withStore, bind.
  rewrite Hf. done.
Qed.

Lemma clear_handled (env : Env) p b :
  idb_fault env = None ->
  blobsAfter env (MsgObject (Some (str "blob.clear")) p) b = ∅.
Proof.
  intros Hf. unfold blobsAfter, listener, tryCatch.
  rewrite dispatch_clear. unfold bind, clearAll, withStore, bind.
  rewrite Hf. done.
Qed.

(** A [blob.get] never writes. *)
Lemma get_keeps_store (env : Env) p b :
  blobsAfter env (MsgObject (Some (str "blob.get")) p) b = b.
Proof.
  unfold blobsAfter, listener, tryCatch.
  rewrite dispatch_get. unfold bind, getBlob, withStore, throw, bind.
  destruct p as [p|]; [|done].
  destruct (idb_fault env); [done|].
  destruct (pl_id p) as [i|]; [|done]. simpl.
  by destruct (b !! i).
Qed.

(** The answer to a [blob.get] that carries a blob is the stored record
    of that id. *)
Lemma get_answer (env : Env) i b i' buffer m n sz lm :
  head (responses env (MsgObject (Some (str "blob.get"))
                         (Some (mkPayload (Some i) None None None None None))) b)
  = Some (RespBlob i' buffer m n sz lm) ->
  exists r, b !! i = Some r /\ buffer = rec_blob_bytes r
    /\ m = orStr (rec_mime r)
             (orStr (Some (rec_blob_type r)) (str "application/octet-stream"))
    /\ sz = nullish (rec_size r) (Z.of_nat (length (rec_blob_bytes r))).
Proof.
  unfold responses, listener, tryCatch.
  rewrite dispatch_get. unfold bind, getBlob, withStore, throw, bind. simpl.
  destruct (idb_fault env); [done|]. simpl.
  destruct (b !! i) as [r|]; [|done]. simpl.
  intros [= <- <- <- <- <- <-]. eauto.
Qed.

End WorkerFacts.

(* ===================================================================== *)
(** ** Strings *)
(* ===================================================================== *)

Lemma truthy_nil (s : jsstring) : truthy s = false <-> s = [].
Proof. destruct s; split; done. Qed.

Lemma truthy_cons (s : jsstring) : truthy s = true <-> s <> [].
Proof. destruct s; split; done. Qed.

Lemma orStr_Some_nil (s : jsstring) : orStr (Some s) [] = s.
Proof. by destruct s. Qed.

Lemma trimStart_blank (s : jsstring) :
  Forall (fun c => isWhiteSpace c = true) s -> trimStart s = [].
Proof. induction 1 as [|c r Hc _ IH]; simpl; [done|]. by rewrite Hc. Qed.

Lemma trimEnd_blank (s : jsstring) :
  Forall (fun c => isWhiteSpace c = true) s -> trimEnd s = [].
Proof.
  intros H. unfold trimEnd. rewrite trimStart_blank; [done|].
  by apply List.Forall_rev.
Qed.

Lemma trimStart_suffix (s : jsstring) : exists p, s = p ++ trimStart s.
Proof.
  induction s as [|c r [p Hp]]; simpl; [by exists []|].
  destruct (isWhiteSpace c); [|by exists []].
  exists (c :: p). simpl. by rewrite <- Hp.
Qed.

(** [trimEnd] leaves a prefix: nothing is left of an empty string. *)
Lemma trimEnd_prefix (s : jsstring) : exists q, s = trimEnd s ++ q.
Proof.
  unfold trimEnd. destruct (trimStart_suffix (rev s)) as [p Hp].
  exists (rev p). rewrite <- rev_app_distr, <- Hp. by rewrite rev_involutive.
Qed.

Lemma trimEnd_truthy (s : jsstring) : truthy (trimEnd s) = true -> truthy s = true.
Proof.
  destruct (trimEnd_prefix s) as [q Hq]. intros H.
  rewrite Hq. by destruct (trimEnd s).
Qed.

(* ===================================================================== *)
(** ** The content script: frame lemmas *)
(* ===================================================================== *)

Module HubFacts.
Import Hub.

#[local] Arguments str : simpl never.
#[local] Arguments Worker.responses : simpl never.
#[local] Arguments Worker.blobsAfter : simpl never.
#[local] Arguments dataUrlOf : simpl never.

Section Facts.
Variable env : Env.

Lemma exec_bind {A B} (m : M A) (k : A -> M B) w :
  exec (bind m k) w = exec (k (fst (m w))) (snd (m w)).
Proof. unfold exec, bind. by destruct (m w). Qed.

Lemma run_bind {A B} (m : M A) (k : A -> M B) w :
  bind m k w = k (fst (m w)) (snd (m w)).
Proof. unfold bind. by destruct (m w). Qed.

Ltac run_steps :=
  repeat (progress (rewrite ?run_bind; cbn [tick ret fst snd get modify])).

(** What [persistMetadata] leaves alone. *)
Lemma persistMetadata_frame w :
  let w' := exec (persistMetadata env) w in
  heap w' = heap w /\ items w' = items w /\ blobCache w' = blobCache w
  /\ lastIngest w' = lastIngest w /\ idb w' = idb w
  /\ ticks w' = S (ticks w).
Proof.
  unfold persistMetadata, storageSet, exec, bind, get, tick, toast, modify, ret.
  simpl. by destruct (storage_set_rejects env (ticks w)).
Qed.

(** What it writes, when the write is accepted. *)
Lemma persistMetadata_storage w :
  storage_set_rejects env (ticks w) = false ->
  storage (exec (persistMetadata env) w)
  = mkStorage (Some (map strip (itemsOf w))) (clip_hub_v5_data (storage w)).
Proof.
  intros H.
  unfold persistMetadata, storageSet, exec, bind, get, tick, toast, modify, ret.
  simpl. by rewrite H.
Qed.

Lemma persistMetadata_legacy w :
  clip_hub_v5_data (storage (exec (persistMetadata env) w))
  = clip_hub_v5_data (storage w).
Proof.
  unfold persistMetadata, storageSet, exec, bind, get, tick, toast, modify, ret.
  simpl. by destruct (storage_set_rejects env (ticks w)).
Qed.

Lemma addText_blank text html w :
  trimEnd (orStr text []) = [] -> trimEnd (orStr html []) = [] ->
  addText env text html w = (tt, w).
Proof. intros Ht Hh. unfold addText. by rewrite Ht, Hh. Qed.

Lemma addText_commit text html w :
  truthy (trimEnd (orStr text [])) || truthy (trimEnd (orStr html [])) = true ->
  let w' := exec (addText env text html) w in
  heap w' = heap w ++ [textItem env (trimEnd (orStr text [])) (trimEnd (orStr html [])) w]
  /\ items w' = length (heap w) :: items w
  /\ blobCache w' = blobCache w /\ lastIngest w' = lastIngest w /\ idb w' = idb w.
Proof.
  intros H. unfold addText.
  replace (negb (truthy (trimEnd (orStr text []))) && negb (truthy (trimEnd (orStr html []))))
    with false by (by destruct (truthy _), (truthy _)).
  rewrite !orStr_Some_nil.
  unfold uid, dateNow, alloc, addItemLocal.
  rewrite !exec_bind. simpl.
  match goal with |- context [exec (persistMetadata env) ?x] =>
    destruct (persistMetadata_frame x) as (Hh & Hi & Hc & Hl & Hd & _) end.
  simpl in *. rewrite Hh, Hi, Hc, Hl, Hd. done.
Qed.
(** A text candidate in the second loop of [ingestCandidates]: the world
    after it is the world after [addText]. *)
Lemma processCandidates_added cs a b w :
  snd (processCandidates env cs a w) = snd (processCandidates env cs b w).
Proof.
  revert a b w. induction cs as [|c cs IH]; intros a b w; [done|].
  destruct c as [plain html|f]; simpl.
  - destruct (negb (truthy (orStr plain [])) && negb (truthy (orStr html []))); [apply IH|].
    rewrite !run_bind. apply IH.
  - rewrite !run_bind.
    destruct (fst (addBlob env f (orStr (file_name f) []) KFile w)); [apply IH|done].
Qed.

Lemma processCandidates_text plain html rest added w :
  exec (processCandidates env (CText plain html :: rest) added) w
  = exec (processCandidates env rest 0)
      (exec (addText env (Some (orStr plain [])) (Some (orStr html []))) w).
Proof.
  unfold exec. simpl.
  destruct (negb (truthy (orStr plain [])) && negb (truthy (orStr html []))) eqn:E.
  - apply andb_prop in E as [E1 E2].
    apply negb_true_iff, truthy_nil in E1. apply negb_true_iff, truthy_nil in E2.
    rewrite addText_blank; simpl; rewrite ?E1, ?E2; try done.
    apply processCandidates_added.
  - rewrite run_bind. apply processCandidates_added.
Qed.

(** A file candidate: the loop goes on after [addBlob] when [addBlob]
    returns, and stays where [addBlob] stays otherwise. *)
Lemma processCandidates_file_run f rest added w :
  processCandidates env (CFile f :: rest) added w
  = match fst (addBlob env f (orStr (file_name f) []) KFile w) with
    | Some _ =>
        processCandidates env rest (added + 1)
          (exec (addBlob env f (orStr (file_name f) []) KFile) w)
    | None => (None, exec (addBlob env f (orStr (file_name f) []) KFile) w)
    end.
Proof.
  unfold exec. cbn [processCandidates]. rewrite run_bind.
  by destruct (fst (addBlob env f (orStr (file_name f) []) KFile w)).
Qed.

Lemma processCandidates_file f rest added w :
  exec (processCandidates env (CFile f :: rest) added) w
  = match fst (addBlob env f (orStr (file_name f) []) KFile w) with
    | Some _ =>
        exec (processCandidates env rest 0)
          (exec (addBlob env f (orStr (file_name f) []) KFile) w)
    | None => exec (addBlob env f (orStr (file_name f) []) KFile) w
    end.
Proof.
  unfold exec at 1. rewrite processCandidates_file_run.
  destruct (fst (addBlob env f (orStr (file_name f) []) KFile w)); [|done].
  apply processCandidates_added.
Qed.

Lemma processCandidates_nil added w :
  exec (processCandidates env [] added) w = w.
Proof. done. Qed.

Lemma orStr_idem (o : option jsstring) : orStr (Some (orStr o [])) [] = orStr o [].
Proof. apply orStr_Some_nil. Qed.

(** C6 (amended): a text candidate whose plain or html content is
    non-empty once trailing white space is removed creates exactly one
    item, of kind [text], at the head of the list; a candidate of which
    nothing is left after trimming (in particular one with both contents
    empty) creates none, and leaves the list and the objects as they
    were. *)
Theorem text_candidate_commit plain html w :
  let w' := exec (processCandidates env [CText plain html] 0) w in
  (truthy (trimEnd (orStr plain [])) = true \/ truthy (trimEnd (orStr html [])) = true ->
     exists it, heap w' = heap w ++ [it]
                /\ items w' = length (heap w) :: items w
                /\ kind it = KText)
  /\ (trimEnd (orStr plain []) = [] -> trimEnd (orStr html []) = [] ->
        heap w' = heap w /\ items w' = items w).
Proof.
  intros w'. subst w'. rewrite processCandidates_text, processCandidates_nil.
  split.
  - intros H.
    destruct (addText_commit (Some (orStr plain [])) (Some (orStr html [])) w)
      as (Hh & Hi & _).
    { rewrite !orStr_idem. destruct H as [-> | ->]; [done|apply orb_true_r]. }
    eexists. split; [exact Hh|]. split; [exact Hi|]. done.
  - intros Hp Hh. unfold exec.
    rewrite addText_blank; rewrite ?orStr_idem; done.
Qed.

(** C10: the item committed for a text candidate holds, as [text] and
    [html], the candidate's plain and html contents with the trailing
    white space removed; and a candidate whose plain and html are both
    white space only creates no item. *)
Theorem text_item_is_trimmed cplain chtml w :
  let w' := exec (processCandidates env [CText cplain chtml] 0) w in
  (heap w' = heap w /\ items w' = items w
   \/ exists it, heap w' = heap w ++ [it]
                 /\ items w' = length (heap w) :: items w
                 /\ text it = Some (trimEnd (orStr cplain []))
                 /\ html it = Some (trimEnd (orStr chtml [])))
  /\ (Forall (fun c => isWhiteSpace c = true) (orStr cplain []) ->
        Forall (fun c => isWhiteSpace c = true) (orStr chtml []) ->
        heap w' = heap w /\ items w' = items w).
Proof.
  intros w'. subst w'. rewrite processCandidates_text, processCandidates_nil.
  destruct (truthy (trimEnd (orStr cplain [])) || truthy (trimEnd (orStr chtml []))) eqn:E.
  - destruct (addText_commit (Some (orStr cplain [])) (Some (orStr chtml [])) w)
      as (Hh & Hi & _); [by rewrite !orStr_idem|].
    rewrite !orStr_idem in Hh.
    split.
    + right. eexists. split; [exact Hh|]. split; [exact Hi|]. done.
    + intros Hp Hq. apply trimEnd_blank in Hp, Hq. by rewrite Hp, Hq in E.
  - apply orb_false_elim in E as [E1 E2]. apply truthy_nil in E1, E2.
    unfold exec. rewrite addText_blank; rewrite ?orStr_idem; try done.
    simpl. split; [by left|done].
Qed.
(** *** Paste normalisation *)

Lemma pasteLoop_acc raw candidates p :
  pasteLoop raw candidates p
  = (candidates ++ fst (pasteLoop raw [] p), snd (pasteLoop raw [] p)).
Proof.
  revert candidates p. induction raw as [|it raw IH]; intros candidates p.
  - simpl. by rewrite app_nil_r.
  - destruct it as [file|type s|]; simpl; [|apply IH|apply IH].
    rewrite IH. rewrite (IH (match file with Some _ => _ | None => _ end)).
    simpl. destruct file; by rewrite <- ?app_assoc.
Qed.

Lemma pasteLoop_strings entries candidates p :
  forallb notFile entries = true ->
  pasteLoop entries candidates p
  = (candidates,
     fold_left (fun p it => match it with
                            | DTString type s => mergeString type s p
                            | _ => p
                            end) entries p).
Proof.
  revert p. induction entries as [|it entries IH]; intros p H; [done|].
  simpl in H. apply andb_prop in H as [Hit H].
  destruct it; try done; simpl; by apply IH.
Qed.

Lemma pasteLoop_app a b candidates p :
  pasteLoop (a ++ b) candidates p
  = pasteLoop b (fst (pasteLoop a candidates p)) (snd (pasteLoop a candidates p)).
Proof.
  revert candidates p. induction a as [|it a IH]; intros candidates p; [done|].
  destruct it; simpl; apply IH.
Qed.

Lemma normalizePaste_strings entries :
  forallb notFile entries = true ->
  normalizePaste entries = flushText (coalesce entries).
Proof.
  intros H. unfold normalizePaste, coalesce. by rewrite pasteLoop_strings.
Qed.

Lemma normalizePaste_file entries file rest :
  forallb notFile entries = true ->
  normalizePaste (entries ++ DTFile file :: rest)
  = flushText (coalesce entries)
      ++ match file with Some f => [CFile f] | None => [] end
      ++ normalizePaste rest.
Proof.
  intros H. unfold normalizePaste at 1. rewrite pasteLoop_app.
  rewrite (pasteLoop_strings _ _ _ H). simpl.
  rewrite pasteLoop_acc. unfold normalizePaste, coalesce.
  destruct (pasteLoop rest [] ([], [])) as [c p]. simpl.
  destruct file; by rewrite <- ?app_assoc.
Qed.

Lemma toast_frame msg w :
  let w' := exec (toast msg) w in
  heap w' = heap w /\ items w' = items w /\ storage w' = storage w
  /\ idb w' = idb w /\ blobCache w' = blobCache w /\ lastIngest w' = lastIngest w.
Proof. done. Qed.

(** What [commitBatch] does to the objects and to the list is what its
    loop does. *)
Lemma commitBatch_frame cs label w :
  let w1 := exec (processCandidates env cs 0) w in
  let w' := exec (commitBatch env cs label) w in
  heap w' = heap w1 /\ items w' = items w1 /\ storage w' = storage w1
  /\ idb w' = idb w1 /\ blobCache w' = blobCache w1 /\ lastIngest w' = lastIngest w1.
Proof.
  unfold commitBatch. cbv zeta. rewrite exec_bind. fold (exec (processCandidates env cs 0) w).
  destruct (fst (processCandidates env cs 0 w)) as [added|]; [|done].
  rewrite exec_bind.
  destruct (negb (added =? 0)); [done|].
  by destruct (truthy label).
Qed.
(** *** Messages to the worker *)

Lemma runtimeSend_frame type payload w :
  let w' := snd (runtimeSend env type payload w) in
  heap w' = heap w /\ items w' = items w /\ blobCache w' = blobCache w
  /\ lastIngest w' = lastIngest w /\ storage w' = storage w
  /\ toasts w' = toasts w.
Proof.
  unfold runtimeSend, bind, tick, dateNow, get, modify, ret. simpl.
  by destruct (send_fault env (ticks w)).
Qed.

Lemma runtimeSend_run type payload w :
  runtimeSend env type payload w
  = match send_fault env (ticks w) with
    | SendRejected => (Rejected, set_ticks (S (ticks w)) w)
    | _ =>
        let msg := Worker.MsgObject (Some (str type)) payload in
        (Resolved (head (Worker.responses (workerEnvAt env (ticks w)) msg (idb w))),
         set_idb (Worker.blobsAfter (workerEnvAt env (ticks w)) msg (idb w))
           (set_ticks (S (S (ticks w))) w))
    end.
Proof.
  unfold runtimeSend, workerEnvAt, bind, tick, dateNow, get, modify, ret. simpl.
  by destruct (send_fault env (ticks w)).
Qed.
(** *** Persisting a blob *)

(** The record [blob.put] stores for [fileLike] under [i], saved at
    [savedAt]. *)
Lemma persistBlob_spec i f w :
  let ok := fst (persistBlobToBackground env i f w) in
  let w' := snd (persistBlobToBackground env i f w) in
  heap w' = heap w /\ items w' = items w /\ blobCache w' = blobCache w
  /\ lastIngest w' = lastIngest w /\ storage w' = storage w
  /\ toasts w' = toasts w
  /\ (if ok
      then exists rec, idb w' !! i = Some rec
                       /\ Worker.rec_blob_bytes rec = file_bytes f
      else idb w' = idb w).
Proof.
  unfold persistBlobToBackground. cbv zeta. rewrite run_bind. simpl.
  destruct (array_buffer_rejects env (ticks w)); [done|].
  rewrite run_bind, runtimeSend_run. simpl.
  destruct (send_fault env (S (ticks w))) as [| |e] eqn:Ef; simpl.
  - set (p := Worker.mkPayload _ _ _ _ _ _).
    destruct (WorkerFacts.put_handled (workerEnvAt env (S (ticks w))) p i (idb w))
      as [Hr Hb]; [unfold workerEnvAt; simpl; by rewrite Ef|done|].
    rewrite Hr, Hb. simpl. repeat split; try done.
    eexists. rewrite lookup_insert_eq. done.
  - done.
  - rewrite (WorkerFacts.fault_keeps_store _ e);
      [|unfold workerEnvAt; simpl; by rewrite Ef].
    repeat split; try done.
    match goal with |- context [head ?l] => destruct (head l) as [r|] eqn:Er end;
      [|done].
    destruct (Worker.resp_ok r) eqn:Eok; [|done].
    destruct (WorkerFacts.put_answer_ok _ _ _ _ Er Eok) as [Hf _].
    unfold workerEnvAt in Hf. simpl in Hf. by rewrite Ef in Hf.
Qed.

Lemma update_run r g w : update r g w = (tt, set_heap (alter g r (heap w)) w).
Proof. done. Qed.

Lemma blobToDataUrl_run f w :
  blobToDataUrl env f w
  = (match data_url_read env (ticks w) with
     | ReadLoads => ReadUrl (dataUrlOf f)
     | ReadFails => ReadPending
     | ReadThrows => ReadRejected
     end,
     set_ticks (S (ticks w)) w).
Proof.
  unfold blobToDataUrl, bind, tick, ret. simpl.
  by destruct (data_url_read env (ticks w)).
Qed.

(** The three ways [addBlob_finish] ends. *)
Lemma addBlob_finish_cases r i f w :
  let w' := exec (addBlob_finish env r i f) w in
  items w' = items w /\ lastIngest w' = lastIngest w
  /\ blobCache w' = blobCache w
  /\ ((heap w' = alter (set_pending false) r (heap w)
       /\ exists rec, idb w' !! i = Some rec
                      /\ Worker.rec_blob_bytes rec = file_bytes f)
      \/ (heap w' = alter (set_dataUrl (dataUrlOf f)) r
                      (alter (set_error (str "persist_failed")) r
                         (alter (set_pending false) r (heap w)))
          /\ idb w' = idb w)
      \/ (heap w' = alter (set_error (str "persist_failed")) r
                      (alter (set_pending false) r (heap w))
          /\ idb w' = idb w /\ storage w' = storage w)).
Proof.
  unfold addBlob_finish. cbv zeta. rewrite exec_bind.
  destruct (persistBlob_spec i f w) as (Hh & Hi & Hc & Hl & Hs & _ & Hok).
  destruct (fst (persistBlobToBackground env i f w)).
  - rewrite exec_bind, update_run. cbn [fst snd]. rewrite exec_bind.
    match goal with |- context [persistMetadata env ?x] =>
      destruct (persistMetadata_frame x) as (Hh' & Hi' & Hc' & Hl' & Hd' & _) end.
    unfold exec in *.
    simpl in *. rewrite Hh', Hi', Hc', Hl', Hd', Hh, Hi, Hc, Hl.
    repeat split; try done. by left.
  - rewrite exec_bind, update_run. cbn [fst snd].
    rewrite exec_bind, update_run. cbn [fst snd].
    rewrite exec_bind, blobToDataUrl_run. cbn [fst snd].
    destruct (data_url_read env _); simpl.
    + rewrite !exec_bind, update_run. cbn [fst snd].
      match goal with |- context [persistMetadata env ?x] =>
        destruct (persistMetadata_frame x) as (Hh' & Hi' & Hc' & Hl' & Hd' & _) end.
      unfold exec in *.
      simpl in *. rewrite Hh', Hi', Hc', Hl', Hd', Hh, Hi, Hc, Hl, Hok.
      repeat split; try done. right. by left.
    + rewrite Hh, Hi, Hc, Hl, Hs, Hok. repeat split; try done. right. by right.
    + rewrite Hh, Hi, Hc, Hl, Hs, Hok. repeat split; try done. right. by right.
Qed.

(** When [addBlob_finish] returns and when it does not: it stays
    pending exactly when the write to the Blob Store fails and the read
    of the fallback fails too; it has then shown no toast. *)
Lemma addBlob_finish_result r i f w :
  let ok := fst (persistBlobToBackground env i f w) in
  let w1 := snd (persistBlobToBackground env i f w) in
  (fst (addBlob_finish env r i f w) = None
   <-> ok = false /\ data_url_read env (ticks w1) = ReadFails)
  /\ (fst (addBlob_finish env r i f w) = None ->
      toasts (exec (addBlob_finish env r i f) w) = toasts w).
Proof.
  cbv zeta. unfold addBlob_finish, exec. rewrite run_bind.
  destruct (persistBlob_spec i f w) as (_ & _ & _ & _ & _ & Ht & _).
  destruct (fst (persistBlobToBackground env i f w)).
  - rewrite !run_bind. cbn [ret fst]. split; [split; [done|by intros []]|done].
  - rewrite run_bind, update_run. cbn [fst snd].
    rewrite run_bind, update_run. cbn [fst snd].
    rewrite run_bind, blobToDataUrl_run. cbn [fst snd ticks set_heap].
    destruct (data_url_read env _); rewrite ?run_bind; cbn [ret fst snd].
    + split; [split; [done|by intros [_ ?]]|done].
    + split; [done|]. intros _. exact Ht.
    + split; [split; [done|by intros [_ ?]]|done].
Qed.
(** The first phase of [addBlob]: one new object, pending, at the head
    of the list, and its file in the blob cache. *)
Lemma addBlob_begin_spec blob fname kindHint w :
  exists i f it w1,
    addBlob_begin env blob fname kindHint w = ((length (heap w), i, f), w1)
    /\ heap w1 = heap w ++ [it]
    /\ items w1 = length (heap w) :: items w
    /\ id it = i /\ blobId it = Some i /\ pending it = Some true
    /\ error it = None /\ dataUrl it = None
    /\ blobCache w1 = <[i := f]> (blobCache w)
    /\ lastIngest w1 = lastIngest w /\ idb w1 = idb w.
Proof.
  unfold addBlob_begin. cbv zeta.
  unfold uid, dateNow, alloc, addItemLocal, bind, tick, ret, modify.
  match goal with |- context [if isFile ?x then _ else _] => destruct (isFile x) end;
    (match goal with |- context [persistMetadata env ?x] =>
       pose proof (persistMetadata_frame x) as HH; unfold exec in HH;
       destruct (persistMetadata env x) as [u w1] end);
    simpl in HH; destruct HH as (Hh & Hi & Hc & Hl & Hd & _);
    do 4 eexists; (split; [reflexivity|]);
    rewrite Hh, Hi, Hc, Hl, Hd; repeat split; reflexivity.
Qed.

Lemma alter_last (g : Item -> Item) (h : list Item) it :
  alter g (length h) (h ++ [it]) = h ++ [g it].
Proof.
  induction h as [|x h IH]; simpl; [done|]. by rewrite <- IH.
Qed.

(** [addBlob] run to its end: exactly one new object, at the head of the
    list; the de-duplication record is not touched. *)
Lemma addBlob_spec blob fname kindHint w :
  let w' := exec (addBlob env blob fname kindHint) w in
  (exists it, heap w' = heap w ++ [it])
  /\ items w' = length (heap w) :: items w
  /\ lastIngest w' = lastIngest w.
Proof.
  unfold addBlob. cbv zeta. rewrite exec_bind.
  destruct (addBlob_begin_spec blob fname kindHint w)
    as (i & f & it & w1 & -> & Hh & Hi & _ & _ & _ & _ & _ & _ & Hl & _).
  cbn [fst snd].
  destruct (addBlob_finish_cases (length (heap w)) i f w1)
    as (Hi' & Hl' & _ & Hcases).
  rewrite Hi', Hl', Hi, Hl. split; [|done].
  destruct Hcases as [[-> _]|[[-> _]|[-> _]]];
    rewrite Hh, !alter_last; eauto.
Qed.

(** *** The second loop of [ingestCandidates] *)

(** The result of [addBlob]. *)
Lemma addBlob_result blob fname kindHint w :
  (forall n, data_url_read env n <> ReadFails) ->
  fst (addBlob env blob fname kindHint w) = Some tt.
Proof.
  intros Hread. unfold addBlob. rewrite run_bind.
  destruct (addBlob_begin_spec blob fname kindHint w) as (i & f & it & w1 & -> & _).
  cbn [fst snd].
  destruct (fst (addBlob_finish env (length (heap w)) i f w1)) as [[]|] eqn:E; [done|].
  apply (proj1 (addBlob_finish_result _ _ _ _)) in E as [_ E]. by apply Hread in E.
Qed.

Lemma processCandidates_text_run cplain chtml rest added w :
  processCandidates env (CText cplain chtml :: rest) added w
  = processCandidates env rest
      (if Gestures.counted (CText cplain chtml) then added + 1 else added)
      (exec (addText env (Some (orStr cplain [])) (Some (orStr chtml []))) w).
Proof.
  unfold exec. cbn [processCandidates Gestures.counted].
  destruct (truthy (orStr cplain [])) eqn:E1, (truthy (orStr chtml [])) eqn:E2;
    cbn [negb andb orb]; rewrite ?run_bind; try done.
  apply truthy_nil in E1, E2.
  rewrite addText_blank; rewrite ?orStr_idem, ?E1, ?E2; done.
Qed.

Lemma last_cons_Some {A} (x y : A) (l : list A) :
  last l = Some y -> last (x :: l) = Some y.
Proof. destruct l; [done|]. done. Qed.

(** The loop handles the candidates in order.  When it returns it has
    handled them all; when it does not, it has stopped in the [addBlob]
    of a file.  The candidates handled that commit are the new objects,
    put at the head of the list one after the other. *)
Lemma processCandidates_spec cs added w :
  exists processed rest,
    cs = processed ++ rest
    /\ (let w' := snd (processCandidates env cs added w) in
        let n := length (List.filter commits processed) in
        length (heap w') = (length (heap w) + n)%nat
        /\ items w' = rev (seq (length (heap w)) n) ++ items w
        /\ (exists objs, heap w' = heap w ++ objs)
        /\ lastIngest w' = lastIngest w)
    /\ match fst (processCandidates env cs added w) with
       | Some k =>
           rest = []
           /\ k = added + Z.of_nat (length (List.filter Gestures.counted cs))
       | None => exists f, last processed = Some (CFile f)
       end.
Proof.
  revert added w. induction cs as [|c cs IH]; intros added w.
  - exists [], []. cbn. rewrite Nat.add_0_r.
    repeat split; try done; [exists []; by rewrite app_nil_r|lia].
  - destruct c as [cplain chtml|f].
    + rewrite processCandidates_text_run.
      set (a1 := if Gestures.counted (CText cplain chtml) then added + 1 else added).
      set (w1 := exec (addText env (Some (orStr cplain [])) (Some (orStr chtml []))) w).
      destruct (IH a1 w1) as (processed & rest & Hcs & (Hlen & Hit & [objs Hobjs] & Hli) & Hres).
      exists (CText cplain chtml :: processed), rest.
      split; [by rewrite Hcs|]. split.
      * cbv zeta. cbn [List.filter].
        destruct (commits (CText cplain chtml)) eqn:E; cbn [commits] in E.
        -- destruct (addText_commit (Some (orStr cplain [])) (Some (orStr chtml [])) w)
             as (Hh & Hi & _ & Hl & _); [by rewrite !orStr_idem|].
           fold w1 in Hh, Hi, Hl. rewrite !orStr_idem in Hh.
           simpl length.
           rewrite Hlen, Hit, Hli, Hh, Hi, Hl, length_app. simpl.
           split; [lia|]. split.
           { rewrite Nat.add_1_r. simpl. by rewrite <- app_assoc. }
           split; [|done]. rewrite Hobjs, Hh. rewrite <- app_assoc. eauto.
        -- apply orb_false_elim in E as [E1 E2]. apply truthy_nil in E1, E2.
           assert (w1 = w) as Hw.
           { unfold w1, exec. rewrite addText_blank; rewrite ?orStr_idem; done. }
           clearbody w1. subst w1.
           rewrite Hlen, Hit, Hli. repeat split; try done.
           rewrite Hobjs. eauto.
      * destruct (fst (processCandidates env cs a1 w1)) as [k|].
        -- destruct Hres as [-> ->]. split; [done|]. subst a1. cbn [List.filter].
           destruct (Gestures.counted (CText cplain chtml)); simpl length; lia.
        -- destruct Hres as [f Hf]. exists f. by apply last_cons_Some.
    + rewrite processCandidates_file_run.
      set (w1 := exec (addBlob env f (orStr (file_name f) []) KFile) w).
      destruct (addBlob_spec f (orStr (file_name f) []) KFile w)
        as ([it Hh] & Hi & Hl).
      fold w1 in Hh, Hi, Hl.
      destruct (fst (addBlob env f (orStr (file_name f) []) KFile w)).
      * destruct (IH (added + 1) w1)
          as (processed & rest & Hcs & (Hlen & Hit & [objs Hobjs] & Hli) & Hres).
        exists (CFile f :: processed), rest.
        split; [by rewrite Hcs|]. split.
        -- cbv zeta. cbn [List.filter commits]. simpl length.
           rewrite Hlen, Hit, Hli, Hh, Hi, Hl, length_app. simpl.
           split; [lia|]. split.
           { rewrite Nat.add_1_r. simpl. by rewrite <- app_assoc. }
           split; [|done]. rewrite Hobjs, Hh. rewrite <- app_assoc. eauto.
        -- destruct (fst (processCandidates env cs (added + 1) w1)) as [k|].
           ++ destruct Hres as [-> ->]. split; [done|].
              cbn [List.filter Gestures.counted]. simpl length. lia.
           ++ destruct Hres as [f' Hf]. exists f'. by apply last_cons_Some.
      * exists [CFile f], cs. split; [done|]. split; [|by exists f].
        cbv zeta. cbn [snd List.filter commits length].
        rewrite Hh, Hi, Hl, length_app. simpl.
        repeat split; try done. eauto.
Qed.

(** The loop returns when no read of a fallback fails. *)
Lemma processCandidates_returns cs added w :
  (forall n, data_url_read env n <> ReadFails) ->
  fst (processCandidates env cs added w)
  = Some (added + Z.of_nat (length (List.filter Gestures.counted cs))).
Proof.
  intros Hread. revert added w. induction cs as [|c cs IH]; intros added w.
  - cbn. f_equal. lia.
  - destruct c as [cplain chtml|f].
    + rewrite processCandidates_text_run, IH. f_equal. cbn [List.filter].
      destruct (Gestures.counted (CText cplain chtml)); simpl length; lia.
    + rewrite processCandidates_file_run, addBlob_result by done.
      rewrite IH. f_equal. cbn [List.filter Gestures.counted]. simpl length. lia.
Qed.

(** *** De-duplication *)

Lemma ingestCandidates_run cs label w :
  ingestCandidates env cs label w
  = (if bool_decide (signature cs = fst (lastIngest w))
        && (date_now env (ticks w) - snd (lastIngest w) <? INGEST_DEDUP_WINDOW_MS)
     then (Some tt, set_ticks (S (ticks w)) w)
     else commitBatch env cs label
            (set_lastIngest (signature cs, date_now env (ticks w))
               (set_ticks (S (ticks w)) w))).
Proof.
  unfold ingestCandidates, dateNow, bind, tick, get, modify, ret. simpl.
  match goal with |- context [if ?c then _ else _] => destruct c end; [done|].
  by destruct (commitBatch _ _ _ _).
Qed.

(** [commitBatch] returns exactly when its loop does. *)
Lemma commitBatch_result cs label w :
  fst (commitBatch env cs label w)
  = match fst (processCandidates env cs 0 w) with
    | Some _ => Some tt
    | None => None
    end.
Proof.
  unfold commitBatch. rewrite run_bind.
  destruct (fst (processCandidates env cs 0 w)); [|done].
  by rewrite run_bind.
Qed.

(** De-duplication, in general.  A batch whose signature equals the
    recorded one and that comes less than 900 ms after it commits
    nothing and leaves the record as it is.  A batch whose signature
    differs, or that comes once the window has elapsed, is recorded and
    handed to the commit loop, and what the loop does is the same
    whatever the earlier record was: the candidates it handles are put
    at the head of the list; it handles them all when it returns, and it
    has stopped in the [addBlob] of a file when it does not. *)
Lemma ingest_dedup cs label w :
  let sig := signature cs in
  let now := date_now env (ticks w) in
  let r := ingestCandidates env cs label w in
  let w' := snd r in
  (sig = fst (lastIngest w) ->
   now - snd (lastIngest w) < INGEST_DEDUP_WINDOW_MS ->
     fst r = Some tt
     /\ heap w' = heap w /\ items w' = items w /\ lastIngest w' = lastIngest w
     /\ storage w' = storage w /\ idb w' = idb w /\ toasts w' = toasts w)
  /\ (sig <> fst (lastIngest w)
      \/ INGEST_DEDUP_WINDOW_MS <= now - snd (lastIngest w) ->
        lastIngest w' = (sig, now)
        /\ (exists processed rest,
              cs = processed ++ rest
              /\ items w'
                 = rev (seq (length (heap w)) (length (List.filter commits processed)))
                     ++ items w
              /\ length (heap w')
                 = (length (heap w) + length (List.filter commits processed))%nat
              /\ match fst r with
                 | Some _ => rest = []
                 | None => exists f, last processed = Some (CFile f)
                 end)
        /\ forall prev,
             sig <> fst prev \/ INGEST_DEDUP_WINDOW_MS <= now - snd prev ->
             ingestCandidates env cs label (set_lastIngest prev w) = r).
Proof.
  cbv zeta. rewrite ingestCandidates_run. split.
  - intros Hs Ht. rewrite bool_decide_eq_true_2 by done.
    apply Z.ltb_lt in Ht. rewrite Ht. done.
  - intros Hn.
    assert (forall prev : jsstring * Z,
               signature cs <> fst prev
               \/ INGEST_DEDUP_WINDOW_MS <= date_now env (ticks w) - snd prev ->
               bool_decide (signature cs = fst prev)
               && (date_now env (ticks w) - snd prev <? INGEST_DEDUP_WINDOW_MS)
               = false) as Hguard.
    { intros prev [H|H].
      - by rewrite bool_decide_eq_false_2.
      - apply Z.ltb_ge in H. rewrite H. apply andb_false_r. }
    rewrite (Hguard _ Hn).
    set (w0 := set_lastIngest _ _).
    destruct (commitBatch_frame cs label w0) as (Hh & Hi & _ & _ & _ & Hl).
    destruct (processCandidates_spec cs 0 w0)
      as (processed & rest & Hcs & (Hlen & Hit & _ & Hli) & Hres).
    unfold exec in *. rewrite Hl, Hli. split; [done|]. split.
    + exists processed, rest. rewrite Hi, Hh, Hit, Hlen, commitBatch_result.
      repeat split; try done.
      destruct (fst (processCandidates env cs 0 w0)); [by destruct Hres|done].
    + intros prev Hprev. rewrite ingestCandidates_run. simpl.
      by rewrite (Hguard _ Hprev).
Qed.

(** *** The life of a file item *)


(** *** Paste events *)

Lemma spec_bodyLines_truthy seen :
  Forall (fun l => truthy l = true) (spec_bodyLines seen).
Proof.
  induction seen as [|it seen IH]; [constructor|].
  destruct it as [file|type s|]; simpl; try done.
  destruct (bool_decide (type = str "text/plain")).
  { destruct (truthy s) eqn:E; [by repeat constructor|done]. }
  destruct (bool_decide (type = str "text/uri-list")); [|done].
  destruct (truthy (trim s)) eqn:E; [|done].
  apply Forall_app. split; [done|by repeat constructor].
Qed.

Lemma joinWith_snoc (sep x : jsstring) (l : list jsstring) :
  l <> [] -> joinWith sep (l ++ [x]) = joinWith sep l ++ sep ++ x.
Proof.
  induction l as [|p l IH]; [done|]. intros _.
  destruct l as [|q l]; [done|].
  change (joinWith sep ((p :: q :: l) ++ [x]))
    with (p ++ sep ++ joinWith sep ((q :: l) ++ [x])).
  rewrite IH by done.
  change (joinWith sep (p :: q :: l)) with (p ++ sep ++ joinWith sep (q :: l)).
  by rewrite <- !app_assoc.
Qed.

Lemma joinWith_truthy (sep : jsstring) (l : list jsstring) :
  Forall (fun p => truthy p = true) l ->
  truthy (joinWith sep l) = match l with [] => false | _ => true end.
Proof.
  intros H. destruct H as [|p l Hp _]; [done|].
  destruct p as [|c p]; [done|]. by destruct l.
Qed.

Lemma mergeString_spec type s seen :
  mergeString type s (spec_pending seen) = spec_pending (DTString type s :: seen).
Proof.
  unfold spec_pending, mergeString. cbn [spec_bodyLines spec_html].
  destruct (bool_decide_reflect (type = str "text/plain")) as [->|Hp].
  { rewrite (bool_decide_eq_false_2 (str "text/plain" = str "text/html")) by done.
    cbn [andb orStr]. by destruct (truthy s). }
  destruct (bool_decide_reflect (type = str "text/html")) as [->|Hh].
  { rewrite (bool_decide_eq_false_2 (str "text/html" = str "text/uri-list")) by done.
    cbn [andb orStr]. by destruct (truthy s). }
  cbn [andb].
  destruct (bool_decide (type = str "text/uri-list")); [|done].
  destruct (truthy (trim s)) eqn:E; [|done].
  rewrite joinWith_truthy by apply spec_bodyLines_truthy.
  destruct (spec_bodyLines seen) as [|l ls] eqn:El; [done|].
  by rewrite joinWith_snoc.
Qed.

Lemma flushText_spec seen : flushText (spec_pending seen) = spec_text seen.
Proof.
  unfold flushText, spec_pending, spec_text. cbn [fst snd].
  rewrite joinWith_truthy by apply spec_bodyLines_truthy.
  destruct (spec_bodyLines seen) as [|l ls]; [|done].
  by destruct (spec_html seen).
Qed.

Lemma pasteLoop_spec raw candidates seen :
  let r := pasteLoop raw candidates (spec_pending seen) in
  fst r ++ flushText (snd r) = candidates ++ spec_normalize raw seen.
Proof.
  revert candidates seen. induction raw as [|it raw IH]; intros candidates seen.
  - simpl. by rewrite flushText_spec.
  - destruct it as [file|type s|]; cbn [pasteLoop spec_normalize].
    + change (([], []) : jsstring * jsstring) with (spec_pending []).
      rewrite IH, flushText_spec. destruct file; by rewrite <- ?app_assoc.
    + rewrite mergeString_spec. apply IH.
    + apply (IH candidates (DTOther :: seen)).
Qed.

Lemma normalizePaste_spec raw : normalizePaste raw = spec_normalize raw [].
Proof.
  unfold normalizePaste.
  pose proof (pasteLoop_spec raw [] []) as H. cbv zeta in H.
  change (spec_pending []) with (([], []) : jsstring * jsstring) in H.
  by destruct (pasteLoop raw [] ([], [])).
Qed.

Lemma spec_normalize_run run seen :
  forallb notFile run = true ->
  spec_normalize run seen = spec_text (rev run ++ seen).
Proof.
  revert seen. induction run as [|it run IH]; intros seen H; [done|].
  simpl in H. apply andb_prop in H as [Hit H].
  destruct it as [file|type s|]; try done; cbn [spec_normalize rev];
    rewrite IH, <- app_assoc; done.
Qed.

Lemma spec_normalize_file run file rest seen :
  forallb notFile run = true ->
  spec_normalize (run ++ DTFile file :: rest) seen
  = spec_text (rev run ++ seen)
      ++ match file with Some f => [CFile f] | None => [] end
      ++ spec_normalize rest [].
Proof.
  revert seen. induction run as [|it run IH]; intros seen H; [done|].
  simpl in H. apply andb_prop in H as [Hit H].
  destruct it as [file'|type s|]; try done;
    cbn [spec_normalize rev app]; rewrite IH, <- app_assoc; done.
Qed.

(** *** The image transcoder *)

Lemma scale_cases (d : Z) :
  0 < d ->
  let q := (inject_Z IMAGE_MAX_DIM / inject_Z d)%Q in
  (q * inject_Z d == 2048)%Q /\ (0 < q)%Q
  /\ (compressScale d == Qmin 1 (Qmax (15 # 100) q))%Q.
Proof.
  intros Hd q. assert (~ inject_Z d == 0)%Q as Hnz.
  { intros H. unfold Qeq in H. simpl in H. lia. }
  split; [|split].
  - unfold q, IMAGE_MAX_DIM. field. exact Hnz.
  - unfold q. apply Qlt_shift_div_l.
    + unfold Qlt. simpl. lia.
    + unfold IMAGE_MAX_DIM, Qlt. simpl. lia.
  - unfold compressScale, clampQ. destruct (Z.eqb_spec d 0); [lia|]. reflexivity.
Qed.

(** Up to 2050 pixels the scale is at least 0.999. *)
Lemma scale_near_one (d : Z) :
  0 <= d <= 2050 -> Qle_bool (999 # 1000) (compressScale d) = true.
Proof.
  intros Hd. destruct (Z.eq_dec d 0) as [->|Hnz]; [done|].
  assert (0 < d) as Hpos by lia.
  destruct (scale_cases d Hpos) as (Hq & Hq0 & Hs).
  set (q := (inject_Z IMAGE_MAX_DIM / inject_Z d)%Q) in *.
  apply Qle_bool_iff. rewrite Hs.
  assert (0 < inject_Z d)%Q as HdQ by (rewrite <- (Zlt_Qlt 0); lia).
  assert (inject_Z d <= 2050)%Q as HdQ' by (unfold Qle; simpl; lia).
  destruct (Q.max_spec (15 # 100) q) as [[H1 H2]|[H1 H2]];
    destruct (Q.min_spec 1 (Qmax (15 # 100) q)) as [[H3 H4]|[H3 H4]];
    rewrite H4; rewrite ?H2 in *; try nra.
Qed.

(** Up to 13653 pixels the 0.15 floor does not apply, and a side scaled
    stays within 2048. *)
Lemma scaled_le (d x : Z) :
  0 < d -> d <= 13653 -> x <= d ->
  (inject_Z x * compressScale d <= 2048)%Q.
Proof.
  intros Hd Hd' Hx. destruct (scale_cases d Hd) as (Hq & Hq0 & Hs).
  set (q := (inject_Z IMAGE_MAX_DIM / inject_Z d)%Q) in *.
  rewrite Hs.
  assert (inject_Z x <= inject_Z d)%Q as HxQ by (rewrite <- Zle_Qle; lia).
  assert (0 < inject_Z d)%Q as HdQ by (rewrite <- (Zlt_Qlt 0); lia).
  assert (inject_Z d <= 13653)%Q as HdQ' by (unfold Qle; simpl; lia).
  destruct (Q.max_spec (15 # 100) q) as [[H1 H2]|[H1 H2]];
    destruct (Q.min_spec 1 (Qmax (15 # 100) q)) as [[H3 H4]|[H3 H4]];
    rewrite H4; rewrite ?H2 in *; try nra.
Qed.

Lemma canvas_side_le (d x : Z) :
  0 < d -> d <= 13653 -> x <= d ->
  Z.max 1 (mathRound (inject_Z x * compressScale d)) <= IMAGE_MAX_DIM.
Proof.
  intros Hd Hd' Hx. pose proof (scaled_le d x Hd Hd' Hx) as H.
  unfold mathRound, IMAGE_MAX_DIM.
  assert (Qfloor (inject_Z x * compressScale d + (1 # 2)) <= Qfloor (2048 + (1 # 2)))%Z
    as Hf by (apply Qfloor_resp_le; lra).
  change (Qfloor (2048 + (1 # 2))) with 2048 in Hf. lia.
Qed.

(** *** Restoring blobs *)

Lemma filled_refl it : filled it it.
Proof. unfold filled. repeat split; done. Qed.

Lemma filled_trans a b c : filled a b -> filled b c -> filled a c.
Proof.
  unfold filled.
  intros (Hid & Hk & Hc & Ht & Hh & Hb & Hn & Hd & Hp & He & Hx & Hm & Hs & Hn')
         (Hid2 & Hk2 & Hc2 & Ht2 & Hh2 & Hb2 & Hn2 & Hd2 & Hp2 & He2 & Hx2 & Hm2 & Hs2 & Hn2').
  repeat split; try congruence.
  - intros H. specialize (Hm H). rewrite <- Hm. apply Hm2. by rewrite Hm.
  - intros H. specialize (Hs H). rewrite <- Hs. apply Hs2. by rewrite Hs.
  - intros H. rewrite <- (Hn' H). apply Hn2'. rewrite Hb. exact H.
Qed.

Lemma filled_exact a b : hasMimeAndSize a -> filled a b -> b = a.
Proof.
  unfold hasMimeAndSize, filled.
  intros Hms (Hid & Hk & Hc & Ht & Hh & Hb & Hn & Hd & Hp & He & Hx & Hm & Hs & Hn').
  destruct (truthy (orStr (blobId a) [])) eqn:E; [|by apply Hn'].
  destruct (Hms eq_refl) as [H1 H2]. specialize (Hm H1). specialize (Hs H2).
  destruct a, b; simpl in *; congruence.
Qed.

Lemma filled_set_mime_size it m s :
  truthy (orStr (blobId it) []) = true ->
  filled it (set_mime_size (orStr (mime it) m) (orNum (size it) s) it).
Proof.
  intros Hb. unfold filled. simpl. repeat split; try done.
  - destruct (mime it) as [x|]; simpl; [|done]. by destruct (truthy x).
  - destruct (size it) as [z|]; simpl; [|done]. by destruct (z =? 0).
  - intros H. by rewrite H in Hb.
Qed.

Lemma Forall2_alter_filled (g : Item -> Item) (h : list Item) r :
  (forall it, h !! r = Some it -> filled it (g it)) ->
  Forall2 filled h (alter g r h).
Proof.
  revert r. induction h as [|x h IH]; intros r H; [constructor|].
  destruct r as [|r]; simpl.
  - constructor; [by apply H|]. apply Forall2_same_length_lookup_2; [done|].
    intros i a b Ha Hb. rewrite Ha in Hb. injection Hb as <-. apply filled_refl.
  - constructor; [apply filled_refl|]. apply IH. intros it Hit. by apply H.
Qed.

Lemma Forall2_filled_refl (h : list Item) : Forall2 filled h h.
Proof. induction h; constructor; [apply filled_refl|done]. Qed.

Lemma Forall2_filled_trans (a b c : list Item) :
  Forall2 filled a b -> Forall2 filled b c -> Forall2 filled a c.
Proof.
  intros H. revert c. induction H as [|x y a b Hxy _ IH]; intros c Hc.
  - by inversion Hc.
  - inversion Hc as [|? z ? c' Hyz Hbc]; subst.
    constructor; [by eapply filled_trans|by apply IH].
Qed.

(** [restoreBlobs] writes neither store and fills in objects only. *)
Lemma restoreBlobs_spec refs w :
  let w' := exec (restoreBlobs env refs) w in
  items w' = items w /\ storage w' = storage w /\ idb w' = idb w
  /\ lastIngest w' = lastIngest w
  /\ Forall2 filled (heap w) (heap w').
Proof.
  revert w. induction refs as [|r refs IH]; intros w.
  - simpl. repeat split; try done. apply Forall2_filled_refl.
  - cbv zeta. cbn [restoreBlobs]. rewrite !exec_bind. cbn [get fst snd].
    match goal with |- context [exec (restoreBlobs env refs) ?x] =>
      set (w1 := x); destruct (IH w1) as (Hi & Hs & Hd & Hl & Hf) end.
    rewrite Hi, Hs, Hd, Hl.
    assert (items w1 = items w /\ storage w1 = storage w /\ idb w1 = idb w
            /\ lastIngest w1 = lastIngest w /\ Forall2 filled (heap w) (heap w1))
      as (Hi1 & Hs1 & Hd1 & Hl1 & Hf1).
    { subst w1. destruct (heap w !! r) as [it|] eqn:Hit;
        [|repeat split; try done; apply Forall2_filled_refl].
      destruct (truthy (orStr (blobId it) [])) eqn:Hb; simpl;
        [|repeat split; try done; apply Forall2_filled_refl].
      destruct (bool_decide _);
        [repeat split; try done; apply Forall2_filled_refl|].
      rewrite run_bind, runtimeSend_run.
      destruct (send_fault env (ticks w)); cbn [fst snd];
        try (repeat split; try done; apply Forall2_filled_refl).
      all: rewrite WorkerFacts.get_keeps_store.
      all: match goal with |- context [head ?l] => destruct (head l) as [[]|] end;
        simpl; (repeat split; try done); try apply Forall2_filled_refl.
      all: apply Forall2_alter_filled; intros it' Hit'; rewrite Hit in Hit';
        injection Hit' as <-; by apply filled_set_mime_size. }
    rewrite Hi1, Hs1, Hd1, Hl1. repeat split; try done.
    by eapply Forall2_filled_trans.
Qed.
(** *** Loading *)

Lemma allocAll_run l w :
  allocAll l w = (seq (length (heap w)) (length l), set_heap (heap w ++ l) w).
Proof.
  revert w. induction l as [|it l IH]; intros w.
  - simpl. unfold ret. rewrite app_nil_r. by destruct w.
  - cbn [allocAll]. rewrite run_bind. cbn [alloc fst snd].
    rewrite run_bind, IH. cbn [fst snd ret heap set_heap].
    rewrite length_app, Nat.add_1_r. simpl. by rewrite <- app_assoc.
Qed.

(** The fresh addresses of an array read the array back. *)
Lemma omap_lookup_fresh (h l : list Item) :
  omap (fun r => (h ++ l) !! r) (seq (length h) (length l)) = l.
Proof.
  revert h. induction l as [|it l IH]; intros h; [done|].
  simpl. rewrite lookup_app_r by lia. rewrite Nat.sub_diag. simpl. f_equal.
  specialize (IH (h ++ [it])). rewrite length_app, Nat.add_1_r in IH.
  rewrite <- app_assoc in IH. exact IH.
Qed.

Lemma omap_lookup_Forall2 (R : Item -> Item -> Prop) (h h' : list Item) refs :
  Forall2 R h h' ->
  Forall2 R (omap (fun r => h !! r) refs) (omap (fun r => h' !! r) refs).
Proof.
  intros H. induction refs as [|r refs IH]; [constructor|].
  simpl. destruct (h !! r) as [a|] eqn:Ha.
  - destruct (Forall2_lookup_l _ _ _ _ _ H Ha) as (b & Hb & Hab).
    rewrite Hb. simpl. by constructor.
  - apply lookup_ge_None in Ha. rewrite (Forall2_length _ _ _ H) in Ha.
    apply lookup_ge_None in Ha. by rewrite Ha.
Qed.

(** The ids of migrated items come from [uid]. *)
Lemma migrate_ids old w :
  Forall (fun it => exists t n,
            id it = toStringRadix 36 (date_now env t) ++ math_random env n)
         (fst (migrate env old w)).
Proof.
  revert w. induction old as [|e old IH]; intros w; [constructor|].
  destruct e as [it|]; cbn [migrate]; [|apply IH].
  destruct (bool_decide (l_kind it = Some (str "text"))).
  - unfold uid, dateNow. run_steps. constructor; [simpl; eauto|apply IH].
  - destruct (bool_decide (l_kind it = Some (str "image"))); [|apply IH].
    unfold uid, dateNow. run_steps. constructor; [simpl; eauto|apply IH].
Qed.

Lemma migrate_frame old w :
  let w' := snd (migrate env old w) in
  heap w' = heap w /\ items w' = items w /\ storage w' = storage w
  /\ idb w' = idb w /\ blobCache w' = blobCache w.
Proof.
  revert w. induction old as [|e old IH]; intros w; [done|].
  destruct e as [it|]; cbn [migrate]; [|apply IH].
  destruct (bool_decide (l_kind it = Some (str "text"))).
  - unfold uid, dateNow. run_steps.
    match goal with |- context [migrate env old ?x] =>
      destruct (IH x) as (H1 & H2 & H3 & H4 & H5) end.
    cbv zeta. rewrite H1, H2, H3, H4, H5.
    by destruct (orNum (l_createdAt it) 0 =? 0).
  - destruct (bool_decide (l_kind it = Some (str "image"))); [|apply IH].
    unfold uid, dateNow. run_steps.
    match goal with |- context [migrate env old ?x] =>
      destruct (IH x) as (H1 & H2 & H3 & H4 & H5) end.
    cbv zeta. rewrite H1, H2, H3, H4, H5.
    by destruct (orNum (l_createdAt it) 0 =? 0).
Qed.

(** A load that does not migrate: the stored array comes back, filled
    in; neither store is written. *)
Lemma load_stored w stored :
  clip_hub_v6_state (storage w) = Some stored ->
  stored <> [] \/ clip_hub_v5_data (storage w) = None
               \/ clip_hub_v5_data (storage w) = Some [] ->
  let w' := exec (load env) w in
  Forall2 filled stored (itemsOf w')
  /\ storage w' = storage w /\ idb w' = idb w.
Proof.
  intros Hst Hno. unfold load, exec. cbv zeta. run_steps.
  rewrite Hst. cbn [nullish]. rewrite allocAll_run. run_steps.
  assert (forall w1 : World,
             items w1 = seq (length (heap w)) (length stored) ->
             heap w1 = heap w ++ stored -> storage w1 = storage w -> idb w1 = idb w ->
             Forall2 filled stored (itemsOf (snd (restoreBlobs env (items w1) w1)))
             /\ storage (snd (restoreBlobs env (items w1) w1)) = storage w
             /\ idb (snd (restoreBlobs env (items w1) w1)) = idb w) as Hrest.
  { intros w1 Hi1 Hh1 Hs1 Hd1.
    destruct (restoreBlobs_spec (items w1) w1) as (Hi & Hs & Hd & _ & Hf).
    unfold exec in *. rewrite Hs, Hd. split; [|done].
    unfold itemsOf. rewrite Hi.
    replace stored with (omap (fun r => heap w1 !! r) (items w1)) at 1
      by (rewrite Hi1, Hh1; apply omap_lookup_fresh).
    by apply omap_lookup_Forall2. }
  destruct stored as [|it stored].
  - cbn [seq length].
    destruct Hno as [H|[H|H]]; [done| |]; rewrite H; run_steps;
      apply Hrest; done.
  - cbn [seq length]. run_steps. apply Hrest; done.
Qed.

(** A load that migrates: the items come from the v5 record, with ids
    from [uid]. *)
Lemma load_migrated w e old :
  nullish (clip_hub_v6_state (storage w)) [] = [] ->
  clip_hub_v5_data (storage w) = Some (e :: old) ->
  let w' := exec (load env) w in
  exists w0, Forall2 filled (fst (migrate env (e :: old) w0)) (itemsOf w').
Proof.
  intros Hst Hold. unfold load, exec. cbv zeta. run_steps.
  rewrite Hst, Hold. cbn [allocAll]. run_steps.
  exists (set_items [] w).
  set (mig := migrate env (e :: old) (set_items [] w)).
  rewrite allocAll_run. run_steps.
  match goal with |- context [persistMetadata env ?x] =>
    set (w2 := x); destruct (persistMetadata_frame w2) as (Hh2 & Hi2 & _) end.
  unfold exec in *. cbn [toast modify fst snd].
  match goal with |- context [restoreBlobs env ?l ?x] =>
    destruct (restoreBlobs_spec l x) as (Hi & _ & _ & _ & Hf) end.
  unfold exec in *. unfold itemsOf. rewrite Hi.
  cbn [items heap set_toasts] in *. rewrite Hi2.
  rewrite Hh2 in Hf. subst w2. cbn [items heap set_items set_heap] in *.
  rewrite Hi2 in Hf.
  rewrite <- (omap_lookup_fresh (heap mig.2) mig.1) at 1.
  by apply omap_lookup_Forall2.
Qed.
(** *** Removing an item *)

Lemma Forall2_filled_ids (a b : list Item) :
  Forall2 filled a b -> map id b = map id a.
Proof.
  induction 1 as [|x y a b Hxy _ IH]; [done|].
  simpl. rewrite IH. destruct Hxy as [-> _]. done.
Qed.

Lemma Forall2_filled_exact (a b : list Item) :
  Forall hasMimeAndSize a -> Forall2 filled a b -> b = a.
Proof.
  intros Ha H. induction H as [|x y a b Hxy _ IH]; [done|].
  inversion Ha; subst. rewrite IH by done. f_equal. by apply filled_exact.
Qed.

Lemma filter_absent (i : jsstring) (l : list Item) :
  ~ In i (map id l) ->
  List.filter (fun it => negb (bool_decide (id it = i))) l = l.
Proof.
  induction l as [|x l IH]; [done|]. simpl. intros H.
  rewrite bool_decide_eq_false_2 by (intros E; apply H; by left).
  simpl. rewrite IH; [done|]. intros E. apply H. by right.
Qed.

Lemma filter_removes (i : jsstring) (l : list Item) :
  ~ In i (map id (List.filter (fun it => negb (bool_decide (id it = i))) l)).
Proof.
  induction l as [|x l IH]; [by intros []|]. simpl.
  destruct (bool_decide (id x = i)) eqn:E; simpl; [done|].
  intros [H|H]; [|done]. apply bool_decide_eq_false in E. done.
Qed.

(** [findIndex] finds the one item of that id, and removing the address
    at that index removes that item and no other. *)
Lemma findIndex_spec (h : list Item) (i : jsstring) (refs : list nat) :
  Forall (fun r => (r < length h)%nat) refs ->
  NoDup (map id (omap (fun r => h !! r) refs)) ->
  In i (map id (omap (fun r => h !! r) refs)) ->
  exists idx r it,
    findIndex h i refs = Some idx /\ refs !! idx = Some r /\ h !! r = Some it
    /\ id it = i
    /\ omap (fun r => h !! r) (delete idx refs)
       = List.filter (fun it => negb (bool_decide (id it = i)))
           (omap (fun r => h !! r) refs).
Proof.
  induction refs as [|r refs IH]; intros Hwf Hnd Hin; [done|].
  inversion Hwf as [|? ? Hr Hwf']; subst.
  destruct (lookup_lt_is_Some_2 h r Hr) as [it Hit].
  simpl in Hnd, Hin. rewrite Hit in Hnd, Hin. simpl in Hnd, Hin.
  apply NoDup_cons in Hnd as [Hfresh Hnd].
  cbn [findIndex omap]. simpl. rewrite Hit. simpl.
  destruct (bool_decide (id it = i)) eqn:E.
  - apply bool_decide_eq_true in E. exists O, r, it.
    repeat (split; [done|]). simpl.
    rewrite filter_absent; [done|]. rewrite <- E.
    intros H. apply Hfresh. by apply list_elem_of_In.
  - apply bool_decide_eq_false in E.
    destruct Hin as [Hin|Hin]; [done|].
    destruct (IH Hwf' Hnd Hin) as (idx & r' & it' & Hf & Hl & Hh & Hid & Hdel).
    exists (S idx), r', it'. rewrite Hf. repeat (split; [done|]).
    simpl. rewrite Hit. simpl. f_equal. exact Hdel.
Qed.

(** What [removeItem] does when the item is there. *)
Lemma removeItem_run i w idx r it :
  findIndex (heap w) i (items w) = Some idx ->
  items w !! idx = Some r -> heap w !! r = Some it ->
  let b := orStr (blobId it) [] in
  let w1 := set_items (delete idx (items w)) w in
  removeItem env i w
  = persistMetadata env
      (if truthy b && bool_decide (is_Some (blobCache w !! b))
       then snd (runtimeSend env "blob.delete" (Some (getPayload b))
                   (set_blobCache (delete b (blobCache w)) w1))
       else w1).
Proof.
  intros Hf Hl Hh. unfold removeItem. run_steps. rewrite Hf, Hl. simpl. rewrite Hh.
  run_steps.
  destruct (truthy (orStr (blobId it) []) && bool_decide _); run_steps; done.
Qed.
(** *** Clearing *)

(** [clearAll] empties the list and the blob cache; it writes an empty
    array under the v6 key when the write is accepted, and the Blob Store
    is empty once the worker has handled [blob.clear].  The v5 record is
    not touched. *)
Lemma clearAll_spec w :
  let w' := exec (clearAll env) w in
  items w' = [] /\ blobCache w' = ∅ /\ heap w' = heap w
  /\ clip_hub_v5_data (storage w') = clip_hub_v5_data (storage w)
  /\ (storage_set_rejects env (ticks w) = false ->
        clip_hub_v6_state (storage w') = Some [])
  /\ (send_fault env (S (ticks w)) = Delivered -> idb w' = ∅).
Proof.
  unfold clearAll, exec. cbv zeta. run_steps.
  set (w0 := set_items [] (set_blobCache ∅ w)).
  destruct (persistMetadata_frame w0) as (Hh & Hi & Hc & _ & Hd & Ht).
  pose proof (persistMetadata_legacy w0) as Hleg.
  pose proof (persistMetadata_storage w0) as Hsto.
  unfold exec in *.
  match goal with |- context [runtimeSend env ?t ?p ?x] =>
    destruct (runtimeSend_frame t p x) as (Hh' & Hi' & Hc' & _ & Hs' & _);
    pose proof (runtimeSend_run t p x) as Hrun end.
  cbn [toast modify fst snd items blobCache heap storage idb set_toasts].
  rewrite Hh', Hi', Hc', Hs', Hh, Hi, Hc, Hleg.
  repeat (split; [done|]). split.
  - intros Hok. by rewrite (Hsto Hok).
  - intros Ef. rewrite Hrun, Ht. cbn [ticks w0 set_items set_blobCache].
    rewrite Ef. cbn [snd idb set_idb]. apply WorkerFacts.clear_handled.
    unfold workerEnvAt. simpl. by rewrite Ef.
Qed.

(** A load that finds an empty array under the v6 key and no entry in
    the v5 record returns an empty list. *)
Lemma load_empty w :
  clip_hub_v6_state (storage w) = Some [] ->
  clip_hub_v5_data (storage w) = None \/ clip_hub_v5_data (storage w) = Some [] ->
  itemsOf (exec (load env) w) = [].
Proof.
  intros Hst Hno. destruct (load_stored w [] Hst (or_intror Hno)) as (Hf & _).
  by inversion Hf.
Qed.
End Facts.

Lemma hasMimeAndSize_strip (it : Item) : hasMimeAndSize it -> hasMimeAndSize (strip it).
Proof. done. Qed.

(** The round trip of the metadata, where it holds: when the metadata
    write is accepted, and unless the list is empty while a non-empty v5
    record is in storage (the next load then migrates that record), a
    load in
    any session that finds this metadata reconstructs the list with the
    transient fields [pending], [error] and [expanded] stripped, every
    other field being equal, but for [mime] and [size] of an item with a
    [blobId], which may be filled in from the blob record when the item
    has none (an empty [mime], a zero [size]): where every blob item has a
    MIME type and a size, the loaded list is exactly the stripped list. *)
Theorem metadata_round_trip (env env2 : Env) (w w2 : World) :
  storage_set_rejects env (ticks w) = false ->
  storage w2 = storage (exec (persistMetadata env) w) ->
  itemsOf w <> [] \/ clip_hub_v5_data (storage w) = None
                  \/ clip_hub_v5_data (storage w) = Some [] ->
  let loaded := itemsOf (exec (load env2) w2) in
  Forall2 filled (map strip (itemsOf w)) loaded
  /\ (Forall hasMimeAndSize (itemsOf w) -> loaded = map strip (itemsOf w)).
Proof.
  intros Hok Hst Hno loaded. subst loaded.
  rewrite (persistMetadata_storage env w Hok) in Hst.
  destruct (load_stored env2 w2 (map strip (itemsOf w))) as (Hf & _).
  - by rewrite Hst.
  - rewrite Hst. simpl. destruct Hno as [H|H]; [left|by right].
    by destruct (itemsOf w).
  - split; [exact Hf|]. intros Hms.
    apply Forall2_filled_exact; [|exact Hf].
    apply Forall_forall. intros x Hx.
    apply list_elem_of_In, in_map_iff in Hx as (y & <- & Hy).
    apply hasMimeAndSize_strip. rewrite Forall_forall in Hms.
    apply Hms. by apply list_elem_of_In.
Qed.

(** [removeItem], in general: deleting by id an item that is in the
    list (ids being unique) removes it, and it alone, from the list.  When the item's
    blob is in the blob cache of the session, a delete of its blob record
    is sent, and the record is gone once the worker has handled it; when
    it is not in the cache, nothing is sent and the Blob Store is left as
    it is.  Once the metadata write is accepted, a load in any session
    that finds this metadata returns no item with that id, the ids that
    [uid] makes in that session being new. *)
Theorem removeItem_spec (env env2 : Env) (i : jsstring) (w : World) :
  wellFormed w ->
  NoDup (map id (itemsOf w)) ->
  In i (map id (itemsOf w)) ->
  let w' := exec (removeItem env i) w in
  itemsOf w' = List.filter (fun it => negb (bool_decide (id it = i))) (itemsOf w)
  /\ ~ In i (map id (itemsOf w'))
  /\ (forall it b,
        In it (itemsOf w) -> id it = i -> orStr (blobId it) [] = b ->
        truthy b = true ->
        (is_Some (blobCache w !! b) -> send_fault env (ticks w) = Delivered ->
           idb w' = delete b (idb w))
        /\ (blobCache w !! b = None -> idb w' = idb w))
  /\ ((forall n, storage_set_rejects env n = false) ->
      (forall t n, toStringRadix 36 (date_now env2 t) ++ math_random env2 n <> i) ->
      forall w2, storage w2 = storage w' ->
                 ~ In i (map id (itemsOf (exec (load env2) w2)))).
Proof.
  intros Hwf Hnd Hin w'.
  destruct (findIndex_spec (heap w) i (items w) Hwf Hnd Hin)
    as (idx & r & it & Hfind & Hl & Hh & Hid & Hdel).
  pose proof (removeItem_run env i w idx r it Hfind Hl Hh) as Hrun.
  cbv zeta in Hrun.
  set (b := orStr (blobId it) []) in *.
  set (w1 := set_items (delete idx (items w)) w) in *.
  set (wm := if truthy b && bool_decide (is_Some (blobCache w !! b))
             then snd (runtimeSend env "blob.delete" (Some (getPayload b))
                         (set_blobCache (delete b (blobCache w)) w1))
             else w1) in *.
  assert (heap wm = heap w /\ items wm = delete idx (items w)) as [Hhm Him].
  { subst wm. destruct (truthy b && bool_decide _); [|done].
    by destruct (runtimeSend_frame env "blob.delete" (Some (getPayload b))
                   (set_blobCache (delete b (blobCache w)) w1))
      as (-> & -> & _). }
  assert (itemsOf wm
          = List.filter (fun it => negb (bool_decide (id it = i))) (itemsOf w)) as Hitems.
  { unfold itemsOf. by rewrite Hhm, Him, Hdel. }
  destruct (persistMetadata_frame env wm) as (Hh' & Hi' & _ & _ & Hd' & _).
  assert (itemsOf w' = itemsOf wm) as Hsame.
  { subst w'. unfold exec. rewrite Hrun. unfold itemsOf. unfold exec in *.
    by rewrite Hh', Hi'. }
  assert (idb w' = idb wm) as Hidb.
  { subst w'. unfold exec in *. by rewrite Hrun, Hd'. }
  split; [by rewrite Hsame|].
  split; [rewrite Hsame, Hitems; apply filter_removes|].
  split.
  - intros it' b' Hit' Hid' Hb' Htruthy.
    assert (it' = it) as ->.
    { unfold itemsOf in Hit'.
      assert (In it (omap (fun r => heap w !! r) (items w))) as Hit.
      { apply list_elem_of_In, list_elem_of_omap. exists r. split; [|done].
        by eapply list_elem_of_lookup_2. }
      clear -Hnd Hit Hit' Hid Hid'. unfold itemsOf in Hnd.
      induction (omap (fun r => heap w !! r) (items w)) as [|x l IH]; [done|].
      simpl in Hnd. apply NoDup_cons in Hnd as [Hx Hnd].
      destruct Hit as [->|Hit], Hit' as [->|Hit']; try done.
      - exfalso. apply Hx. apply list_elem_of_In.
        replace (id it) with (id it') by congruence. by apply in_map.
      - exfalso. apply Hx. apply list_elem_of_In.
        replace (id it') with (id it) by congruence. by apply in_map.
      - by apply IH. }
    fold b in Hb'. subst b'. rewrite Hidb. subst wm. rewrite Htruthy. simpl.
    split.
    + intros Hc Hs. rewrite bool_decide_eq_true_2 by done.
      subst w1. rewrite runtimeSend_run. cbn [ticks set_blobCache set_items].
      rewrite Hs. cbn [snd idb set_idb set_ticks set_blobCache set_items].
      apply WorkerFacts.delete_handled.
      unfold workerEnvAt. simpl. by rewrite Hs.
    + intros Hc. rewrite bool_decide_eq_false_2; [done|].
      rewrite Hc. by intros [? ?].
  - intros Hok Hfresh w2 Hst.
    assert (storage w'
            = mkStorage (Some (map strip (itemsOf wm))) (clip_hub_v5_data (storage wm)))
      as Hsw.
    { subst w'. unfold exec. rewrite Hrun.
      apply (persistMetadata_storage env wm). apply Hok. }
    rewrite Hsw in Hst.
    destruct (map strip (itemsOf wm)) as [|x l] eqn:Hstored.
    + destruct (clip_hub_v5_data (storage wm)) as [[|e old]|] eqn:Hold.
      * destruct (load_stored env2 w2 []) as (Hf & _);
          [by rewrite Hst|rewrite Hst; by right; right|].
        inversion Hf as [Hnil|]. by intros [].
      * destruct (load_migrated env2 w2 e old) as (w0 & Hf);
          [by rewrite Hst|by rewrite Hst|].
        rewrite (Forall2_filled_ids _ _ Hf).
        pose proof (migrate_ids env2 (e :: old) w0) as Hids.
        intros Hi. apply in_map_iff in Hi as (y & Hy & Hyin).
        rewrite Forall_forall in Hids.
        destruct (Hids y) as (t & n & Hyid); [by apply list_elem_of_In|].
        apply (Hfresh t n). by rewrite <- Hyid.
      * destruct (load_stored env2 w2 []) as (Hf & _);
          [by rewrite Hst|rewrite Hst; by right; left|].
        inversion Hf as [Hnil|]. by intros [].
    + destruct (load_stored env2 w2 (x :: l)) as (Hf & _);
        [by rewrite Hst|by left|].
      rewrite (Forall2_filled_ids _ _ Hf), <- Hstored, Hitems.
      rewrite map_map. simpl.
      apply filter_removes.
Qed.

End HubFacts.

(* ===================================================================== *)
(** ** The properties on concrete runs *)
(* ===================================================================== *)

Module Scenarios.
Import Hub.

#[local] Arguments str : simpl never.

(** The scenario of the specification: the paste of "hello" gives one
    item; the same paste 100 ms later gives none; the same paste two
    seconds later gives a second item with the same content and another
    id. *)
Example hello_three_times :
  let again := exec (ingestFromPasteEvent Demo.env (Some Demo.helloPaste)) Demo.afterHello in
  let later := exec (ingestFromPasteEvent Demo.laterEnv (Some Demo.helloPaste)) again in
  length (itemsOf Demo.afterHello) = 1%nat
  /\ date_now Demo.env (ticks Demo.afterHello) - snd (lastIngest Demo.afterHello) = 100
  /\ itemsOf again = itemsOf Demo.afterHello
  /\ map text (itemsOf later) = [Some (str "hello"); Some (str "hello")]
  /\ NoDup (map id (itemsOf later)).
Proof.
  cbv zeta. repeat split; try (vm_compute; reflexivity).
  apply (bool_decide_unpack _). vm_compute. exact I.
Qed.

(** C1: a batch that is no duplicate is not always committed.  Two
    files are dropped on a fresh script, and the first cannot be read
    ([arrayBuffer] rejects and the [FileReader] of the fallback reports
    an error).  The item of the first file is put in the list; then
    [addBlob] waits for a data URL that never comes ([blobToDataUrl]
    has no [onerror]), so the second file is never added and no toast
    is shown, although the batch was recorded as ingested.  The ingest
    queue waits with it: the same two files dropped two seconds later,
    when the window has long elapsed, commit nothing. *)
Theorem unreadable_file_stalls_ingest :
  let batch := [CFile Samples.report; CFile Demo.png] in
  let first :=
    Gestures.onDrop Samples.unreadableEnv (Some [Samples.report; Demo.png]) false
      Demo.start in
  let w1 := snd first in
  let second :=
    Gestures.onDrop Samples.unreadableLaterEnv (Some [Samples.report; Demo.png])
      (fst first) w1 in
  signature batch <> fst (lastIngest Demo.start)
  /\ fst (ingestCandidates Samples.unreadableEnv batch (str "drop") Demo.start) = None
  /\ fst first = true
  /\ map name (itemsOf w1) = [Some (str "report.pdf")]
  /\ map error (itemsOf w1) = [Some (str "persist_failed")]
  /\ toasts w1 = []
  /\ lastIngest w1 = (signature batch, 1000)
  /\ INGEST_DEDUP_WINDOW_MS
     <= date_now Samples.unreadableLaterEnv (ticks w1) - snd (lastIngest w1)
  /\ second = (true, w1).
Proof.
  cbv zeta.
  assert (fst (Gestures.onDrop Samples.unreadableEnv (Some [Samples.report; Demo.png])
                 false Demo.start) = true) as Hstuck by (vm_compute; reflexivity).
  split; [vm_compute; discriminate|].
  split; [vm_compute; reflexivity|].
  split; [exact Hstuck|].
  split; [vm_compute; reflexivity|].
  split; [vm_compute; reflexivity|].
  split; [vm_compute; reflexivity|].
  split; [vm_compute; reflexivity|].
  split; [vm_compute; discriminate|].
  rewrite Hstuck. reflexivity.
Qed.

(** On the run above: the second paste is suppressed. *)
Lemma ingest_dedup_witness :
  items (exec (ingestCandidates Demo.env Demo.helloBatch (str "paste")) Demo.afterHello)
  = items Demo.afterHello.
Proof.
  apply (proj1 (HubFacts.ingest_dedup Demo.env Demo.helloBatch (str "paste")
                  Demo.afterHello)).
  - vm_compute. reflexivity.
  - vm_compute. reflexivity.
Defined.


(** C3: the first load of a user who comes from v5 migrates the note of
    the v5 record; clearing empties the list, the Blob Store and the v6
    record; the next load brings the note back into the list. *)
Lemma clear_then_load_restores_legacy :
  let cleared := exec (clearAll Demo.env) Demo.upgraded in
  let next := exec (load Demo.env) (freshSession (storage cleared) (idb cleared)) in
  map text (itemsOf Demo.upgraded) = [Some (str "old note")]
  /\ itemsOf cleared = []
  /\ idb cleared = ∅
  /\ clip_hub_v6_state (storage cleared) = Some []
  /\ map text (itemsOf next) = [Some (str "old note")].
Proof. cbv zeta. repeat split; vm_compute; reflexivity. Qed.

(** C4: deleting an item does not always remove its blob record.  In
    a session whose load could not fetch the blob of the image (the
    [blob.get] message was not delivered) the image is in the list, its
    record is in the Blob Store and the blob cache does not hold it.
    [removeItem] sends [blob.delete] only for a blob that is in the
    cache: with the worker within reach again, the image leaves the
    list and the metadata record, and its blob record stays in the Blob
    Store, where nothing refers to it any more. *)
Theorem removeItem_orphans_blob_record :
  let w' := exec (removeItem Demo.env Demo.pngId) Demo.reloadedFlaky in
  In Demo.pngId (map id (itemsOf Demo.reloadedFlaky))
  /\ map blobId (itemsOf Demo.reloadedFlaky) = [Some Demo.pngId; None]
  /\ is_Some (idb Demo.reloadedFlaky !! Demo.pngId)
  /\ blobCache Demo.reloadedFlaky !! Demo.pngId = None
  /\ ~ In Demo.pngId (map id (itemsOf w'))
  /\ option_map (map blobId) (clip_hub_v6_state (storage w')) = Some [None]
  /\ idb w' = idb Demo.reloadedFlaky
  /\ is_Some (idb w' !! Demo.pngId).
Proof.
  cbv zeta. split; [vm_compute; by left|].
  split; [vm_compute; reflexivity|].
  split; [vm_compute; eauto|].
  split; [vm_compute; reflexivity|].
  split; [vm_compute; by intros [|[]]|].
  split; [vm_compute; reflexivity|].
  split; [vm_compute; reflexivity|].
  vm_compute. eauto.
Qed.

(** [removeItem] on the same image after a load that restored its
    blob, the later session being one whose ids are longer than the id
    deleted. *)
Lemma removeItem_spec_witness :
  let w' := exec (removeItem Demo.env Demo.pngId) Demo.reloaded in
  wellFormed Demo.reloaded
  /\ NoDup (map id (itemsOf Demo.reloaded))
  /\ In Demo.pngId (map id (itemsOf Demo.reloaded))
  /\ ~ In Demo.pngId (map id (itemsOf w'))
  /\ ~ In Demo.pngId
         (map id (itemsOf (exec (load Demo.nextEnv)
                             (freshSession (storage w') (idb w'))))).
Proof.
  assert (wellFormed Demo.reloaded) as Hwf.
  { unfold wellFormed. vm_compute. repeat constructor. }
  assert (NoDup (map id (itemsOf Demo.reloaded))) as Hnd.
  { apply (bool_decide_unpack _). vm_compute. exact I. }
  assert (In Demo.pngId (map id (itemsOf Demo.reloaded))) as Hin.
  { vm_compute. by left. }
  assert (forall t n,
             toStringRadix 36 (date_now Demo.nextEnv t) ++ math_random Demo.nextEnv n
             <> Demo.pngId) as Hfresh.
  { intros t n H. apply (f_equal length) in H.
    rewrite length_app in H. unfold Demo.nextEnv in H. cbn [math_random] in H.
    rewrite length_app in H. change (length (str "0000")) with 4%nat in H.
    change (length Demo.pngId) with 3%nat in H. lia. }
  pose proof (HubFacts.removeItem_spec Demo.env Demo.nextEnv Demo.pngId
                Demo.reloaded Hwf Hnd Hin) as (_ & Hgone & _ & Hload).
  cbv zeta. repeat (split; [done|]).
  exact (Hload (fun _ => eq_refl) Hfresh _ eq_refl).
Defined.

(** C5: an empty list does not come back empty.  A user who comes from
    v5 deletes the one note that the first load migrated: the list is
    empty, and so is the metadata record that [persistMetadata] writes.
    The next load finds that record empty and the v5 record still in
    storage, migrates it again, and the list holds the note that was
    deleted. *)
Theorem empty_list_round_trip_restores_legacy :
  let emptied := exec (removeItem Demo.env Samples.oldNoteId) Demo.upgraded in
  let saved := exec (persistMetadata Demo.env) emptied in
  let next := exec (load Demo.env) (freshSession (storage saved) (idb saved)) in
  map id (itemsOf Demo.upgraded) = [Samples.oldNoteId]
  /\ itemsOf emptied = []
  /\ storage_set_rejects Demo.env (ticks emptied) = false
  /\ clip_hub_v6_state (storage saved) = Some (map strip (itemsOf emptied))
  /\ map text (itemsOf next) = [Some (str "old note")]
  /\ itemsOf next <> map strip (itemsOf emptied).
Proof. cbv zeta. repeat split; vm_compute; (reflexivity || discriminate). Qed.

(** The round trip of the list of two items of [Demo.afterPng]. *)
Lemma metadata_round_trip_witness :
  storage_set_rejects Demo.env (ticks Demo.afterPng) = false
  /\ itemsOf Demo.afterPng <> []
  /\ itemsOf (exec (load Demo.env)
                (freshSession (storage (exec (persistMetadata Demo.env) Demo.afterPng))
                              (idb Demo.afterPng)))
     = map strip (itemsOf Demo.afterPng).
Proof.
  assert (itemsOf Demo.afterPng <> []) as Hne by (vm_compute; discriminate).
  assert (storage_set_rejects Demo.env (ticks Demo.afterPng) = false) as Hok
    by reflexivity.
  assert (storage (freshSession (storage (exec (persistMetadata Demo.env) Demo.afterPng))
                                (idb Demo.afterPng))
          = storage (exec (persistMetadata Demo.env) Demo.afterPng)) as Hst
    by (vm_compute; reflexivity).
  assert (Forall hasMimeAndSize (itemsOf Demo.afterPng)) as Hms
    by (apply (bool_decide_unpack _); vm_compute; exact I).
  split; [exact Hok|]. split; [exact Hne|].
  exact (proj2 (HubFacts.metadata_round_trip Demo.env Demo.env Demo.afterPng _
                  Hok Hst (or_introl Hne)) Hms).
Defined.

(** C6: a text candidate whose plain content is one space, so not empty,
    creates no item. *)
Lemma blank_text_counterexample :
  let w' := exec (processCandidates Demo.env [CText (Some (str " ")) None] 0) Demo.start in
  orStr (Some (str " ")) [] <> []
  /\ heap w' = heap Demo.start /\ items w' = items Demo.start.
Proof. cbv zeta. repeat split; vm_compute; done. Qed.

(** C6, on the candidate of the "hello" paste. *)
Lemma text_candidate_commit_witness :
  exists it,
    heap (exec (processCandidates Demo.env Demo.helloBatch 0) Demo.start) = [it]
    /\ kind it = KText.
Proof.
  destruct (proj1 (HubFacts.text_candidate_commit Demo.env (Some (str "hello"))
                     (Some (str "<b>hello</b>")) Demo.start))
    as (it & Hh & _ & Hk).
  - left. vm_compute. reflexivity.
  - exists it. split; [exact Hh|exact Hk].
Defined.

(** C10, on a candidate of white space only. *)
Lemma text_item_is_trimmed_witness :
  items (exec (processCandidates Demo.env
                 [CText (Some (str "  ")) (Some (str " "))] 0) Demo.afterHello)
  = items Demo.afterHello.
Proof.
  apply (proj2 (HubFacts.text_item_is_trimmed Demo.env (Some (str "  "))
                  (Some (str " ")) Demo.afterHello)).
  - change (orStr (Some (str "  ")) []) with [32%N; 32%N]. repeat constructor.
  - change (orStr (Some (str " ")) []) with [32%N]. repeat constructor.
Defined.

Lemma bigPng_size : file_size Demo.bigPng = 2097153.
Proof.
  unfold Demo.bigPng, file_size. cbn [file_bytes].
  rewrite length_replicate. apply Z2Nat.id. done.
Qed.




(** C9, on a [blob.get] for an id that the store does not hold. *)
Lemma listener_always_answers_witness :
  exists resp,
    Worker.responses (Worker.mkEnv 0 None Demo.typeError Demo.dataError)
      (Worker.MsgObject (Some (str "blob.get")) (Some (getPayload (str "nope")))) ∅
    = [resp]
    /\ resp = Worker.RespErr (str "not_found").
Proof.
  destruct (WorkerFacts.listener_always_answers
              (Worker.mkEnv 0 None Demo.typeError Demo.dataError)
              (Worker.MsgObject (Some (str "blob.get")) (Some (getPayload (str "nope"))))
              ∅) as (resp & Hr & _ & _ & Hnf & _).
  exists resp. split; [exact Hr|].
  apply (Hnf (getPayload (str "nope")) (str "nope")); reflexivity.
Defined.

End Scenarios.

(* ===================================================================== *)
(** ** The Blob Store as a table *)
(* ===================================================================== *)

Module WorkerProps.
Import Worker.

#[local] Arguments str : simpl never.

Lemma orStr_default (o : option jsstring) (d : jsstring) :
  orStr o (orStr (Some (orStr o d)) d) = orStr o d.
Proof.
  destruct o as [s|]; simpl; [|by destruct d].
  destruct (truthy s) eqn:E; [done|]. by destruct d.
Qed.

Lemma orStr_truthy (o : option jsstring) (d : jsstring) :
  d <> [] -> orStr o d <> [].
Proof.
  intros Hd. destruct o as [s|]; simpl; [|done].
  destruct s; simpl; done.
Qed.

(** X1: what [blob.put] stores under an id, [blob.get] of that id gives
    back: the same bytes, the MIME type and the name (or their defaults,
    "application/octet-stream" and the empty name), the size and the
    modification time given (or the byte length and 0). *)
Theorem put_then_get (env1 env2 : Env) (p q : Payload) (i : jsstring)
    (b : gmap jsstring BlobRecord) :
  idb_fault env1 = None -> idb_fault env2 = None ->
  pl_id p = Some i -> pl_id q = Some i ->
  responses env2 (MsgObject (Some (str "blob.get")) (Some q))
    (blobsAfter env1 (MsgObject (Some (str "blob.put")) (Some p)) b)
  = [RespBlob i (blobPart (pl_buffer p))
       (orStr (pl_mime p) (str "application/octet-stream"))
       (orStr (pl_name p) [])
       (nullish (pl_size p) (Z.of_nat (length (blobPart (pl_buffer p)))))
       (nullish (pl_lastModified p) 0)].
Proof.
  intros Hf1 Hf2 Hp Hq.
  destruct (WorkerFacts.put_handled env1 p i b Hf1 Hp) as [_ ->].
  unfold responses, listener, tryCatch. rewrite WorkerFacts.dispatch_get.
  unfold bind, getBlob, withStore, bind. rewrite Hf2, Hq. simpl.
  rewrite lookup_insert_eq. simpl. do 2 f_equal. apply orStr_default.
Qed.

(** X2: [blob.delete] answers [{ok: true}] whether or not the id is
    stored, and a [blob.get] of that id is then answered [not_found]. *)
Theorem delete_then_get (env1 env2 : Env) (p q : Payload) (i : jsstring)
    (b : gmap jsstring BlobRecord) :
  idb_fault env1 = None -> idb_fault env2 = None ->
  pl_id p = Some i -> pl_id q = Some i ->
  responses env1 (MsgObject (Some (str "blob.delete")) (Some p)) b = [RespOk]
  /\ responses env2 (MsgObject (Some (str "blob.get")) (Some q))
       (blobsAfter env1 (MsgObject (Some (str "blob.delete")) (Some p)) b)
     = [RespErr (str "not_found")].
Proof.
  intros Hf1 Hf2 Hp Hq.
  unfold responses, blobsAfter, listener, tryCatch.
  rewrite WorkerFacts.dispatch_delete, WorkerFacts.dispatch_get.
  unfold bind, deleteBlob, getBlob, withStore, bind. rewrite Hf1, Hp. simpl.
  split; [done|]. rewrite Hf2, Hq. simpl. by rewrite lookup_delete_eq.
Qed.

(** X3: after a [blob.clear] every [blob.get] is answered [not_found],
    whatever the store held. *)
Theorem clear_then_get (env1 env2 : Env) (p : option Payload) (q : Payload)
    (i : jsstring) (b : gmap jsstring BlobRecord) :
  idb_fault env1 = None -> idb_fault env2 = None -> pl_id q = Some i ->
  responses env1 (MsgObject (Some (str "blob.clear")) p) b = [RespOk]
  /\ responses env2 (MsgObject (Some (str "blob.get")) (Some q))
       (blobsAfter env1 (MsgObject (Some (str "blob.clear")) p) b)
     = [RespErr (str "not_found")].
Proof.
  intros Hf1 Hf2 Hq.
  rewrite (WorkerFacts.clear_handled env1 p b Hf1).
  unfold responses, listener, tryCatch.
  rewrite WorkerFacts.dispatch_clear, WorkerFacts.dispatch_get.
  unfold bind, clearAll, getBlob, withStore, bind. rewrite Hf1. simpl.
  split; [done|]. rewrite Hf2, Hq. simpl. by rewrite lookup_empty.
Qed.

(** X4: a [blob.put] or a [blob.delete] of one id leaves the record of
    every other id as it is. *)
Theorem other_keys_untouched (env : Env) (p : option Payload) (i j : jsstring)
    (b : gmap jsstring BlobRecord) :
  (forall q, p = Some q -> pl_id q = Some i) -> i <> j ->
  blobsAfter env (MsgObject (Some (str "blob.put")) p) b !! j = b !! j
  /\ blobsAfter env (MsgObject (Some (str "blob.delete")) p) b !! j = b !! j.
Proof.
  intros Hp Hij. unfold blobsAfter, listener, tryCatch.
  rewrite WorkerFacts.dispatch_put, WorkerFacts.dispatch_delete.
  unfold bind, putBlob, deleteBlob, withStore, throw, bind.
  destruct p as [q|]; [|done]. rewrite (Hp q eq_refl).
  destruct (idb_fault env); [done|]. simpl.
  by rewrite lookup_insert_ne, lookup_delete_ne.
Qed.

(** X5: the store changes only through a [blob.put], a [blob.delete] or
    a [blob.clear] on which IndexedDB does not fail: every other message
    (a [blob.get], a [ping], an unknown tag, no object at all), and every
    request that is answered with an error, leaves it as it is. *)
Theorem store_changes_only_by_writes (env : Env) (msg : Message)
    (b : gmap jsstring BlobRecord) :
  blobsAfter env msg b <> b ->
  idb_fault env = None
  /\ responses env msg b = [RespOk]
  /\ exists t p, msg = MsgObject t p
       /\ (isType t "blob.put" || isType t "blob.delete" || isType t "blob.clear"
           = true).
Proof.
  intros Hne.
  destruct (idb_fault env) as [e|] eqn:Hf.
  { exfalso. apply Hne. by eapply WorkerFacts.fault_keeps_store. }
  split; [done|].
  destruct msg as [|t p]; [done|].
  revert Hne. unfold blobsAfter, responses, listener, tryCatch. cbn [dispatch].
  destruct (isType t "blob.put") eqn:Eput.
  { unfold bind, putBlob, withStore, throw, bind. rewrite Hf.
    destruct p as [q|]; [|done]. destruct (pl_id q); [|done]. simpl.
    intros _. split; [done|]. exists t, (Some q). by rewrite Eput. }
  destruct (isType t "blob.get") eqn:Eget.
  { intros Hne. exfalso. apply Hne.
    unfold bind, getBlob, withStore, throw, bind. rewrite Hf.
    destruct p as [q|]; [|done]. destruct (pl_id q) as [i|]; [|done]. simpl.
    by destruct (b !! i). }
  destruct (isType t "blob.delete") eqn:Edel.
  { unfold bind, deleteBlob, withStore, throw, bind. rewrite Hf.
    destruct p as [q|]; [|done]. destruct (pl_id q); [|done]. simpl.
    intros _. split; [done|]. exists t, (Some q). by rewrite Edel, orb_true_r. }
  destruct (isType t "blob.clear") eqn:Eclr.
  { unfold bind, clearAll, withStore, bind. rewrite Hf. simpl.
    intros _. split; [done|]. exists t, p. by rewrite Eclr, !orb_true_r. }
  destruct (isType t "ping"); done.
Qed.

(** X6: the [mime] of the answer to a [blob.get] is never empty: it is
    the MIME type stored, else the type of the stored blob, else
    "application/octet-stream"; and its [size] is the size stored, or the
    byte length of the blob where none was stored. *)
Theorem get_answer_has_mime (env : Env) (q : Payload) (b : gmap jsstring BlobRecord)
    (i : jsstring) (buffer : list N) (m n : jsstring) (sz lm : Z) :
  In (RespBlob i buffer m n sz lm)
     (responses env (MsgObject (Some (str "blob.get")) (Some q)) b) ->
  m <> []
  /\ exists r, b !! i = Some r /\ pl_id q = Some i
       /\ buffer = rec_blob_bytes r
       /\ sz = nullish (rec_size r) (Z.of_nat (length buffer)).
Proof.
  unfold responses, listener, tryCatch. rewrite WorkerFacts.dispatch_get.
  unfold bind, getBlob, withStore, throw, bind.
  destruct (idb_fault env); [simpl; by intros [|[]]|].
  destruct (pl_id q) as [k|]; [|simpl; by intros [|[]]]. simpl.
  destruct (b !! k) as [r|] eqn:Hr; simpl; [|by intros [|[]]].
  intros [[= <- <- <- <- <- <-]|[]]. split.
  - apply orStr_truthy. by destruct (rec_blob_type r).
  - exists r. done.
Qed.

End WorkerProps.


Module TextProps.
Import Text.
#[local] Arguments str : simpl never.

(** *** [hash32] *)

Lemma digitChar_hex (d : N) : (d < 16)%N -> isHexDigit (digitChar d) = true.
Proof.
  intros H. unfold digitChar, isHexDigit.
  destruct (N.ltb_spec d 10).
  - apply orb_true_iff. left. apply andb_true_iff. split; apply N.leb_le; lia.
  - apply orb_true_iff. right. apply andb_true_iff. split; apply N.leb_le; lia.
Qed.

Lemma digitsFuel_hex fuel n acc :
  Forall (fun c => isHexDigit c = true) acc ->
  Forall (fun c => isHexDigit c = true) (digitsFuel fuel 16 n acc).
Proof.
  revert n acc. induction fuel as [|fuel IH]; intros n acc Hacc; [done|].
  simpl. assert (Forall (fun c => isHexDigit c = true) (digitChar (n mod 16) :: acc)).
  { constructor; [|done]. apply digitChar_hex. apply N.mod_lt. done. }
  destruct (n / 16 =? 0)%N; [done|]. by apply IH.
Qed.

Lemma digitsFuel_length fuel radix n acc :
  (length acc < length (digitsFuel (S fuel) radix n acc))%nat.
Proof.
  revert n acc. induction fuel as [|fuel IH]; intros n acc.
  - simpl. destruct (n / radix =? 0)%N; simpl; lia.
  - cbn [digitsFuel]. destruct (n / radix =? 0)%N; [simpl; lia|].
    specialize (IH (n / radix)%N (digitChar (n mod radix) :: acc)).
    cbn [digitsFuel] in IH. simpl in *. lia.
Qed.

Lemma fold_hash_range s h : 0 <= h -> 0 <= fold_left hash32_step s h.
Proof.
  revert h. induction s as [|c s IH]; intros h Hh; [done|].
  simpl. apply IH. unfold hash32_step, toUint32. apply Z.mod_pos_bound. done.
Qed.

Lemma hash32_length (s : jsstring) : length (hash32 s) = 8%nat.
Proof.
  unfold hash32, sliceLast, toStringRadix.
  assert (0 <= hash32_fold s) as Hpos by (by apply fold_hash_range).
  destruct (Z.ltb_spec (hash32_fold s) 0) as [|_]; [lia|].
  set (ds := digitsFuel _ 16 _ []).
  assert (1 <= length ds)%nat as Hlen.
  { pose proof (digitsFuel_length (N.to_nat (N.log2 (Z.abs_N (hash32_fold s)))) 16
                  (Z.abs_N (hash32_fold s)) []) as H. subst ds. exact H. }
  rewrite length_drop, length_app. change (length (str "0000000")) with 7%nat. lia.
Qed.

(** X7: [hash32] always gives eight characters, each one of [0-9a-f]. *)
Theorem hash32_shape (s : jsstring) :
  length (hash32 s) = 8%nat
  /\ Forall (fun c => isHexDigit c = true) (hash32 s).
Proof.
  split; [apply hash32_length|].
  unfold hash32, sliceLast, toStringRadix.
  assert (0 <= hash32_fold s) as Hpos by (by apply fold_hash_range).
  destruct (Z.ltb_spec (hash32_fold s) 0) as [|_]; [lia|].
  apply Forall_drop, Forall_app. split.
  - unfold str. simpl. repeat constructor.
  - by apply digitsFuel_hex.
Qed.

(** *** [escapeHtml] *)

Lemma replaceAllChar_app c by_ s t :
  replaceAllChar c by_ (s ++ t) = replaceAllChar c by_ s ++ replaceAllChar c by_ t.
Proof. induction s as [|x s IH]; [done|]. simpl. by rewrite IH, <- app_assoc. Qed.

Lemma escapeHtml_cons x r : escapeHtml (x :: r) = escapeChar x ++ escapeHtml r.
Proof.
  unfold escapeHtml, escapeChar. cbn [replaceAllChar].
  destruct (N.eqb_spec x 38) as [->|H38].
  { rewrite !replaceAllChar_app. reflexivity. }
  cbn [replaceAllChar app].
  destruct (N.eqb_spec x 60) as [->|H60].
  { rewrite !replaceAllChar_app. reflexivity. }
  cbn [replaceAllChar app].
  destruct (N.eqb_spec x 62) as [->|H62].
  { rewrite !replaceAllChar_app. reflexivity. }
  cbn [replaceAllChar app].
  destruct (N.eqb_spec x 34) as [->|H34].
  { rewrite !replaceAllChar_app. reflexivity. }
  cbn [replaceAllChar app].
  destruct (N.eqb_spec x 39) as [->|H39]; reflexivity.
Qed.

Lemma escapeChar_clean c :
  Forall (fun x => ((x =? 60) || (x =? 62) || (x =? 34) || (x =? 39))%N = false)
         (escapeChar c).
Proof.
  unfold escapeChar.
  destruct (N.eqb_spec c 38); [unfold str; simpl; repeat constructor|].
  destruct (N.eqb_spec c 60); [unfold str; simpl; repeat constructor|].
  destruct (N.eqb_spec c 62); [unfold str; simpl; repeat constructor|].
  destruct (N.eqb_spec c 34); [unfold str; simpl; repeat constructor|].
  destruct (N.eqb_spec c 39); [unfold str; simpl; repeat constructor|].
  constructor; [|constructor].
  repeat (apply orb_false_iff; split); by apply N.eqb_neq.
Qed.

(** Two escaped strings that agree start with the same character. *)
Lemma escapeChar_inj x y r1 r2 :
  escapeChar x ++ r1 = escapeChar y ++ r2 -> x = y /\ r1 = r2.
Proof.
  unfold escapeChar.
  destruct (N.eqb_spec x 38) as [->|?]; [|destruct (N.eqb_spec x 60) as [->|?];
    [|destruct (N.eqb_spec x 62) as [->|?]; [|destruct (N.eqb_spec x 34) as [->|?];
      [|destruct (N.eqb_spec x 39) as [->|?]]]]];
  (destruct (N.eqb_spec y 38) as [->|?]; [|destruct (N.eqb_spec y 60) as [->|?];
    [|destruct (N.eqb_spec y 62) as [->|?]; [|destruct (N.eqb_spec y 34) as [->|?];
      [|destruct (N.eqb_spec y 39) as [->|?]]]]]);
  unfold str; simpl; intros H; injection H; intros; subst; try done.
Qed.

(** X8: [escapeHtml] replaces each of [& < > " '] by its entity and
    leaves every other character; the five replacements, made one after
    the other, do not touch each other's entities.  The result holds none
    of [< > " '], and no two strings are escaped to the same result. *)
Theorem escapeHtml_spec :
  (forall s, escapeHtml s = concat (map escapeChar s))
  /\ (forall s, Forall (fun x => ((x =? 60) || (x =? 62) || (x =? 34) || (x =? 39))%N
                               = false) (escapeHtml s))
  /\ (forall s t, escapeHtml s = escapeHtml t -> s = t).
Proof.
  assert (forall s, escapeHtml s = concat (map escapeChar s)) as Hspec.
  { induction s as [|x s IH]; [done|]. rewrite escapeHtml_cons, IH. done. }
  split; [exact Hspec|]. split.
  - intros s. rewrite Hspec. induction s as [|x s IH]; [constructor|].
    simpl. apply Forall_app. split; [apply escapeChar_clean|exact IH].
  - induction s as [|x s IH]; intros t H.
    + destruct t as [|y t]; [done|]. rewrite escapeHtml_cons in H.
      exfalso. revert H. unfold escapeHtml at 1. simpl. unfold escapeChar.
      repeat (match goal with |- context [if ?c then _ else _] => destruct c end);
        unfold str; simpl; discriminate.
    + destruct t as [|y t].
      * exfalso. rewrite escapeHtml_cons in H. revert H.
        unfold escapeHtml at 2. simpl. unfold escapeChar.
        repeat (match goal with |- context [if ?c then _ else _] => destruct c end);
          unfold str; simpl; discriminate.
      * rewrite !escapeHtml_cons in H. apply escapeChar_inj in H as [-> H].
        f_equal. by apply IH.
Qed.

(** *** [timeAgo] *)

(** X10: for times that are safe integers, as is their difference,
    [timeAgo] counts whole seconds below one minute, whole minutes
    below one hour, whole hours below one day and whole days from then
    on, each being the age divided once (the nested roundings lose
    nothing); a timestamp in the future gives a negative number of
    seconds. *)
Theorem timeAgo_units (now ts : Z) :
  safeInteger now -> safeInteger ts -> safeInteger (now - ts) ->
  let d := now - ts in
  (d < 60000 -> timeAgoAt now ts = numToString (d / 1000) ++ str "s ago")
  /\ (60000 <= d < 3600000 ->
        timeAgoAt now ts = numToString (d / 60000) ++ str "m ago")
  /\ (3600000 <= d < 86400000 ->
        timeAgoAt now ts = numToString (d / 3600000) ++ str "h ago")
  /\ (86400000 <= d ->
        timeAgoAt now ts = numToString (d / 86400000) ++ str "d ago").
Proof.
  intros _ _ _ d. unfold timeAgoAt. fold d. cbv zeta.
  assert (d / 1000 / 60 = d / 60000) as E1 by (rewrite Z.div_div by lia; reflexivity).
  assert (d / 1000 / 60 / 60 = d / 3600000) as E2 by (rewrite !Z.div_div by lia; reflexivity).
  assert (d / 1000 / 60 / 60 / 24 = d / 86400000) as E3 by (rewrite !Z.div_div by lia; reflexivity).
  rewrite E3, E2, E1.
  assert (forall k q, 0 < k -> (d / k <? q) = (d <? k * q)) as Hdiv.
  { intros k q Hk. apply Bool.eq_true_iff_eq. rewrite !Z.ltb_lt. split; intros H.
    - destruct (Z.lt_ge_cases d (k * q)) as [|Hge]; [done|].
      apply (Z.div_le_lower_bound _ _ _ Hk) in Hge. lia.
    - by apply Z.div_lt_upper_bound. }
  rewrite !Hdiv by lia.
  repeat split; intros H.
  - destruct (Z.ltb_spec d (1000 * 60)); [done|lia].
  - destruct (Z.ltb_spec d (1000 * 60)); [lia|].
    destruct (Z.ltb_spec d (60000 * 60)); [done|lia].
  - destruct (Z.ltb_spec d (1000 * 60)); [lia|].
    destruct (Z.ltb_spec d (60000 * 60)); [lia|].
    destruct (Z.ltb_spec d (3600000 * 24)); [done|lia].
  - destruct (Z.ltb_spec d (1000 * 60)); [lia|].
    destruct (Z.ltb_spec d (60000 * 60)); [lia|].
    destruct (Z.ltb_spec d (3600000 * 24)); [lia|done].
Qed.

(** *** [formatBytes] *)

(** X9: for a number of bytes that is a safe integer, [formatBytes]
    gives the number itself, followed by "B", below 1024; from there on
    it gives the tenths of the unit, rounded half up, with one decimal:
    of KB below 1024^2, of MB below 1024^3, of GB above.  (So the number
    shown can be 1024.0: the unit is chosen before the rounding.) *)
Theorem formatBytes_units (bytes : Z) :
  safeInteger bytes ->
  (bytes < 1024 -> formatBytes bytes = numToString bytes ++ str " B")
  /\ (1024 <= bytes < 1024 ^ 2 ->
        let t := (10 * bytes + 512) / 1024 in
        formatBytes bytes
        = numToString (t / 10) ++ str "." ++ numToString (t mod 10) ++ str " KB")
  /\ (1024 ^ 2 <= bytes < 1024 ^ 3 ->
        let t := (10 * bytes + 524288) / 1024 ^ 2 in
        formatBytes bytes
        = numToString (t / 10) ++ str "." ++ numToString (t mod 10) ++ str " MB")
  /\ (1024 ^ 3 <= bytes ->
        let t := (10 * bytes + 536870912) / 1024 ^ 3 in
        formatBytes bytes
        = numToString (t / 10) ++ str "." ++ numToString (t mod 10) ++ str " GB").
Proof.
  intros _.
  change (1024 ^ 2) with 1048576. change (1024 ^ 3) with 1073741824.
  assert (forall n : Q, 1024 <= Qnum n / Zpos (Qden n) -> Qle_bool 1024 n = true)
    as Hge.
  { intros [a p] H. simpl in H. rewrite Qle_bool_iff. unfold Qle. simpl.
    pose proof (Z.mul_div_le a (Zpos p) eq_refl). nia. }
  assert (forall n : Q, Qnum n / Zpos (Qden n) < 1024 -> Qle_bool 1024 n = false)
    as Hlt.
  { intros [a p] H. simpl in H. apply not_true_is_false.
    rewrite Qle_bool_iff. unfold Qle. simpl. intros Hle.
    assert (1024 <= a / Zpos p); [|lia].
    apply Z.div_le_lower_bound; lia. }
  assert (forall (a : Z) (p : positive),
             Qfloor ((a # p) * 10 + (1 # 2)) = (20 * a + Zpos p) / (2 * Zpos p))
    as Hfloor.
  { intros a p. unfold Qfloor, Qmult, Qplus. cbn [Qnum Qden].
    rewrite !Pos2Z.inj_mul. f_equal; lia. }
  split; [|split; [|split]].
  - intros H. unfold formatBytes, formatLoop.
    rewrite Hlt by (simpl; rewrite Z.div_1_r; lia).
    cbn [andb Nat.eqb nth units].
    replace (Qfloor (inject_Z bytes + (1 # 2))) with bytes; [done|].
    unfold Qfloor, inject_Z, Qplus. simpl.
    apply Z.div_unique with (r := 1); lia.
  - intros H t. unfold formatBytes, formatLoop, inject_Z, Qdiv, Qmult, Qinv.
    cbn [Qnum Qden Pos.mul].
    rewrite Hge by (simpl; rewrite Z.div_1_r; lia).
    cbn [andb length units Nat.sub Nat.ltb Nat.leb].
    rewrite Hlt by (simpl; rewrite Z.mul_1_r; apply Z.div_lt_upper_bound; lia).
    cbn [andb Nat.eqb nth units]. unfold toFixed1. rewrite Hfloor.
    change (Z.pos (1 * 1024)) with 1024.
    replace ((20 * (bytes * 1) + 1024) / (2 * 1024)) with t;
      [by rewrite <- !app_assoc|].
    subst t.
    replace (20 * (bytes * 1) + 1024) with ((10 * bytes + 512) * 2) by lia.
    rewrite (Z.mul_comm 2 1024), Z.div_mul_cancel_r by lia. done.
  - intros H t. unfold formatBytes, formatLoop, inject_Z, Qdiv, Qmult, Qinv.
    cbn [Qnum Qden Pos.mul].
    rewrite Hge by (simpl; rewrite Z.div_1_r; lia).
    cbn [andb length units Nat.sub Nat.ltb Nat.leb].
    rewrite Hge by (simpl; rewrite Z.mul_1_r; apply Z.div_le_lower_bound; lia).
    cbn [andb length units Nat.sub Nat.ltb Nat.leb].
    rewrite Hlt by (simpl; rewrite !Z.mul_1_r; apply Z.div_lt_upper_bound; lia).
    cbn [andb Nat.eqb nth units]. unfold toFixed1. rewrite Hfloor.
    change (Z.pos (1 * 1024 * 1024)) with 1048576.
    replace ((20 * (bytes * 1 * 1) + 1048576) / (2 * 1048576)) with t;
      [by rewrite <- !app_assoc|].
    subst t.
    replace (20 * (bytes * 1 * 1) + 1048576) with ((10 * bytes + 524288) * 2) by lia.
    rewrite (Z.mul_comm 2 1048576), Z.div_mul_cancel_r by lia. done.
  - intros H t. unfold formatBytes, formatLoop, inject_Z, Qdiv, Qmult, Qinv.
    cbn [Qnum Qden Pos.mul].
    rewrite Hge by (simpl; rewrite Z.div_1_r; lia).
    cbn [andb length units Nat.sub Nat.ltb Nat.leb].
    rewrite Hge by (simpl; rewrite Z.mul_1_r; apply Z.div_le_lower_bound; lia).
    cbn [andb length units Nat.sub Nat.ltb Nat.leb].
    rewrite Hge by (simpl; rewrite !Z.mul_1_r; apply Z.div_le_lower_bound; lia).
    cbn [andb Nat.eqb nth units]. unfold toFixed1. rewrite Hfloor.
    change (Z.pos (1 * 1024 * 1024 * 1024)) with 1073741824.
    replace ((20 * (bytes * 1 * 1 * 1) + 1073741824) / (2 * 1073741824)) with t;
      [by rewrite <- !app_assoc|].
    subst t.
    replace (20 * (bytes * 1 * 1 * 1) + 1073741824) with ((10 * bytes + 536870912) * 2) by lia.
    rewrite (Z.mul_comm 2 1073741824), Z.div_mul_cancel_r by lia. done.
Qed.

End TextProps.


Module HubProps.
Import Hub Gestures HubFacts.
#[local] Arguments str : simpl never.

Local Ltac run_steps :=
  repeat (progress (rewrite ?run_bind; cbn [tick ret fst snd get modify])).

(** *** What the helpers leave alone *)

Lemma restoreBlobs_toasts env refs w :
  toasts (exec (restoreBlobs env refs) w) = toasts w.
Proof.
  revert w. induction refs as [|r refs IH]; intros w; [done|].
  cbn [restoreBlobs]. rewrite !exec_bind. cbn [get fst snd].
  rewrite IH.
  destruct (heap w !! r) as [it|]; [|done].
  destruct (truthy (orStr (blobId it) [])); simpl; [|done].
  destruct (bool_decide _); [done|].
  rewrite run_bind.
  destruct (runtimeSend_frame env "blob.get" (Some (getPayload (orStr (blobId it) []))) w)
    as (_ & _ & _ & _ & _ & Ht).
  destruct (runtimeSend env "blob.get" _ w) as [[|[[]|]] w1]; simpl in *; done.
Qed.

Lemma migrate_lastIngest env old w :
  lastIngest (snd (migrate env old w)) = lastIngest w.
Proof.
  revert w. induction old as [|e old IH]; intros w; [done|].
  destruct e as [it|]; cbn [migrate]; [|apply IH].
  destruct (bool_decide (l_kind it = Some (str "text"))).
  - unfold uid, dateNow. run_steps.
    match goal with |- context [migrate env old ?x] => rewrite (IH x) end.
    by destruct (orNum (l_createdAt it) 0 =? 0).
  - destruct (bool_decide (l_kind it = Some (str "image"))); [|apply IH].
    unfold uid, dateNow. run_steps.
    match goal with |- context [migrate env old ?x] => rewrite (IH x) end.
    by destruct (orNum (l_createdAt it) 0 =? 0).
Qed.

(** *** Normalising a paste *)

Lemma filesOf_app a b : filesOf (a ++ b) = filesOf a ++ filesOf b.
Proof. unfold filesOf. apply omap_app. Qed.

Lemma filesOf_flushText p : filesOf (flushText p) = [].
Proof. unfold flushText. by destruct (truthy (fst p) || truthy (snd p)). Qed.

Lemma counted_flushText p : Forall (fun c => counted c = true) (flushText p).
Proof.
  unfold flushText. destruct (truthy (fst p) || truthy (snd p)) eqn:E; [|constructor].
  constructor; [|constructor]. cbn [counted]. by rewrite !orStr_Some_nil.
Qed.

Lemma pasteLoop_files raw cs p :
  filesOf (fst (pasteLoop raw cs p)) = filesOf cs ++ rawFiles raw.
Proof.
  revert cs p. induction raw as [|it raw IH]; intros cs p.
  - simpl. by rewrite app_nil_r.
  - destruct it as [[f|]|t s|]; simpl; rewrite IH.
    + rewrite !filesOf_app, filesOf_flushText. simpl. by rewrite app_nil_r, <- app_assoc.
    + by rewrite filesOf_app, filesOf_flushText, app_nil_r.
    + done.
    + done.
Qed.

Lemma pasteLoop_counted raw cs p :
  Forall (fun c => counted c = true) cs ->
  Forall (fun c => counted c = true) (fst (pasteLoop raw cs p)).
Proof.
  revert cs p. induction raw as [|it raw IH]; intros cs p Hcs; [done|].
  destruct it as [[f|]|t s|]; simpl; apply IH; try done.
  - rewrite !Forall_app. repeat split; [done|apply counted_flushText|].
    by repeat constructor.
  - rewrite !Forall_app. split; [done|apply counted_flushText].
Qed.

(** X11: the candidates of a paste event hold every file of the event,
    each once and in the order of the event, whatever text entries lie
    between them. *)
Theorem normalizePaste_keeps_files (raw : list DTItem) :
  filesOf (normalizePaste raw) = rawFiles raw.
Proof.
  unfold normalizePaste.
  pose proof (pasteLoop_files raw [] ([], [])) as H.
  destruct (pasteLoop raw [] ([], [])) as [cs p]. simpl in H.
  by rewrite filesOf_app, filesOf_flushText, app_nil_r.
Qed.

Lemma processCandidates_count env cs a w k :
  fst (processCandidates env cs a w) = Some k ->
  k = a + Z.of_nat (length (List.filter counted cs)).
Proof.
  intros H. destruct (processCandidates_spec env cs a w) as (processed & rest & _ & _ & Hres).
  rewrite H in Hres. exact (proj2 Hres).
Qed.

Lemma filter_all {A} (f : A -> bool) (l : list A) :
  Forall (fun x => f x = true) l -> List.filter f l = l.
Proof. induction 1 as [|x l Hx _ IH]; [done|]. simpl. by rewrite Hx, IH. Qed.

(** X12: no candidate of a paste event is an empty text: every one of
    them is counted by the commit loop, so the number that the loop
    returns, when it returns, is the number of candidates; and the loop
    returns when no fallback read of a file fails. *)
Theorem normalizePaste_all_counted (env : Env) (raw : list DTItem) (w : World) :
  Forall (fun c => counted c = true) (normalizePaste raw)
  /\ (forall k, fst (processCandidates env (normalizePaste raw) 0 w) = Some k ->
                k = Z.of_nat (length (normalizePaste raw)))
  /\ ((forall n, data_url_read env n <> ReadFails) ->
      fst (processCandidates env (normalizePaste raw) 0 w)
      = Some (Z.of_nat (length (normalizePaste raw)))).
Proof.
  assert (Forall (fun c => counted c = true) (normalizePaste raw)) as H.
  { unfold normalizePaste.
    pose proof (pasteLoop_counted raw [] ([], []) (List.Forall_nil _)) as H.
    destruct (pasteLoop raw [] ([], [])) as [cs p]. simpl in H.
    apply Forall_app. split; [done|apply counted_flushText]. }
  split; [done|]. split.
  - intros k Hk. apply processCandidates_count in Hk.
    rewrite filter_all in Hk by done. lia.
  - intros Hread. rewrite processCandidates_returns by done.
    rewrite filter_all by done. f_equal.
Qed.

(** *** The commit loop and its toast *)

Lemma commits_counted c : commits c = true -> counted c = true.
Proof.
  destruct c as [cplain chtml|f]; [|done]. cbn [commits counted].
  intros H. apply orb_true_iff in H as [H|H]; apply trimEnd_truthy in H;
    rewrite H; [done|apply orb_true_r].
Qed.

Lemma filter_length_le {A} (f g : A -> bool) (l : list A) :
  (forall x, f x = true -> g x = true) ->
  (length (List.filter f l) <= length (List.filter g l))%nat.
Proof.
  intros Hfg. induction l as [|x l IH]; [done|]. simpl.
  destruct (f x) eqn:Ef.
  - rewrite (Hfg _ Ef). simpl. lia.
  - destruct (g x); simpl; lia.
Qed.

(** The toasts that the commit loop itself can show: those of
    [addBlob] and of [persistMetadata]. *)
Lemma persistMetadata_toasts env w :
  exists ts, toasts (exec (persistMetadata env) w) = toasts w ++ ts
             /\ Forall (fun t => In t saveToasts) ts.
Proof.
  unfold persistMetadata, storageSet, exec, bind, get, tick, toast, modify, ret.
  simpl. destruct (storage_set_rejects env (ticks w)); simpl.
  - exists [str "Storage quota hit"]. split; [done|].
    constructor; [|constructor]. unfold saveToasts. simpl. auto.
  - exists []. by rewrite app_nil_r.
Qed.

Lemma addText_toasts env text html w :
  exists ts, toasts (exec (addText env text html) w) = toasts w ++ ts
             /\ Forall (fun t => In t saveToasts) ts.
Proof.
  unfold addText.
  destruct (negb (truthy (trimEnd (orStr text []))) && negb (truthy (trimEnd (orStr html [])))).
  { exists []. by rewrite app_nil_r. }
  unfold uid, dateNow, alloc, addItemLocal. rewrite !exec_bind. cbn [tick ret modify fst snd].
  match goal with |- context [exec (persistMetadata env) ?x] =>
    destruct (persistMetadata_toasts env x) as (ts & -> & Hts) end.
  by exists ts.
Qed.

Lemma addBlob_toasts env blob fname kindHint w :
  exists ts, toasts (exec (addBlob env blob fname kindHint) w) = toasts w ++ ts
             /\ Forall (fun t => In t saveToasts) ts.
Proof.
  assert (forall w0 ts0, Forall (fun t => In t saveToasts) ts0 ->
            forall w1, (exists ts, toasts w1 = toasts w0 ++ ts
                                   /\ Forall (fun t => In t saveToasts) ts) ->
            toasts w0 = toasts w ++ ts0 ->
            exists ts, toasts w1 = toasts w ++ ts
                       /\ Forall (fun t => In t saveToasts) ts) as Hchain.
  { intros w0 ts0 H0 w1 (ts & E & H1) E0. exists (ts0 ++ ts).
    rewrite E, E0, app_assoc. split; [done|]. by apply Forall_app. }
  unfold addBlob. rewrite exec_bind.
  assert (exists ts0, toasts (snd (addBlob_begin env blob fname kindHint w))
                      = toasts w ++ ts0
                      /\ Forall (fun t => In t saveToasts) ts0) as (ts0 & E0 & H0).
  { unfold addBlob_begin. cbv zeta.
    unfold uid, dateNow, alloc, addItemLocal.
    repeat (rewrite run_bind; cbn [tick ret modify fst snd]).
    match goal with |- context [if isFile ?x then _ else _] => destruct (isFile x) end;
      repeat (rewrite run_bind; cbn [tick ret modify fst snd]);
      match goal with |- context [persistMetadata env ?x] =>
        destruct (persistMetadata_toasts env x) as (ts & E & Hts) end;
      unfold exec in E; rewrite E; by exists ts. }
  destruct (addBlob_begin_spec env blob fname kindHint w) as (i & f & it & w1 & E & _).
  rewrite E in *. cbn [fst snd] in *.
  apply (Hchain w1 ts0 H0); [|done].
  unfold addBlob_finish. rewrite exec_bind.
  destruct (persistBlob_spec env i f w1) as (_ & _ & _ & _ & _ & Ht & _).
  destruct (fst (persistBlobToBackground env i f w1)).
  - rewrite exec_bind, update_run. cbn [fst snd]. rewrite exec_bind.
    match goal with |- context [persistMetadata env ?x] =>
      destruct (persistMetadata_toasts env x) as (ts & Ets & Hts) end.
    unfold exec in *. cbn [ret snd toasts set_heap] in *. rewrite Ets, Ht. by exists ts.
  - rewrite exec_bind, update_run. cbn [fst snd].
    rewrite exec_bind, update_run. cbn [fst snd].
    rewrite exec_bind, blobToDataUrl_run. cbn [fst snd].
    destruct (data_url_read env _).
    + rewrite !exec_bind, update_run. cbn [fst snd].
      match goal with |- context [persistMetadata env ?x] =>
        destruct (persistMetadata_toasts env x) as (ts & Ets & Hts) end.
      unfold exec in *. cbn [ret snd toast modify toasts set_heap set_ticks set_toasts] in *.
      rewrite Ets, Ht. exists (ts ++ [str "Saved (fallback)"]).
      rewrite app_assoc. split; [done|]. apply Forall_app. split; [done|].
      constructor; [|constructor]. unfold saveToasts. simpl. auto.
    + exists []. unfold exec. cbn [ret snd toasts set_heap set_ticks].
      by rewrite Ht, app_nil_r.
    + rewrite exec_bind. unfold exec.
      cbn [ret snd fst toast modify toasts set_heap set_ticks set_toasts].
      rewrite Ht. exists [str "Saved (session only)"]. split; [done|].
      constructor; [|constructor]. unfold saveToasts. simpl. auto.
Qed.

Lemma processCandidates_toasts env cs a w :
  exists ts, toasts (snd (processCandidates env cs a w)) = toasts w ++ ts
             /\ Forall (fun t => In t saveToasts) ts.
Proof.
  revert a w. induction cs as [|c cs IH]; intros a w.
  { exists []. by rewrite app_nil_r. }
  destruct c as [cplain chtml|f].
  - rewrite processCandidates_text_run.
    destruct (addText_toasts env (Some (orStr cplain [])) (Some (orStr chtml [])) w)
      as (ts1 & E1 & H1).
    match goal with |- context [processCandidates env cs ?a1 ?w1] =>
      destruct (IH a1 w1) as (ts2 & E2 & H2) end.
    exists (ts1 ++ ts2). rewrite E2, E1, app_assoc. split; [done|]. by apply Forall_app.
  - rewrite processCandidates_file_run.
    destruct (addBlob_toasts env f (orStr (file_name f) []) KFile w) as (ts1 & E1 & H1).
    destruct (fst (addBlob env f (orStr (file_name f) []) KFile w)).
    + match goal with |- context [processCandidates env cs ?a1 ?w1] =>
        destruct (IH a1 w1) as (ts2 & E2 & H2) end.
      exists (ts1 ++ ts2). rewrite E2, E1, app_assoc. split; [done|]. by apply Forall_app.
    + by exists ts1.
Qed.

(** What [commitBatch] adds to its loop: the closing toast when the
    loop returns, and nothing when it does not. *)
Lemma commitBatch_run (env : Env) (cs : list Candidate)
    (label : jsstring) (w : World) :
  let k := length (List.filter counted cs) in
  let loop := processCandidates env cs 0 w in
  commitBatch env cs label w
  = match fst loop with
    | Some _ =>
        (Some tt,
         set_toasts
           (toasts (snd loop)
              ++ (if (k =? 0)%nat
                  then (if truthy label then [str "Nothing to add"] else [])
                  else [str "Added " ++ numToString (Z.of_nat k) ++ str " item"
                          ++ (if (1 <? k)%nat then str "s" else [])]))
           (snd loop))
    | None => (None, snd loop)
    end.
Proof.
  cbv zeta. unfold commitBatch. rewrite run_bind.
  destruct (fst (processCandidates env cs 0 w)) as [a|] eqn:E; [|done].
  apply processCandidates_count in E. subst a.
  set (k := length (List.filter counted cs)).
  rewrite run_bind. cbn [ret fst snd].
  destruct (Nat.eqb_spec k 0) as [->|Hk].
  + simpl. destruct (truthy label); [done|]. unfold ret. simpl.
    rewrite app_nil_r. by destruct (snd (processCandidates env cs 0 w)).
  + replace (negb (0 + Z.of_nat k =? 0)) with true
      by (symmetry; apply negb_true_iff, Z.eqb_neq; lia).
    replace (0 + Z.of_nat k >? 1) with (1 <? k)%nat; [done|].
    destruct (Nat.ltb_spec 1 k), (Z.gtb_spec (0 + Z.of_nat k) 1); lia || done.
Qed.


(** *** De-duplication *)

(** X14: the signature of a batch reads the type, the size and the name
    of a file and nothing of its bytes: a file that differs from the
    last one only in its content, arriving inside the window, is taken
    for a duplicate and dropped without a trace. *)
Theorem dedup_ignores_file_bytes (env : Env) (f g : File) (label : jsstring)
    (w : World) :
  file_type g = file_type f ->
  length (file_bytes g) = length (file_bytes f) ->
  file_name g = file_name f ->
  fst (lastIngest w) = signature [CFile f] ->
  date_now env (ticks w) - snd (lastIngest w) < INGEST_DEDUP_WINDOW_MS ->
  signature [CFile g] = signature [CFile f]
  /\ exec (ingestCandidates env [CFile g] label) w = set_ticks (S (ticks w)) w.
Proof.
  intros Ht Hs Hn Hsig Hwin.
  assert (signature [CFile g] = signature [CFile f]) as E.
  { unfold signature, sigPart, file_size. simpl. by rewrite Ht, Hs, Hn. }
  split; [done|]. unfold exec. rewrite ingestCandidates_run, E, Hsig.
  rewrite bool_decide_eq_true_2 by done.
  apply Z.ltb_lt in Hwin. by rewrite Hwin.
Qed.

(** X28: the signature reads the first 256 characters of the two
    strings of a text and their lengths: a text that differs from the
    last one only after its 256th character, without a change of
    length, arriving inside the window, is taken for a duplicate and
    dropped. *)
Theorem dedup_reads_text_prefix (env : Env) (p1 p2 h1 h2 : option jsstring)
    (label : jsstring) (w : World) :
  take 256 (orStr p2 []) = take 256 (orStr p1 []) ->
  take 256 (orStr h2 []) = take 256 (orStr h1 []) ->
  length (orStr p2 []) = length (orStr p1 []) ->
  length (orStr h2 []) = length (orStr h1 []) ->
  fst (lastIngest w) = signature [CText p1 h1] ->
  date_now env (ticks w) - snd (lastIngest w) < INGEST_DEDUP_WINDOW_MS ->
  signature [CText p2 h2] = signature [CText p1 h1]
  /\ exec (ingestCandidates env [CText p2 h2] label) w = set_ticks (S (ticks w)) w.
Proof.
  intros Hp Hh Hlp Hlh Hsig Hwin.
  assert (signature [CText p2 h2] = signature [CText p1 h1]) as E.
  { unfold signature, sigPart. cbn [map joinWith]. by rewrite Hp, Hh, Hlp, Hlh. }
  split; [done|]. unfold exec. rewrite ingestCandidates_run, E, Hsig.
  rewrite bool_decide_eq_true_2 by done.
  apply Z.ltb_lt in Hwin. by rewrite Hwin.
Qed.

(** X15: in a session that has ingested nothing yet ([lastIngest.sig] is
    the empty string) no batch is taken for a duplicate, however early
    it comes: a signature has eight characters.  The batch is recorded,
    and its candidates are committed in order: all of them when the
    commit loop returns, as it does when no fallback read of a file
    fails, and up to a file whose write and fallback read both fail when
    it does not. *)
Theorem first_batch_is_not_suppressed (env : Env) (cs : list Candidate)
    (label : jsstring) (w : World) :
  fst (lastIngest w) = [] ->
  let r := ingestCandidates env cs label w in
  let w' := snd r in
  lastIngest w' = (signature cs, date_now env (ticks w))
  /\ exists processed rest,
       cs = processed ++ rest
       /\ items w' = rev (seq (length (heap w)) (length (List.filter commits processed)))
                       ++ items w
       /\ match fst r with
          | Some _ => rest = []
          | None => exists f, last processed = Some (CFile f)
          end
       /\ ((forall n, data_url_read env n <> ReadFails) -> fst r = Some tt).
Proof.
  intros Hsig. cbv zeta. rewrite ingestCandidates_run.
  rewrite bool_decide_eq_false_2.
  2:{ rewrite Hsig. intros E. pose proof (TextProps.hash32_length
        (joinWith (str "||") (map sigPart cs))) as H.
      unfold signature in E. by rewrite E in H. }
  cbn [andb].
  set (w0 := set_lastIngest _ _).
  destruct (commitBatch_frame env cs label w0) as (_ & Hi & _ & _ & _ & Hl).
  destruct (processCandidates_spec env cs 0 w0)
    as (processed & rest & Hcs & (_ & Hit & _ & Hli) & Hres).
  unfold exec in *. rewrite Hl, Hi, Hli, Hit. split; [done|].
  exists processed, rest. split; [done|]. split; [done|].
  rewrite commitBatch_result. split.
  - destruct (fst (processCandidates env cs 0 w0)); [|done]. by destruct Hres.
  - intros Hread. by rewrite processCandidates_returns.
Qed.

(** *** Deleting *)

Lemma findIndex_absent (h : list Item) (i : jsstring) (refs : list nat) :
  ~ In i (map id (omap (fun r => h !! r) refs)) -> findIndex h i refs = None.
Proof.
  induction refs as [|r refs IH]; [done|]. simpl.
  destruct (h !! r) as [it|] eqn:E; simpl.
  - intros H. destruct (bool_decide_reflect (id it = i)) as [Hid|_].
    + exfalso. apply H. by left.
    + rewrite IH; [done|]. intros Hin. apply H. by right.
  - intros H. by rewrite IH.
Qed.

(** X16: deleting an id that no item of the list has does nothing at
    all: the list, the blob cache, both stores and the clock are as
    before, and nothing is sent to the worker. *)
Theorem removeItem_unknown_id (env : Env) (i : jsstring) (w : World) :
  ~ In i (map id (itemsOf w)) -> removeItem env i w = (tt, w).
Proof.
  intros H. unfold removeItem. rewrite run_bind. cbn [get fst snd].
  by rewrite findIndex_absent.
Qed.

(** *** A rejected metadata write *)

(** X17: when [storage.local.set] rejects, a text that is added is in
    the list of the session all the same; the stored record is the one
    of before, and the only sign is the toast "Storage quota hit". *)
Theorem quota_hit_keeps_item_in_memory (env : Env) (text html : option jsstring)
    (w : World) :
  truthy (trimEnd (orStr text [])) || truthy (trimEnd (orStr html [])) = true ->
  storage_set_rejects env (S (S (S (ticks w)))) = true ->
  let w' := exec (addText env text html) w in
  items w' = length (heap w) :: items w
  /\ length (heap w') = S (length (heap w))
  /\ storage w' = storage w
  /\ toasts w' = toasts w ++ [str "Storage quota hit"].
Proof.
  intros H Hrej. cbv zeta. unfold addText.
  replace (negb (truthy (trimEnd (orStr text []))) && negb (truthy (trimEnd (orStr html []))))
    with false by (by destruct (truthy _), (truthy _)).
  unfold uid, dateNow, alloc, addItemLocal, persistMetadata, storageSet, exec,
    bind, get, tick, toast, modify, ret. simpl. rewrite Hrej. simpl.
  rewrite length_app. simpl. repeat split; try done. lia.
Qed.

Lemma omap_rev {A B} (f : A -> option B) (l : list A) :
  omap f (rev l) = rev (omap f l).
Proof.
  induction l as [|x l IH]; [done|]. simpl. rewrite omap_app, IH. simpl.
  destruct (f x); simpl; [done|]. by rewrite app_nil_r.
Qed.

(** *** The list after new objects were put at its head *)

Lemma omap_lookup_old (h objs : list Item) (refs : list nat) :
  Forall (fun r => (r < length h)%nat) refs ->
  omap (fun r => (h ++ objs) !! r) refs = omap (fun r => h !! r) refs.
Proof.
  induction 1 as [|r refs Hr _ IH]; [done|].
  change (omap (fun r => (h ++ objs) !! r) (r :: refs))
    with (match (h ++ objs) !! r with
          | Some it => it :: omap (fun r => (h ++ objs) !! r) refs
          | None => omap (fun r => (h ++ objs) !! r) refs
          end).
  rewrite IH, lookup_app_l by done. done.
Qed.

Lemma itemsOf_grow (w w' : World) (objs : list Item) :
  wellFormed w ->
  heap w' = heap w ++ objs ->
  items w' = rev (seq (length (heap w)) (length objs)) ++ items w ->
  itemsOf w' = rev objs ++ itemsOf w.
Proof.
  intros Hwf Hh Hi. unfold itemsOf. rewrite Hi, Hh, omap_app, omap_rev.
  by rewrite omap_lookup_fresh, omap_lookup_old.
Qed.

(** *** The item of a file *)

Lemma orStr_default_truthy (o : option jsstring) (d : jsstring) :
  truthy d = true -> truthy (orStr o d) = true.
Proof. intros H. destruct o as [[|c s]|]; done. Qed.

Lemma orStr_truthy_id (s : jsstring) :
  truthy s = true -> orStr (Some s) [] = s.
Proof. by destruct s. Qed.

(** The first phase of [addBlob], with the fields of the object. *)
Lemma addBlob_begin_fields env blob fname kindHint w :
  exists i f it w1,
    addBlob_begin env blob fname kindHint w = ((length (heap w), i, f), w1)
    /\ heap w1 = heap w ++ [it]
    /\ id it = i /\ blobId it = Some i /\ text it = None /\ html it = None
    /\ error it = None /\ dataUrl it = None
    /\ truthy (orStr (name it) []) = true
    /\ truthy (orStr (mime it) []) = true
    /\ kind it = (if isImageType (orStr (mime it) []) then KImage else kindHint)
    /\ size it = Some (file_size f)
    /\ (truthy fname = true -> name it = Some fname)
    /\ blobCache w1 = <[i := f]> (blobCache w)
    /\ file_bytes f
       = file_bytes (if isImageType (file_type blob) then maybeCompressImage env blob
                     else blob)
    /\ i = toStringRadix 36 (date_now env (ticks w)) ++ math_random env (S (ticks w)).
Proof.
  unfold addBlob_begin. cbv zeta.
  set (working := if isImageType (file_type blob) then maybeCompressImage env blob
                  else blob).
  set (mime := orStr (Some (file_type working))
                 (orStr (Some (file_type blob)) (str "application/octet-stream"))).
  set (fileName := orStr (Some (orStr (Some fname) (orStr (file_name blob) []))) _).
  assert (truthy mime = true) as Hmime.
  { unfold mime. by do 2 apply orStr_default_truthy. }
  assert (truthy fileName = true) as Hname.
  { unfold fileName. apply orStr_default_truthy.
    by destruct (isImageType mime). }
  assert (truthy fname = true -> fileName = fname) as Hfname.
  { intros H. unfold fileName. destruct fname as [|c r]; done. }
  unfold uid, dateNow, alloc, addItemLocal, bind, tick, ret, modify.
  destruct (isFile working);
    (match goal with |- context [persistMetadata env ?x] =>
       pose proof (persistMetadata_frame env x) as HH; unfold exec in HH;
       destruct (persistMetadata env x) as [u w1] end);
    simpl in HH; destruct HH as (Hh & Hi & Hc & Hl & Hd & _);
    do 4 eexists; (split; [reflexivity|]);
    rewrite Hh, Hc; (split; [reflexivity|]);
    cbn [id blobId text html error dataUrl name Hub.mime kind size];
    rewrite (orStr_truthy_id _ Hmime), (orStr_truthy_id _ Hname);
    repeat split; try done.
  all: try (intros H; by rewrite Hfname).
  all: unfold orNum; match goal with |- context [Z.eqb ?x 0] =>
         destruct (Z.eqb_spec x 0) as [E|] end; [|done].
  all: f_equal; symmetry; exact E.
Qed.

Lemma addBlob_item (env : Env) (blob : File) (fname : jsstring)
    (kindHint : Kind) (w : World) :
  let w' := exec (addBlob env blob fname kindHint) w in
  exists it,
    heap w' = heap w ++ [it]
    /\ items w' = length (heap w) :: items w
    /\ blobItemShape kindHint it
    /\ is_Some (blobCache w' !! id it)
    /\ (truthy fname = true -> name it = Some fname).
Proof.
  cbv zeta. unfold addBlob. rewrite exec_bind.
  destruct (addBlob_begin_spec env blob fname kindHint w)
    as (i & f & it & w1 & E & Hh & Hi & _).
  destruct (addBlob_begin_fields env blob fname kindHint w)
    as (i' & f' & it' & w1' & E' & Hh' & Hid & Hb & Ht & Hhtml & He & Hd & Hn & Hm
        & Hk & Hs & Hfn & Hc & _).
  rewrite E in E'. injection E' as <- <- <-. rewrite E. cbn [fst snd].
  rewrite Hh in Hh'. apply app_inv_head in Hh'. injection Hh' as <-.
  destruct (addBlob_finish_cases env (length (heap w)) i f w1)
    as (Hi' & _ & Hc' & Hcases).
  rewrite Hi', Hi, Hc', Hc.
  destruct Hcases as [[-> _]|[[-> _]|[-> _]]]; rewrite Hh, !alter_last;
    eexists; (split; [reflexivity|]); (split; [done|]);
    (split; [|split; [cbn; rewrite Hid; by rewrite lookup_insert_eq|exact Hfn]]);
    unfold blobItemShape; cbn; rewrite Hb, Ht, Hhtml, Hid;
    repeat split; try done; try (by left); by right.
Qed.

(** X18: the item [addBlob] leaves behind.  It is one new item at the
    head of the list, and the other items are as before; its blob id is
    its id; it has a name and a MIME type that are not empty (a file
    without them is named "file", or "image.<subtype>", and typed
    "application/octet-stream"); it is an image exactly when its MIME
    type starts with "image/", whatever the hint; it is no longer
    pending; and it carries an error only in the form "persist_failed".
    Its file is in the blob cache, and a name given by the caller is
    kept. *)
Theorem addBlob_item_shape (env : Env) (blob : File) (fname : jsstring)
    (kindHint : Kind) (w : World) :
  wellFormed w ->
  let w' := exec (addBlob env blob fname kindHint) w in
  exists it,
    itemsOf w' = it :: itemsOf w
    /\ wellFormed w'
    /\ blobItemShape kindHint it
    /\ is_Some (blobCache w' !! id it)
    /\ (truthy fname = true -> name it = Some fname).
Proof.
  intros Hwf. cbv zeta.
  destruct (addBlob_item env blob fname kindHint w) as (it & Hh & Hi & Hrest).
  exists it. split; [|split; [|exact Hrest]].
  - apply (itemsOf_grow w _ [it]); [done|done|]. by rewrite Hi.
  - unfold wellFormed. rewrite Hi, Hh, length_app. simpl. constructor; [lia|].
    eapply Forall_impl; [exact Hwf|]. simpl. intros r Hr. lia.
Qed.

(** *** The items of a batch *)

Lemma trimStart_idem (s : jsstring) : trimStart (trimStart s) = trimStart s.
Proof.
  induction s as [|c s IH]; [done|]. simpl.
  destruct (isWhiteSpace c) eqn:E; [done|]. simpl. by rewrite E.
Qed.

Lemma trimEnd_idem (s : jsstring) : trimEnd (trimEnd s) = trimEnd s.
Proof. unfold trimEnd. by rewrite rev_involutive, trimStart_idem. Qed.

Lemma addText_item env text html w :
  truthy (trimEnd (orStr text [])) || truthy (trimEnd (orStr html [])) = true ->
  textItemShape (textItem env (trimEnd (orStr text [])) (trimEnd (orStr html [])) w).
Proof.
  intros H. unfold textItemShape, textItem. cbn.
  repeat split; try done.
  - eexists. split; [done|apply trimEnd_idem].
  - eexists. split; [done|apply trimEnd_idem].
  - by destruct (trimEnd (orStr text [])), (trimEnd (orStr html [])).
Qed.

Lemma processCandidates_items (env : Env) (cs : list Candidate) (a : Z)
    (w : World) :
  let r := processCandidates env cs a w in
  let w' := snd r in
  exists processed rest objs,
    cs = processed ++ rest
    /\ heap w' = heap w ++ objs
    /\ items w' = rev (seq (length (heap w)) (length objs)) ++ items w
    /\ Forall2 committedAs (List.filter commits processed) objs
    /\ match fst r with
       | Some _ => rest = []
       | None => exists f, last processed = Some (CFile f)
       end.
Proof.
  revert a w. induction cs as [|c cs IH]; intros a w.
  - exists [], [], []. simpl. rewrite app_nil_r. repeat split; try done.
  - cbv zeta. destruct c as [cplain chtml|f].
    + rewrite processCandidates_text_run.
      set (w1 := exec (addText env (Some (orStr cplain [])) (Some (orStr chtml []))) w).
      match goal with |- context [processCandidates env cs ?a1 w1] =>
        destruct (IH a1 w1) as (processed & rest & objs & Hcs & Hobjs & Hit & Hall & Hres);
        set (r := processCandidates env cs a1 w1) in * end.
      exists (CText cplain chtml :: processed), rest.
      cbn [List.filter].
      destruct (commits (CText cplain chtml)) eqn:E; cbn [commits] in E.
      * destruct (addText_commit env (Some (orStr cplain [])) (Some (orStr chtml [])) w)
          as (Hh & Hi & _); [by rewrite !orStr_idem|].
        fold w1 in Hh, Hi. rewrite !orStr_idem in Hh.
        eexists (_ :: objs). rewrite Hobjs, Hit, Hh, Hi, length_app, <- app_assoc.
        split; [by rewrite Hcs|]. split; [reflexivity|]. split.
        { simpl. rewrite Nat.add_1_r, <- app_assoc. done. }
        split.
        { constructor; [|done]. split; [by apply addText_item|done]. }
        destruct (fst r); [done|]. destruct Hres as [f Hf]. exists f.
        by apply last_cons_Some.
      * apply orb_false_elim in E as [E1 E2]. apply truthy_nil in E1, E2.
        assert (w1 = w) as Hw.
        { unfold w1, exec. rewrite addText_blank; rewrite ?orStr_idem; done. }
        clearbody w1. subst w1. exists objs.
        split; [by rewrite Hcs|]. split; [done|]. split; [done|]. split; [done|].
        destruct (fst r); [done|]. destruct Hres as [f Hf]. exists f.
        by apply last_cons_Some.
    + rewrite processCandidates_file_run.
      set (w1 := exec (addBlob env f (orStr (file_name f) []) KFile) w).
      destruct (addBlob_item env f (orStr (file_name f) []) KFile w)
        as (it & Hh & Hi & Hshape & _ & Hname).
      fold w1 in Hh, Hi.
      assert (committedAs (CFile f) it) as Hrel.
      { split; [done|]. intros Hn. rewrite (Hname Hn).
        destruct (file_name f) as [[|x n]|]; done. }
      destruct (fst (addBlob env f (orStr (file_name f) []) KFile w)).
      * destruct (IH (a + 1) w1)
          as (processed & rest & objs & Hcs & Hobjs & Hit & Hall & Hres).
        set (r := processCandidates env cs (a + 1) w1) in *.
        exists (CFile f :: processed), rest, (it :: objs).
        cbn [List.filter commits].
        rewrite Hobjs, Hit, Hh, Hi, length_app, <- app_assoc.
        split; [by rewrite Hcs|]. split; [reflexivity|]. split.
        { simpl. rewrite Nat.add_1_r, <- app_assoc. done. }
        split; [by constructor|].
        destruct (fst r); [done|]. destruct Hres as [g Hg]. exists g.
        by apply last_cons_Some.
      * exists [CFile f], cs, [it]. cbn [List.filter commits fst snd].
        split; [done|]. split; [done|]. split; [by rewrite Hi|].
        split; [constructor; [done|constructor]|]. by exists f.
Qed.

(** X19: when the commit loop of a batch has run, the list is the
    list of before with the new items in front, the last one first:
    one item for each candidate that was handled and commits, in the
    order of the candidates; a text candidate gives a text item with
    its two strings trimmed at the end, one of them non-empty, a file
    gives a file item that is no longer pending and keeps the name of
    the file.  The loop handles every candidate when it returns, as it
    does when no fallback read of a file fails; when it does not, the
    last candidate handled is the file whose write and fallback read
    both failed, and the candidates after it are never handled. *)
Theorem commit_loop_settles (env : Env) (cs : list Candidate) (w : World) :
  wellFormed w ->
  let r := processCandidates env cs 0 w in
  let w' := snd r in
  exists processed rest objs,
    cs = processed ++ rest
    /\ itemsOf w' = rev objs ++ itemsOf w
    /\ wellFormed w'
    /\ Forall2 committedAs (List.filter commits processed) objs
    /\ match fst r with
       | Some _ => rest = []
       | None => exists f, last processed = Some (CFile f)
       end
    /\ ((forall n, data_url_read env n <> ReadFails) ->
        fst r = Some (Z.of_nat (length (List.filter counted cs)))).
Proof.
  intros Hwf. cbv zeta.
  destruct (processCandidates_items env cs 0 w)
    as (processed & rest & objs & Hcs & Hh & Hi & Hrel & Hres).
  exists processed, rest, objs.
  split; [done|]. split; [|split; [|split; [done|split; [done|]]]];
    [| |intros Hread; by rewrite processCandidates_returns].
  - by apply (itemsOf_grow w _ objs).
  - unfold wellFormed. rewrite Hi, Hh, length_app. apply Forall_app. split.
    + apply Forall_forall. intros r Hr.
      apply list_elem_of_In, in_rev, in_seq in Hr. lia.
    + eapply Forall_impl; [exact Hwf|]. simpl. intros r Hr. lia.
Qed.

(** *** Dropping files *)

Lemma Forall2_files (fs : list File) (objs : list Item) :
  Forall2 committedAs (map CFile fs) objs ->
  length objs = length fs /\ Forall (blobItemShape KFile) objs.
Proof.
  revert objs. induction fs as [|f fs IH]; intros objs H.
  - inversion H. by split.
  - inversion H as [|c it cs' objs' Hh Ht]; subst.
    cbn [committedAs] in Hh. destruct Hh as [Hh _].
    destruct (IH _ Ht) as [Hl Hf]. split; [simpl; by rewrite Hl|by constructor].
Qed.

Lemma filter_commits_files (fs : list File) :
  List.filter commits (map CFile fs) = map CFile fs.
Proof. induction fs as [|f fs IH]; [done|]. simpl. by rewrite IH. Qed.

Lemma filter_counted_files (fs : list File) :
  List.filter counted (map CFile fs) = map CFile fs.
Proof. induction fs as [|f fs IH]; [done|]. simpl. by rewrite IH. Qed.


(** *** Loading *)

(** X21: [load] sends nothing to the worker but [blob.get]: it leaves
    the Blob Store and the v5 record as they are, and it writes the v6
    record and shows a toast only when it migrates, that is when the v6
    list is empty or missing and the v5 record has an entry. *)
Theorem load_writes_only_when_migrating (env : Env) (w : World) :
  let w' := exec (load env) w in
  idb w' = idb w
  /\ clip_hub_v5_data (storage w') = clip_hub_v5_data (storage w)
  /\ lastIngest w' = lastIngest w
  /\ (storage w' = storage w /\ toasts w' = toasts w
      \/ nullish (clip_hub_v6_state (storage w)) [] = []
         /\ exists e old, clip_hub_v5_data (storage w) = Some (e :: old)).
Proof.
  unfold load, exec. cbv zeta. run_steps. rewrite allocAll_run. run_steps.
  assert (forall w1 : World,
             storage w1 = storage w -> idb w1 = idb w -> lastIngest w1 = lastIngest w ->
             toasts w1 = toasts w ->
             let w' := snd (restoreBlobs env (items w1) w1) in
             idb w' = idb w
             /\ clip_hub_v5_data (storage w') = clip_hub_v5_data (storage w)
             /\ lastIngest w' = lastIngest w
             /\ (storage w' = storage w /\ toasts w' = toasts w
                 \/ nullish (clip_hub_v6_state (storage w)) [] = []
                    /\ exists e old, clip_hub_v5_data (storage w) = Some (e :: old)))
    as Hrest.
  { intros w1 Hs1 Hd1 Hl1 Ht1. cbv zeta.
    destruct (restoreBlobs_spec env (items w1) w1) as (_ & Hs & Hd & Hl & _).
    pose proof (restoreBlobs_toasts env (items w1) w1) as Ht.
    unfold exec in *. rewrite Hs, Hd, Hl, Ht, Hs1, Hd1, Hl1, Ht1.
    repeat split; try done. by left. }
  destruct (nullish (clip_hub_v6_state (storage w)) []) as [|it stored] eqn:Hst.
  - cbn [seq length].
    destruct (clip_hub_v5_data (storage w)) as [[|e old]|] eqn:Hold; run_steps;
      try (by apply Hrest).
    set (mig := migrate env (e :: old) _).
    destruct (migrate_frame env (e :: old)
                (set_items [] (set_heap (heap w ++ []) w)))
      as (_ & _ & Hs0 & Hd0 & _).
    pose proof (migrate_lastIngest env (e :: old)
                  (set_items [] (set_heap (heap w ++ []) w))) as Hl0.
    fold mig in Hs0, Hd0, Hl0. cbv zeta in Hs0, Hd0.
    rewrite allocAll_run. run_steps.
    match goal with |- context [persistMetadata env ?x] =>
      set (w2 := x); destruct (persistMetadata_frame env w2) as (_ & _ & _ & Hl2 & Hd2 & _);
      pose proof (persistMetadata_legacy env w2) as Hleg end.
    unfold exec in *. cbn [toast modify fst snd].
    match goal with |- context [restoreBlobs env ?l ?x] =>
      destruct (restoreBlobs_spec env l x) as (_ & Hs & Hd & Hl & _) end.
    unfold exec in *. rewrite Hs, Hd, Hl.
    cbn [storage idb lastIngest set_toasts]. rewrite Hleg, Hd2, Hl2.
    subst w2. cbn [storage idb lastIngest set_items set_heap].
    rewrite Hs0, Hd0, Hl0. cbn [storage idb lastIngest set_items set_heap].
    repeat split; try done. right. eauto.
  - cbn [seq length]. run_steps. by apply Hrest.
Qed.


(** *** The v5 migration *)

Lemma migrate_kinds (env : Env) (old : list (option LegacyItem)) (w : World) :
  map kind (fst (migrate env old w)) = omap legacyKind old
  /\ Forall (fun it => blobId it = None /\ strip it = it) (fst (migrate env old w)).
Proof.
  revert w. induction old as [|e old IH]; intros w; [by split|].
  destruct e as [it|]; [|apply IH].
  change (omap legacyKind (Some it :: old))
    with (match legacyKind (Some it) with
          | Some y => y :: omap legacyKind old
          | None => omap legacyKind old
          end).
  cbn [migrate legacyKind].
  destruct (bool_decide (l_kind it = Some (str "text"))).
  - unfold uid, dateNow. run_steps.
    match goal with |- context [migrate env old ?x] =>
      destruct (IH x) as (H1 & H2) end.
    cbn [map kind]. rewrite H1. split; [done|]. by constructor.
  - destruct (bool_decide (l_kind it = Some (str "image"))); [|apply IH].
    unfold uid, dateNow. run_steps.
    match goal with |- context [migrate env old ?x] =>
      destruct (IH x) as (H1 & H2) end.
    cbn [map kind]. rewrite H1. split; [done|]. by constructor.
Qed.

Lemma Forall2_filled_no_blob (a b : list Item) :
  Forall (fun it => blobId it = None /\ strip it = it) a ->
  Forall2 filled a b -> b = a.
Proof.
  intros Ha H. induction H as [|x y a b Hxy _ IH]; [done|].
  inversion Ha as [|? ? [Hb _] Ha']; subst. rewrite IH by done. f_equal.
  destruct Hxy as (_ & _ & _ & _ & _ & _ & _ & _ & _ & _ & _ & _ & _ & H).
  apply H. by rewrite Hb.
Qed.

(** X22: a load that migrates.  When the v6 list is empty or missing and
    the v5 record has entries, the list of the session is made of the
    text and image entries of the v5 record, in their order; the other
    entries are dropped; no migrated item refers to a blob; the gesture
    ends with the toast "Migrated v5 items"; and when the metadata write
    is accepted the v6 record holds exactly this list. *)
Theorem load_migrates_v5 (env : Env) (w : World) (e : option LegacyItem)
    (old : list (option LegacyItem)) :
  nullish (clip_hub_v6_state (storage w)) [] = [] ->
  clip_hub_v5_data (storage w) = Some (e :: old) ->
  let w' := exec (load env) w in
  map kind (itemsOf w') = omap legacyKind (e :: old)
  /\ Forall (fun it => blobId it = None) (itemsOf w')
  /\ last (toasts w') = Some (str "Migrated v5 items")
  /\ ((forall n, storage_set_rejects env n = false) ->
      clip_hub_v6_state (storage w') = Some (itemsOf w')).
Proof.
  intros Hst Hold. cbv zeta.
  assert (exists mig,
             Forall2 filled mig (itemsOf (exec (load env) w))
             /\ map kind mig = omap legacyKind (e :: old)
             /\ Forall (fun it => blobId it = None /\ strip it = it) mig
             /\ last (toasts (exec (load env) w)) = Some (str "Migrated v5 items")
             /\ ((forall n, storage_set_rejects env n = false) ->
                 clip_hub_v6_state (storage (exec (load env) w))
                 = Some (map strip mig))) as (mig & Hf & Hk & Hnb & Ht & Hs).
  { unfold load, exec. cbv zeta. run_steps.
    rewrite Hst, Hold. cbn [allocAll]. run_steps.
    set (mig := migrate env (e :: old) (set_items [] w)).
    exists (fst mig).
    destruct (migrate_kinds env (e :: old) (set_items [] w)) as (Hk & Hnb).
    fold mig in Hk, Hnb.
    rewrite allocAll_run. run_steps.
    match goal with |- context [persistMetadata env ?x] =>
      set (w2 := x); destruct (persistMetadata_frame env w2) as (Hh2 & Hi2 & _);
      pose proof (persistMetadata_storage env w2) as Hsto end.
    unfold exec in *. cbn [toast modify fst snd].
    match goal with |- context [restoreBlobs env ?l ?x] =>
      destruct (restoreBlobs_spec env l x) as (Hi & Hs & _ & _ & Hf);
      pose proof (restoreBlobs_toasts env l x) as Ht end.
    unfold exec in *. unfold itemsOf. rewrite Hi, Hs, Ht.
    cbn [items heap storage toasts set_toasts] in *. rewrite Hi2.
    rewrite Hh2 in Hf.
    assert (omap (fun r => heap w2 !! r) (items w2) = fst mig) as Hitems.
    { subst w2. cbn [items heap set_items set_heap]. apply omap_lookup_fresh. }
    subst w2. cbn [items heap set_items set_heap] in *.
    rewrite Hi2 in Hf. split; [|split; [done|split; [done|split]]].
    - rewrite <- (omap_lookup_fresh (heap mig.2) mig.1) at 1.
      by apply omap_lookup_Forall2.
    - by rewrite last_snoc.
    - intros Hok. rewrite Hsto by apply Hok. cbn [clip_hub_v6_state].
      unfold itemsOf. cbn [items heap set_items set_heap]. by rewrite Hitems. }
  apply Forall2_filled_no_blob in Hf; [|done]. rewrite Hf.
  split; [done|]. split; [eapply Forall_impl; [exact Hnb|by intros it [H _]]|].
  split; [done|]. intros Hok. rewrite (Hs Hok). f_equal.
  clear -Hnb. induction Hnb as [|it l [_ H] _ IH]; [done|].
  simpl. by rewrite H, IH.
Qed.

(** *** Restoring the blobs *)

Lemma get_hit (wenv : Worker.Env) (i : jsstring) (r : Worker.BlobRecord)
    (b : gmap jsstring Worker.BlobRecord) :
  Worker.idb_fault wenv = None -> b !! i = Some r ->
  Worker.responses wenv (Worker.MsgObject (Some (str "blob.get")) (Some (getPayload i))) b
  = [Worker.RespBlob i (Worker.rec_blob_bytes r)
       (orStr (Worker.rec_mime r)
          (orStr (Some (Worker.rec_blob_type r)) (str "application/octet-stream")))
       (orStr (Worker.rec_name r) [])
       (nullish (Worker.rec_size r) (Z.of_nat (length (Worker.rec_blob_bytes r))))
       (nullish (Worker.rec_lastModified r) 0)].
Proof.
  intros Hf Hr. unfold Worker.responses, Worker.listener, Worker.tryCatch.
  rewrite WorkerFacts.dispatch_get.
  unfold Worker.bind, Worker.getBlob, Worker.withStore, Worker.bind.
  rewrite Hf. simpl. by rewrite Hr.
Qed.

Lemma restoreBlobs_cons env r refs w :
  exec (restoreBlobs env (r :: refs)) w
  = exec (restoreBlobs env refs) (exec (restoreBlobs env [r]) w).
Proof.
  cbn [restoreBlobs]. rewrite !exec_bind. cbn [get fst snd]. done.
Qed.

(** One round of the loop, on the blob cache: it is left as it is, or
    the blob of the record of the item is put under the item's blob
    id, which the cache did not hold. *)
Lemma restoreBlobs_one env r w :
  let w1 := exec (restoreBlobs env [r]) w in
  (blobCache w1 = blobCache w
   \/ exists it rec t,
        heap w !! r = Some it /\ blobCache w !! orStr (blobId it) [] = None
        /\ idb w !! orStr (blobId it) [] = Some rec
        /\ blobCache w1
           = <[orStr (blobId it) [] := mkFile t (Worker.rec_blob_bytes rec) None 0]>
               (blobCache w))
  /\ (forall it rec,
        heap w !! r = Some it -> truthy (orStr (blobId it) []) = true ->
        blobCache w !! orStr (blobId it) [] = None ->
        idb w !! orStr (blobId it) [] = Some rec ->
        send_fault env (ticks w) = Delivered ->
        exists t,
          blobCache w1
          = <[orStr (blobId it) [] := mkFile t (Worker.rec_blob_bytes rec) None 0]>
              (blobCache w)).
Proof.
  cbv zeta. cbn [restoreBlobs]. rewrite !exec_bind. cbn [get fst snd].
  replace (exec (ret tt)) with (fun w : World => w) by done.
  destruct (heap w !! r) as [it|] eqn:Hit; [|split; [by left|done]].
  destruct (truthy (orStr (blobId it) [])) eqn:Hb; cbn [negb];
    [|split; [by left|intros it' rec [= <-]; by rewrite Hb]].
  destruct (blobCache w !! orStr (blobId it) []) as [f|] eqn:Hc.
  { rewrite bool_decide_eq_true_2 by done.
    split; [by left|]. intros it' rec [= <-]. by rewrite Hc. }
  rewrite bool_decide_eq_false_2 by (by intros [? ?]).
  rewrite run_bind, runtimeSend_run.
  destruct (send_fault env (ticks w)) eqn:Ef; cbn [fst snd];
    [|split; [by left|done]|].
  - destruct (idb w !! orStr (blobId it) []) as [rec|] eqn:Hrec.
    + rewrite (get_hit _ _ rec) by (done || (unfold workerEnvAt; simpl; by rewrite Ef)).
      cbn [head]. rewrite !run_bind. cbn [modify update fst snd blobCache set_heap
        set_blobCache set_idb set_ticks].
      split.
      * right. exists it, rec. eexists. repeat split; try done.
      * intros it' rec' [= <-] _ _ Hrec' _. rewrite Hrec in Hrec'.
        injection Hrec' as <-. eexists. done.
    + split; [|intros it' rec' [= <-] _ _ H; by rewrite Hrec in H]. left.
      match goal with |- context [head ?l] => destruct (head l) as [resp|] eqn:Er end;
        [|done].
      destruct resp; try done.
      apply WorkerFacts.get_answer in Er as (rec & Hrec' & _).
      by rewrite Hrec in Hrec'.
  - split; [|done]. left.
    match goal with |- context [head ?l] => destruct (head l) as [resp|] eqn:Er end;
      [|done].
    destruct resp; try done. exfalso.
    revert Er. unfold Worker.responses, Worker.listener, Worker.tryCatch.
    rewrite WorkerFacts.dispatch_get.
    unfold Worker.bind, Worker.getBlob, Worker.withStore, Worker.bind, workerEnvAt.
    simpl. rewrite Ef. done.
Qed.

Lemma restoreBlobs_one_frame env r w :
  let w1 := exec (restoreBlobs env [r]) w in
  idb w1 = idb w
  /\ forall r' it, heap w !! r' = Some it ->
       exists it1, heap w1 !! r' = Some it1 /\ blobId it1 = blobId it.
Proof.
  cbv zeta. destruct (restoreBlobs_spec env [r] w) as (_ & _ & Hd & _ & Hf).
  split; [done|]. intros r' it Hit.
  destruct (Forall2_lookup_l _ _ _ _ _ Hf Hit) as (it1 & H1 & Hfill).
  exists it1. split; [done|]. by destruct Hfill as (_ & _ & _ & _ & _ & ? & _).
Qed.

Lemma restoreBlobs_cache env refs w :
  let w' := exec (restoreBlobs env refs) w in
  (forall b f, blobCache w !! b = Some f -> blobCache w' !! b = Some f)
  /\ ((forall n, send_fault env n = Delivered) ->
      forall r it rec,
        In r refs -> heap w !! r = Some it ->
        truthy (orStr (blobId it) []) = true ->
        idb w !! orStr (blobId it) [] = Some rec ->
        exists f, blobCache w' !! orStr (blobId it) [] = Some f
                  /\ (blobCache w !! orStr (blobId it) [] = None ->
                      file_bytes f = Worker.rec_blob_bytes rec)).
Proof.
  revert w. induction refs as [|r0 refs IH]; intros w.
  { split; [done|]. by intros _ r it rec []. }
  cbv zeta. rewrite restoreBlobs_cons.
  set (w1 := exec (restoreBlobs env [r0]) w).
  destruct (IH w1) as (Hkeep & Hget).
  destruct (restoreBlobs_one env r0 w) as (Hone & Hhit).
  destruct (restoreBlobs_one_frame env r0 w) as (Hd1 & Hh1).
  fold w1 in Hone, Hhit, Hd1, Hh1.
  assert (forall b f, blobCache w !! b = Some f -> blobCache w1 !! b = Some f)
    as Hkeep1.
  { intros b f Hbf. destruct Hone as [->|(it & rec & t & _ & Hnone & _ & ->)]; [done|].
    rewrite lookup_insert_ne; [done|]. intros E. rewrite E in Hnone.
    by rewrite Hnone in Hbf. }
  split; [intros b f Hbf; by apply Hkeep, Hkeep1|].
  intros Hdel r it rec Hin Hit Hb Hrec.
  destruct (blobCache w !! orStr (blobId it) []) as [f|] eqn:Hc.
  { exists f. split; [by apply Hkeep, Hkeep1|done]. }
  destruct Hin as [<-|Hin].
  - destruct (Hhit it rec Hit Hb Hc Hrec (Hdel _)) as [t Ht].
    eexists. split; [apply Hkeep; rewrite Ht; apply lookup_insert_eq|done].
  - destruct (Hh1 r it Hit) as (it1 & Hit1 & Hbid).
    destruct (Hget Hdel r it1 rec Hin Hit1) as (f & Hf & Hbytes);
      rewrite ?Hbid, ?Hd1; try done.
    rewrite Hbid in Hf, Hbytes. exists f. split; [done|]. intros _.
    destruct Hone as [E|(it0 & rec0 & t & _ & _ & Hrec0 & E)].
    + apply Hbytes. by rewrite E.
    + destruct (decide (orStr (blobId it0) [] = orStr (blobId it) [])) as [Eb|Nb].
      * rewrite Eb in E, Hrec0. rewrite Hrec in Hrec0. injection Hrec0 as <-.
        assert (blobCache w1 !! orStr (blobId it) [] = Some (mkFile t (Worker.rec_blob_bytes rec) None 0)) as H1
          by (rewrite E; apply lookup_insert_eq).
        apply Hkeep in H1. rewrite Hf in H1. by injection H1 as ->.
      * apply Hbytes. rewrite E. rewrite lookup_insert_ne by done. done.
Qed.

Lemma load_restores_cache (env : Env) (w : World) (stored : list Item)
    (it : Item) (rec : Worker.BlobRecord) :
  (forall n, send_fault env n = Delivered) ->
  clip_hub_v6_state (storage w) = Some stored ->
  blobCache w = ∅ ->
  In it stored ->
  truthy (orStr (blobId it) []) = true ->
  idb w !! orStr (blobId it) [] = Some rec ->
  exists f,
    blobCache (exec (load env) w) !! orStr (blobId it) [] = Some f
    /\ file_bytes f = Worker.rec_blob_bytes rec.
Proof.
  intros Hdel Hst Hempty Hin Hb Hrec.
  apply list_elem_of_In, list_elem_of_lookup in Hin as [k Hk].
  unfold load, exec. cbv zeta. run_steps.
  rewrite Hst. cbn [nullish]. rewrite allocAll_run. run_steps.
  assert (exists x rest, seq (length (heap w)) (length stored) = x :: rest)
    as (x & rest & Hseq).
  { destruct stored; [done|]. simpl. eauto. }
  rewrite Hseq. run_steps. rewrite <- Hseq.
  match goal with |- context [restoreBlobs env ?l ?x] =>
    destruct (restoreBlobs_cache env l x) as (_ & Hget) end.
  cbn [items heap idb blobCache set_items set_heap] in Hget.
  destruct (Hget Hdel (length (heap w) + k)%nat it rec) as (f & Hf & Hbytes);
    try done.
  - apply in_seq. apply lookup_lt_Some in Hk. lia.
  - rewrite lookup_app_r by lia. by replace (length (heap w) + k - length (heap w))%nat
      with k by lia.
  - exists f. split; [done|]. apply Hbytes. by rewrite Hempty.
Qed.

(** X23: the blobs come back after a restart.  When a session loads a
    stored list and the worker answers, the blob cache holds, for
    every item of the list whose blob id has a record in the Blob
    Store, a blob with the bytes of that record. *)
Theorem load_restores_blobs (env : Env) (w : World) (stored : list Item) :
  (forall n, send_fault env n = Delivered) ->
  clip_hub_v6_state (storage w) = Some stored ->
  stored <> [] ->
  blobCache w = ∅ ->
  let w' := exec (load env) w in
  Forall (fun it =>
            truthy (orStr (blobId it) []) = true ->
            forall rec, idb w !! orStr (blobId it) [] = Some rec ->
              exists f, blobCache w' !! orStr (blobId it) [] = Some f
                        /\ file_bytes f = Worker.rec_blob_bytes rec)
         (itemsOf w').
Proof.
  intros Hdel Hst Hne Hempty. cbv zeta.
  destruct (load_stored env w stored Hst (or_introl Hne)) as (Hf & _).
  apply Forall_forall. intros it2 Hin Hb rec Hrec.
  apply list_elem_of_lookup in Hin as [k Hk].
  destruct (Forall2_lookup_r _ _ _ _ _ Hf Hk) as (it & Hit & Hfill).
  assert (blobId it2 = blobId it) as E
    by (by destruct Hfill as (_ & _ & _ & _ & _ & ? & _)).
  rewrite E in *.
  apply (load_restores_cache env w stored it rec); try done.
  apply list_elem_of_In. by eapply list_elem_of_lookup_2.
Qed.

(** *** A file and the next session *)

Lemma toStringRadix_truthy (radix : N) (z : Z) : truthy (toStringRadix radix z) = true.
Proof.
  unfold toStringRadix. cbv zeta. destruct (z <? 0); [done|].
  pose proof (TextProps.digitsFuel_length (N.to_nat (N.log2 (Z.abs_N z))) radix
                (Z.abs_N z) []) as H.
  destruct (digitsFuel _ _ _ _); [simpl in H; lia|done].
Qed.

Lemma persistBlob_ok env i f w :
  array_buffer_rejects env (ticks w) = false ->
  send_fault env (S (ticks w)) = Delivered ->
  fst (persistBlobToBackground env i f w) = true.
Proof.
  intros Ha Hs. unfold persistBlobToBackground. cbv zeta. rewrite run_bind. simpl.
  rewrite Ha. rewrite run_bind, runtimeSend_run. simpl. rewrite Hs. simpl.
  set (p := Worker.mkPayload _ _ _ _ _ _).
  destruct (WorkerFacts.put_handled (workerEnvAt env (S (ticks w))) p i (idb w))
    as [Hr _]; [unfold workerEnvAt; simpl; by rewrite Hs|done|].
  by rewrite Hr.
Qed.

(** [addBlob] when nothing fails: the blob is stored under the id of
    the item, and the metadata record is the list. *)
Lemma addBlob_durable env blob fname kindHint w :
  (forall n, array_buffer_rejects env n = false) ->
  (forall n, send_fault env n = Delivered) ->
  (forall n, storage_set_rejects env n = false) ->
  let w' := exec (addBlob env blob fname kindHint) w in
  exists it rec,
    heap w' = heap w ++ [it]
    /\ items w' = length (heap w) :: items w
    /\ blobId it = Some (id it) /\ truthy (id it) = true
    /\ pending it = Some false /\ error it = None
    /\ idb w' !! id it = Some rec
    /\ Worker.rec_blob_bytes rec
       = file_bytes (if isImageType (file_type blob) then maybeCompressImage env blob
                     else blob)
    /\ clip_hub_v6_state (storage w') = Some (map strip (itemsOf w')).
Proof.
  intros Ha Hs Hq. cbv zeta. unfold addBlob. rewrite exec_bind.
  destruct (addBlob_begin_fields env blob fname kindHint w)
    as (i & f & it & w1 & E & Hh & Hid & Hb & _ & _ & He & _ & _ & _
        & _ & _ & _ & _ & Hbytes & Hi).
  destruct (addBlob_begin_spec env blob fname kindHint w)
    as (i' & f' & it' & w1' & E' & _ & Hit & _).
  rewrite E in E'. injection E' as <- <- <-. rewrite E. cbn [fst snd].
  unfold addBlob_finish. rewrite exec_bind.
  destruct (persistBlob_spec env i f w1) as (Hh1 & Hi1 & _ & _ & _ & _ & Hok).
  rewrite persistBlob_ok in * by done.
  destruct Hok as (rec & Hrec & Hrb).
  rewrite exec_bind, update_run. cbn [fst snd]. rewrite exec_bind.
  change (exec (ret (Some tt))) with (fun x : World => x). cbv beta.
  match goal with |- context [persistMetadata env ?x] =>
    destruct (persistMetadata_frame env x) as (Hh' & Hi' & _ & _ & Hd' & _);
    pose proof (persistMetadata_storage env x (Hq _)) as Hsto end.
  unfold exec in *.
  cbn [heap items idb set_heap] in Hh', Hi', Hd'.
  rewrite Hh', Hi', Hd', Hsto, Hh1, Hi1, Hh, Hit, alter_last.
  exists (set_pending false it), rec. cbn [id blobId pending error set_pending].
  rewrite Hid, Hb, He, Hrb, Hbytes. repeat split; try done.
  - rewrite Hi. destruct (toStringRadix 36 _) eqn:E0; [|done].
    pose proof (toStringRadix_truthy 36 (date_now env (ticks w))) as H.
    by rewrite E0 in H.
  - cbn [clip_hub_v6_state]. f_equal. f_equal. unfold itemsOf.
    match goal with |- context [persistMetadata env ?x] =>
      destruct (persistMetadata_frame env x) as (Hh2 & Hi2 & _) end.
    unfold exec in *. by rewrite Hh2, Hi2.
Qed.

(** X24: a file outlives the session.  When nothing fails, a file
    added in one session is in the list of the next session, under the
    same id, and the blob cache of that session holds its bytes (those
    of the re-encoded image, when the transcoder re-encoded it). *)
Theorem file_survives_restart (env env2 : Env) (blob : File) (fname : jsstring)
    (kindHint : Kind) (w : World) :
  (forall n, array_buffer_rejects env n = false) ->
  (forall n, send_fault env n = Delivered) ->
  (forall n, storage_set_rejects env n = false) ->
  (forall n, send_fault env2 n = Delivered) ->
  let w' := exec (addBlob env blob fname kindHint) w in
  let w2 := exec (load env2) (freshSession (storage w') (idb w')) in
  exists it it2 f,
    head (itemsOf w') = Some it
    /\ head (itemsOf w2) = Some it2
    /\ id it2 = id it /\ kind it2 = kind it /\ name it2 = name it
    /\ blobCache w2 !! id it = Some f
    /\ file_bytes f
       = file_bytes (if isImageType (file_type blob) then maybeCompressImage env blob
                     else blob).
Proof.
  intros Ha Hs Hq Hs2. cbv zeta.
  destruct (addBlob_durable env blob fname kindHint w Ha Hs Hq)
    as (it & rec & Hh & Hi & Hb & Hid & _ & _ & Hrec & Hbytes & Hsto).
  set (w' := exec (addBlob env blob fname kindHint) w) in *.
  assert (exists rest, itemsOf w' = it :: rest) as [rest Hits].
  { unfold itemsOf. rewrite Hi, Hh. simpl.
    rewrite lookup_app_r by lia. rewrite Nat.sub_diag. simpl. eauto. }
  rewrite Hits in Hsto. cbn [map] in Hsto.
  set (w0 := freshSession (storage w') (idb w')).
  assert (strip it :: map strip rest <> []) as Hne by done.
  destruct (load_stored env2 w0 (strip it :: map strip rest) Hsto (or_introl Hne))
    as (Hf & _).
  inversion Hf as [|x it2 l rest2 Hfill Hrest Hx Hy]; subst x l.
  destruct (load_restores_cache env2 w0 (strip it :: map strip rest) (strip it) rec)
    as (f & Hf1 & Hf2); try done.
  { by left. }
  { cbn [blobId strip]. rewrite Hb. by destruct (id it). }
  { cbn [blobId strip]. rewrite Hb.
    replace (orStr (Some (id it)) []) with (id it) by (by destruct (id it)). done. }
  cbn [blobId strip] in Hf1. rewrite Hb in Hf1.
  replace (orStr (Some (id it)) []) with (id it) in Hf1 by (by destruct (id it)).
  exists it, it2, f. rewrite Hits. cbn [head].
  destruct Hfill as (H1 & H2 & _ & _ & _ & _ & H7 & _).
  repeat split; try done. by rewrite Hf2.
Qed.

(** *** Smart Paste *)

Lemma image_is_no_text (t : jsstring) :
  startsWith (str "image/") t = true -> startsWith (str "text/") t = false.
Proof.
  intros H. destruct t as [|c t]; [done|].
  change (startsWith (str "image/") (c :: t))
    with ((105 =? c)%N && startsWith (str "mage/") t) in H.
  change (startsWith (str "text/") (c :: t))
    with ((116 =? c)%N && startsWith (str "ext/") t).
  apply andb_true_iff in H as [H _]. apply N.eqb_eq in H. by subst c.
Qed.

Lemma filter_forallb {A} (f : A -> bool) (l : list A) :
  forallb f (List.filter f l) = true.
Proof.
  induction l as [|x l IH]; [done|]. simpl.
  destruct (f x) eqn:E; [|done]. simpl. by rewrite E.
Qed.

Lemma smartFiles_shape (env : Env) (c : ClipItem) (types : list jsstring) (w : World) :
  (forall t, In t types -> In t (nullish (clip_types c) [])) ->
  Forall (smartFileShape c) (fst (smartFiles env c types w))
  /\ (length (fst (smartFiles env c types w)) <= length types)%nat.
Proof.
  revert w. induction types as [|t types IH]; intros w Hin; [by split|].
  assert (forall t', In t' types -> In t' (nullish (clip_types c) [])) as Hin'
    by (intros t' H; apply Hin; by right).
  assert (In t (nullish (clip_types c) [])) as Ht by (apply Hin; by left).
  assert (forall w',
             Forall (smartFileShape c) (fst (smartFiles env c types w'))
             /\ (length (fst (smartFiles env c types w')) <= length (t :: types))%nat)
    as Hskip.
  { intros w'. destruct (IH w' Hin') as [H1 H2]. split; [done|]. simpl. lia. }
  cbn [smartFiles].
  destruct (startsWith (str "image/") t) eqn:Eimg.
  - destruct (clip_getType c t) as [blob|] eqn:Eget; [|apply Hskip].
    unfold dateNow. run_steps.
    match goal with |- context [smartFiles env c types ?x] =>
      destruct (IH x Hin') as [H1 H2] end.
    split; [|simpl; lia]. constructor; [|done].
    cbn [smartFileShape file_type file_bytes file_name].
    split; [done|]. split; [by apply image_is_no_text|].
    split; [eauto|]. eexists. unfold isImageType. rewrite Eimg.
    split; [|split; [reflexivity|done]].
    apply orStr_default_truthy. done.
  - destruct (bool_decide (t = str "text/plain") || bool_decide (t = str "text/html"));
      [apply Hskip|].
    destruct (startsWith (str "text/") t) eqn:Etxt; cbn [negb]; [apply Hskip|].
    destruct (clip_getType c t) as [blob|] eqn:Eget; [|apply Hskip].
    unfold dateNow. run_steps.
    match goal with |- context [smartFiles env c types ?x] =>
      destruct (IH x Hin') as [H1 H2] end.
    split; [|simpl; lia]. constructor; [|done].
    cbn [smartFileShape file_type file_bytes file_name].
    split; [done|]. split; [done|].
    split; [eauto|]. eexists. unfold isImageType. rewrite Eimg.
    split; [|split; [reflexivity|]].
    + apply orStr_default_truthy. done.
    + intros _. set (e := List.filter isAlnum _).
      pose proof (filter_forallb isAlnum
                    (orStr (splitOn 47 t !! 1%nat) (str "bin"))) as He.
      fold e in He. destruct e as [|x e]; [done|]. exact He.
Qed.

(** X25: the candidates of Smart Paste.  A clipboard item gives at most
    one text candidate, and never an empty one; every file candidate
    comes from a type of some clipboard item that is no text type (so
    "text/rtf" and the like are passed over), carries the bytes of the
    blob of that type, and is named "clipboard-image.<ext>" for an image
    type and "clipboard.<ext>" otherwise, with an extension that is not
    empty and, for the latter, made of letters and digits only; a type
    whose blob cannot be read is passed over.  When the clipboard cannot
    be read at all, the click ends with a toast and changes nothing
    else. *)
Theorem smart_paste_candidates (env : Env) (clipItems : list ClipItem) (w : World) :
  let cs := fst (smartLoop env clipItems w) in
  Forall (fun c => counted c = true) cs
  /\ (length (textsOf cs) <= length clipItems)%nat
  /\ Forall (fun cand => match cand with
                         | CText _ _ => True
                         | CFile _ => exists c, In c clipItems /\ smartFileShape c cand
                         end) cs
  /\ exists msg, btnSmart env None w = (Some tt, set_toasts (toasts w ++ [msg]) w).
Proof.
  cbv zeta.
  assert (forall w' : World,
             Forall (fun c => counted c = true) (fst (smartLoop env clipItems w'))
             /\ (length (textsOf (fst (smartLoop env clipItems w')))
                 <= length clipItems)%nat
             /\ Forall (fun cand =>
                          match cand with
                          | CText _ _ => True
                          | CFile _ =>
                              exists c, In c clipItems /\ smartFileShape c cand
                          end) (fst (smartLoop env clipItems w'))) as Hloop.
  {
    induction clipItems as [|c rest IH]; intros w'.
    { split; [constructor|]. split; [done|constructor]. }
    cbn [smartLoop]. run_steps.
    destruct (smartFiles_shape env c (nullish (clip_types c) []) w' (fun t H => H))
      as [Hfiles _].
    set (files := fst (smartFiles env c (nullish (clip_types c) []) w')) in *.
    match goal with |- context [smartLoop env rest ?x] =>
      destruct (IH x) as (H1 & H2 & H3); set (tl := fst (smartLoop env rest x)) in * end.
    assert (textsOf files = []) as Hnotext.
    { clear -Hfiles. induction Hfiles as [|cand l Hc _ IHl]; [done|].
      destruct cand; [done|]. exact IHl. }
    set (plain := clipText c _ (str "text/plain")).
    set (html := clipText c _ (str "text/html")).
    split; [|split].
    - apply Forall_app. split.
      + destruct (truthy plain || truthy html) eqn:E; [|constructor].
        constructor; [|constructor]. cbn [counted]. by rewrite !orStr_Some_nil.
      + apply Forall_app. split; [|done].
        eapply Forall_impl; [exact Hfiles|]. by intros [] H.
    - unfold textsOf in *. rewrite !omap_app, Hnotext.
      destruct (truthy plain || truthy html); simpl; rewrite ?length_app; simpl; lia.
    - apply Forall_app. split.
      + destruct (truthy plain || truthy html); by repeat constructor.
      + apply Forall_app. split.
        * eapply Forall_impl; [exact Hfiles|]. intros [] H; [done|].
          exists c. split; [by left|done].
        * eapply Forall_impl; [exact H3|]. intros [] H; [done|].
          destruct H as (c' & Hc' & Hs). exists c'. split; [by right|done]. }
  destruct (Hloop w) as (H1 & H2 & H3).
  repeat split; try done. eexists. reflexivity.
Qed.

(** *** Copy All *)

Lemma copyParts_texts (cs : list Candidate) (objs : list Item) :
  Forall2 committedAs cs objs ->
  Forall (fun c => match c with
                   | CText cplain _ => truthy (trimEnd (orStr cplain [])) = true
                   | CFile _ => False
                   end) cs ->
  map copyTextPart objs
  = map (fun c => match c with
                  | CText cplain _ => trimEnd (orStr cplain [])
                  | CFile _ => []
                  end) cs.
Proof.
  induction 1 as [|c it cs objs Hc _ IH]; intros Hall; [done|].
  inversion Hall as [|? ? Hc1 Hall']; subst. simpl. rewrite IH by done. f_equal.
  destruct c as [cplain chtml|f]; [|done].
  destruct Hc as ((Hk & _) & Ht & _). unfold copyTextPart. rewrite Hk, Ht.
  by destruct (trimEnd (orStr cplain [])).
Qed.

(** X26: what is pasted comes back in order.  After a batch of text
    candidates, each with a plain text that is not blank, has been
    committed to an empty list, the plain text that Copy All builds is
    the plain texts of the candidates, trimmed at the end, in the order
    of the batch, with an empty line between them. *)
Theorem copy_all_returns_texts_in_order (env : Env) (cs : list Candidate)
    (w : World) :
  items w = [] ->
  cs <> [] ->
  Forall (fun c => match c with
                   | CText cplain _ => truthy (trimEnd (orStr cplain [])) = true
                   | CFile _ => False
                   end) cs ->
  copyAllText (itemsOf (exec (processCandidates env cs 0) w))
  = Some (joinWith [10; 10]%N
            (map (fun c => match c with
                           | CText cplain _ => trimEnd (orStr cplain [])
                           | CFile _ => []
                           end) cs)).
Proof.
  intros Hempty Hne Hall.
  destruct (processCandidates_items env cs 0 w)
    as (processed & rest & objs & Hcs & Hh & Hi & Hrel & Hres).
  assert (rest = []) as ->.
  { destruct (fst (processCandidates env cs 0 w)); [done|].
    destruct Hres as [f Hf]. exfalso.
    assert (In (CFile f) cs) as Hin.
    { rewrite Hcs. apply in_or_app. left. clear -Hf.
      induction processed as [|c l IH]; [done|].
      destruct l as [|c' l]; [left; by injection Hf|right; by apply IH]. }
    rewrite List.Forall_forall in Hall. exact (Hall _ Hin). }
  rewrite app_nil_r in Hcs. subst processed. unfold exec.
  assert (List.filter commits cs = cs) as Hf.
  { apply filter_all. eapply Forall_impl; [exact Hall|].
    intros [cplain chtml|f] H; [|done]. cbn [commits]. by rewrite H. }
  rewrite Hf in Hrel.
  unfold itemsOf. rewrite Hi, Hh, Hempty, app_nil_r.
  rewrite omap_rev, omap_lookup_fresh.
  assert (objs <> []) as Hobjs.
  { intros ->. inversion Hrel. by subst. }
  unfold copyAllText.
  destruct (rev objs) as [|x l] eqn:E.
  { apply (f_equal (@rev Item)) in E. rewrite rev_involutive in E. done. }
  rewrite <- E, rev_involutive. f_equal. f_equal. by apply copyParts_texts.
Qed.

(** *** Clearing with the worker out of reach *)

(** X27: when the [blob.clear] message is not delivered, [clearAll]
    empties the list and the blob cache and shows "Cleared" all the
    same, and every record of the Blob Store stays where it is: nothing
    refers to these records any more and nothing will delete them. *)
Theorem clearAll_leaves_blobs_when_unreachable (env : Env) (w : World) :
  send_fault env (S (ticks w)) = SendRejected ->
  let w' := exec (clearAll env) w in
  items w' = [] /\ blobCache w' = ∅
  /\ idb w' = idb w
  /\ last (toasts w') = Some (str "Cleared")
  /\ (storage_set_rejects env (ticks w) = false ->
      clip_hub_v6_state (storage w') = Some []).
Proof.
  intros Hrej. unfold clearAll, exec. cbv zeta. run_steps.
  set (w0 := set_items [] (set_blobCache ∅ w)).
  destruct (persistMetadata_frame env w0) as (Hh & Hi & Hc & _ & Hd & Ht).
  pose proof (persistMetadata_storage env w0) as Hsto.
  unfold exec in *.
  match goal with |- context [runtimeSend env ?t ?p ?x] =>
    destruct (runtimeSend_frame env t p x) as (_ & Hi' & Hc' & _ & Hs' & _);
    pose proof (runtimeSend_run env t p x) as Hrun end.
  cbn [toast modify fst snd items blobCache heap storage idb toasts set_toasts].
  rewrite Hi', Hc', Hs', Hi, Hc, last_snoc.
  repeat (split; [done|]). split; [|split; [done|]].
  - rewrite Hrun, Ht. cbn [ticks w0 set_items set_blobCache]. rewrite Hrej.
    cbn [snd idb set_ticks]. exact Hd.
  - intros Hok. by rewrite (Hsto Hok).
Qed.

(** *** Loading with the worker out of reach *)

Lemma restoreBlobs_offline env refs w :
  (forall n, send_fault env n = SendRejected) ->
  heap (exec (restoreBlobs env refs) w) = heap w
  /\ blobCache (exec (restoreBlobs env refs) w) = blobCache w.
Proof.
  intros Hoff. revert w. induction refs as [|r refs IH]; intros w; [done|].
  rewrite restoreBlobs_cons.
  destruct (IH (exec (restoreBlobs env [r]) w)) as [-> ->].
  cbn [restoreBlobs]. rewrite !exec_bind. cbn [get fst snd].
  replace (exec (ret tt)) with (fun w : World => w) by done.
  destruct (heap w !! r) as [it|]; [|done].
  destruct (truthy (orStr (blobId it) [])); cbn [negb]; [|done].
  destruct (bool_decide _); [done|].
  rewrite run_bind, runtimeSend_run, Hoff. done.
Qed.

(** X29: a session that cannot reach the worker still lists what is
    stored.  When no message is delivered, a load of a non-empty
    stored list gives exactly that list, nothing is filled in, the
    blob cache stays as it was, and neither store is written. *)
Theorem load_offline_lists_stored (env : Env) (w : World) (stored : list Item) :
  (forall n, send_fault env n = SendRejected) ->
  clip_hub_v6_state (storage w) = Some stored ->
  stored <> [] ->
  let w' := exec (load env) w in
  itemsOf w' = stored
  /\ blobCache w' = blobCache w
  /\ storage w' = storage w /\ idb w' = idb w.
Proof.
  intros Hoff Hst Hne. cbv zeta.
  destruct (load_stored env w stored Hst (or_introl Hne)) as (_ & Hs & Hd).
  split; [|split; [|by split]].
  - unfold load, exec, itemsOf. cbv zeta. run_steps.
    rewrite Hst. cbn [nullish]. rewrite allocAll_run. run_steps.
    destruct stored as [|it0 rest]; [done|].
    cbn [seq length]. run_steps.
    match goal with |- context [restoreBlobs env ?l ?x] =>
      destruct (restoreBlobs_offline env l x Hoff) as [Hh _];
      destruct (restoreBlobs_spec env l x) as (Hi & _) end.
    unfold exec in *. rewrite Hh, Hi. cbn [heap items set_items set_heap].
    apply (omap_lookup_fresh (heap w) (it0 :: rest)).
  - unfold load, exec. cbv zeta. run_steps.
    rewrite Hst. cbn [nullish]. rewrite allocAll_run. run_steps.
    destruct stored as [|it0 rest]; [done|].
    cbn [seq length]. run_steps.
    match goal with |- context [restoreBlobs env ?l ?x] =>
      destruct (restoreBlobs_offline env l x Hoff) as [_ Hc] end.
    unfold exec in *. by rewrite Hc.
Qed.

End HubProps.


(* ===================================================================== *)
(** ** The properties on concrete runs *)
(* ===================================================================== *)

Module Runs.
Import Hub Gestures.
#[local] Arguments str : simpl never.

(** X1, on a note put into an empty store. *)
Lemma put_then_get_witness :
  Worker.responses Samples.workerEnv
    (Worker.MsgObject (Some (str "blob.get")) (Some (getPayload (str "b1"))))
    (Worker.blobsAfter Samples.workerEnv
       (Worker.MsgObject (Some (str "blob.put")) (Some Samples.notePayload)) ∅)
  = [Worker.RespBlob (str "b1") [1; 2; 3]%N (str "text/plain") (str "n.txt") 3 0].
Proof.
  apply (WorkerProps.put_then_get Samples.workerEnv Samples.workerEnv
           Samples.notePayload (getPayload (str "b1")) (str "b1") ∅); reflexivity.
Defined.

(** X2, on the record of [Demo.bareRecord]. *)
Lemma delete_then_get_witness :
  Worker.responses Samples.workerEnv
    (Worker.MsgObject (Some (str "blob.delete")) (Some (getPayload (str "b1"))))
    {[ str "b1" := Demo.bareRecord ]} = [Worker.RespOk]
  /\ Worker.responses Samples.workerEnv
       (Worker.MsgObject (Some (str "blob.get")) (Some (getPayload (str "b1"))))
       (Worker.blobsAfter Samples.workerEnv
          (Worker.MsgObject (Some (str "blob.delete")) (Some (getPayload (str "b1"))))
          {[ str "b1" := Demo.bareRecord ]})
     = [Worker.RespErr (str "not_found")].
Proof.
  apply (WorkerProps.delete_then_get Samples.workerEnv Samples.workerEnv
           (getPayload (str "b1")) (getPayload (str "b1")) (str "b1")); reflexivity.
Defined.

(** X3, on the same store. *)
Lemma clear_then_get_witness :
  Worker.responses Samples.workerEnv
    (Worker.MsgObject (Some (str "blob.clear")) (Some emptyPayload))
    {[ str "b1" := Demo.bareRecord ]} = [Worker.RespOk]
  /\ Worker.responses Samples.workerEnv
       (Worker.MsgObject (Some (str "blob.get")) (Some (getPayload (str "b1"))))
       (Worker.blobsAfter Samples.workerEnv
          (Worker.MsgObject (Some (str "blob.clear")) (Some emptyPayload))
          {[ str "b1" := Demo.bareRecord ]})
     = [Worker.RespErr (str "not_found")].
Proof.
  apply (WorkerProps.clear_then_get Samples.workerEnv Samples.workerEnv
           (Some emptyPayload) (getPayload (str "b1")) (str "b1")); reflexivity.
Defined.

(** X4: putting or deleting "b1" leaves "b2" alone. *)
Lemma other_keys_untouched_witness :
  let store : gmap jsstring Worker.BlobRecord := {[ str "b2" := Demo.bareRecord ]} in
  Worker.blobsAfter Samples.workerEnv
    (Worker.MsgObject (Some (str "blob.put")) (Some Samples.notePayload)) store
    !! str "b2" = store !! str "b2"
  /\ Worker.blobsAfter Samples.workerEnv
       (Worker.MsgObject (Some (str "blob.delete")) (Some Samples.notePayload)) store
       !! str "b2" = store !! str "b2".
Proof.
  apply (WorkerProps.other_keys_untouched Samples.workerEnv (Some Samples.notePayload)
           (str "b1") (str "b2")).
  - intros q [= <-]. reflexivity.
  - apply (bool_decide_unpack _). vm_compute. exact I.
Defined.

(** X5: the put of the note changes the empty store, and is answered
    [{ok: true}]. *)
Lemma store_changes_only_by_writes_witness :
  Worker.responses Samples.workerEnv
    (Worker.MsgObject (Some (str "blob.put")) (Some Samples.notePayload)) ∅
  = [Worker.RespOk].
Proof.
  apply (WorkerProps.store_changes_only_by_writes Samples.workerEnv
           (Worker.MsgObject (Some (str "blob.put")) (Some Samples.notePayload)) ∅).
  intros H.
  assert (Worker.blobsAfter Samples.workerEnv
            (Worker.MsgObject (Some (str "blob.put")) (Some Samples.notePayload)) ∅
            !! str "b1" = None) as Hnone by (rewrite H; apply lookup_empty).
  rewrite (proj2 (WorkerFacts.put_handled Samples.workerEnv Samples.notePayload
                    (str "b1") ∅ eq_refl eq_refl)) in Hnone.
  rewrite lookup_insert_eq in Hnone. discriminate Hnone.
Defined.

(** X6, on the record of [Demo.bareRecord]. *)
Lemma get_answer_has_mime_witness :
  str "image/png" <> []
  /\ exists r, ({[ str "b1" := Demo.bareRecord ]} : gmap jsstring Worker.BlobRecord)
               !! str "b1" = Some r
       /\ Worker.pl_id (getPayload (str "b1")) = Some (str "b1")
       /\ [137; 80; 78]%N = Worker.rec_blob_bytes r
       /\ 3 = nullish (Worker.rec_size r) (Z.of_nat (length [137; 80; 78]%N)).
Proof.
  apply (WorkerProps.get_answer_has_mime Samples.workerEnv (getPayload (str "b1"))
           {[ str "b1" := Demo.bareRecord ]} (str "b1") [137; 80; 78]%N
           (str "image/png") (str "a.png") 3 5).
  left. vm_compute. reflexivity.
Defined.

(** X9: 1536 bytes are "1.5 KB". *)
Lemma formatBytes_units_witness :
  Text.safeInteger 1536 /\ Text.formatBytes 1536 = str "1.5 KB".
Proof.
  assert (Text.safeInteger 1536) as H by (unfold Text.safeInteger; lia).
  split; [exact H|].
  apply (proj1 (proj2 (TextProps.formatBytes_units 1536 H))). lia.
Defined.

(** X10: two minutes. *)
Lemma timeAgo_units_witness :
  Text.safeInteger 200000 /\ Text.safeInteger 80000
  /\ Text.timeAgoAt 200000 80000 = str "2m ago".
Proof.
  assert (Text.safeInteger 200000) as H1 by (unfold Text.safeInteger; lia).
  assert (Text.safeInteger 80000) as H2 by (unfold Text.safeInteger; lia).
  assert (Text.safeInteger (200000 - 80000)) as H3 by (unfold Text.safeInteger; lia).
  split; [exact H1|]. split; [exact H2|].
  apply (proj1 (proj2 (TextProps.timeAgo_units 200000 80000 H1 H2 H3))). lia.
Defined.

(** X12, on a line of text pasted with an image. *)
Lemma normalizePaste_all_counted_witness :
  2 = Z.of_nat (length (normalizePaste Samples.mixedPaste)).
Proof.
  apply (proj1 (proj2 (HubProps.normalizePaste_all_counted Demo.env Samples.mixedPaste
                         Demo.start)) 2).
  vm_compute. reflexivity.
Defined.

(** X14: [report2] dropped right after [report] is dropped as a
    duplicate. *)
Lemma dedup_ignores_file_bytes_witness :
  signature [CFile Samples.report2] = signature [CFile Samples.report]
  /\ exec (ingestCandidates Demo.env [CFile Samples.report2] (str "drop"))
          Samples.afterReport
     = set_ticks (S (ticks Samples.afterReport)) Samples.afterReport.
Proof.
  apply (HubProps.dedup_ignores_file_bytes Demo.env Samples.report Samples.report2
           (str "drop") Samples.afterReport).
  - reflexivity.
  - reflexivity.
  - reflexivity.
  - vm_compute. reflexivity.
  - vm_compute. reflexivity.
Defined.

(** X15, on a note and two files that come to a fresh script. *)
Lemma first_batch_is_not_suppressed_witness :
  let r := ingestCandidates Demo.env Samples.mixedBatch (str "drop") Demo.start in
  let w' := snd r in
  lastIngest w' = (signature Samples.mixedBatch, date_now Demo.env (ticks Demo.start))
  /\ exists processed rest,
       Samples.mixedBatch = processed ++ rest
       /\ items w' = rev (seq (length (heap Demo.start))
                            (length (List.filter commits processed)))
                       ++ items Demo.start
       /\ match fst r with
          | Some _ => rest = []
          | None => exists f, last processed = Some (CFile f)
          end
       /\ ((forall n, data_url_read Demo.env n <> ReadFails) -> fst r = Some tt).
Proof.
  apply (HubProps.first_batch_is_not_suppressed Demo.env Samples.mixedBatch (str "drop")
           Demo.start).
  reflexivity.
Defined.

(** X16, on the list that holds the one item "hello". *)
Lemma removeItem_unknown_id_witness :
  removeItem Demo.env (str "zz") Demo.afterHello = (tt, Demo.afterHello).
Proof.
  apply (HubProps.removeItem_unknown_id Demo.env (str "zz") Demo.afterHello).
  assert (forallb (fun x => negb (bool_decide (x = str "zz")))
            (map id (itemsOf Demo.afterHello)) = true) as H
    by (vm_compute; reflexivity).
  intros Hin. rewrite forallb_forall in H. specialize (H _ Hin).
  apply negb_true_iff, bool_decide_eq_false in H. by apply H.
Defined.

(** X17, on a note added while the storage is full. *)
Lemma quota_hit_keeps_item_in_memory_witness :
  let w' := exec (addText Samples.fullEnv (Some (str "note")) None) Demo.start in
  items w' = length (heap Demo.start) :: items Demo.start
  /\ length (heap w') = S (length (heap Demo.start))
  /\ storage w' = storage Demo.start
  /\ toasts w' = toasts Demo.start ++ [str "Storage quota hit"].
Proof.
  apply (HubProps.quota_hit_keeps_item_in_memory Samples.fullEnv (Some (str "note"))
           None Demo.start).
  - vm_compute. reflexivity.
  - reflexivity.
Defined.

(** X18, on the PNG added to the list that holds "hello". *)
Lemma addBlob_item_shape_witness :
  let w' := exec (addBlob Demo.env Demo.png (str "a.png") KFile) Demo.afterHello in
  exists it,
    itemsOf w' = it :: itemsOf Demo.afterHello
    /\ wellFormed w'
    /\ blobItemShape KFile it
    /\ is_Some (blobCache w' !! id it)
    /\ (truthy (str "a.png") = true -> name it = Some (str "a.png")).
Proof.
  apply (HubProps.addBlob_item_shape Demo.env Demo.png (str "a.png") KFile
           Demo.afterHello).
  apply (bool_decide_unpack _). vm_compute. exact I.
Defined.

(** X19, on a note and two files that come after "hello". *)
Lemma commit_loop_settles_witness :
  let r := processCandidates Demo.env Samples.mixedBatch 0 Demo.afterHello in
  let w' := snd r in
  exists processed rest objs,
    Samples.mixedBatch = processed ++ rest
    /\ itemsOf w' = rev objs ++ itemsOf Demo.afterHello
    /\ wellFormed w'
    /\ Forall2 committedAs (List.filter commits processed) objs
    /\ match fst r with
       | Some _ => rest = []
       | None => exists f, last processed = Some (CFile f)
       end
    /\ ((forall n, data_url_read Demo.env n <> ReadFails) ->
        fst r = Some (Z.of_nat (length (List.filter counted Samples.mixedBatch)))).
Proof.
  apply (HubProps.commit_loop_settles Demo.env Samples.mixedBatch Demo.afterHello).
  apply (bool_decide_unpack _). vm_compute. exact I.
Defined.


(** X22, on the first session of a user who comes from v5. *)
Lemma load_migrates_v5_witness :
  map kind (itemsOf Demo.upgraded) = omap legacyKind [Some Demo.legacyNote]
  /\ Forall (fun it => blobId it = None) (itemsOf Demo.upgraded)
  /\ last (toasts Demo.upgraded) = Some (str "Migrated v5 items")
  /\ ((forall n, storage_set_rejects Demo.env n = false) ->
      clip_hub_v6_state (storage Demo.upgraded) = Some (itemsOf Demo.upgraded)).
Proof.
  apply (HubProps.load_migrates_v5 Demo.env
           (freshSession (mkStorage None (Some [Some Demo.legacyNote])) ∅)
           (Some Demo.legacyNote) []); reflexivity.
Defined.

(** X23, on a session that starts on one stored image. *)
Lemma load_restores_blobs_witness :
  Forall (fun it =>
            truthy (orStr (blobId it) []) = true ->
            forall rec, idb Samples.restart !! orStr (blobId it) [] = Some rec ->
              exists f, blobCache (exec (load Demo.env) Samples.restart)
                          !! orStr (blobId it) [] = Some f
                        /\ file_bytes f = Worker.rec_blob_bytes rec)
         (itemsOf (exec (load Demo.env) Samples.restart)).
Proof.
  apply (HubProps.load_restores_blobs Demo.env Samples.restart [Demo.bareItem]).
  - intros n. reflexivity.
  - reflexivity.
  - discriminate.
  - reflexivity.
Defined.

(** X24, on [report] added to a fresh script. *)
Lemma file_survives_restart_witness :
  let w' := exec (addBlob Demo.env Samples.report (str "report.pdf") KFile) Demo.start in
  let w2 := exec (load Demo.env) (freshSession (storage w') (idb w')) in
  exists it it2 f,
    head (itemsOf w') = Some it
    /\ head (itemsOf w2) = Some it2
    /\ id it2 = id it /\ kind it2 = kind it /\ name it2 = name it
    /\ blobCache w2 !! id it = Some f
    /\ file_bytes f
       = file_bytes (if isImageType (file_type Samples.report)
                     then maybeCompressImage Demo.env Samples.report
                     else Samples.report).
Proof.
  apply (HubProps.file_survives_restart Demo.env Demo.env Samples.report
           (str "report.pdf") KFile Demo.start); intros n; reflexivity.
Defined.

(** X26, on two notes pasted into a fresh script. *)
Lemma copy_all_returns_texts_in_order_witness :
  copyAllText (itemsOf (exec (processCandidates Demo.env Samples.twoNotes 0) Demo.start))
  = Some (joinWith [10; 10]%N
            (map (fun c => match c with
                           | CText cplain _ => trimEnd (orStr cplain [])
                           | CFile _ => []
                           end) Samples.twoNotes)).
Proof.
  apply (HubProps.copy_all_returns_texts_in_order Demo.env Samples.twoNotes Demo.start).
  - reflexivity.
  - discriminate.
  - constructor; [vm_compute; reflexivity|].
    constructor; [vm_compute; reflexivity|]. constructor.
Defined.

(** X27, on the list of the PNG, with the worker out of reach. *)
Lemma clearAll_leaves_blobs_when_unreachable_witness :
  let w' := exec (clearAll Samples.offlineEnv) Demo.afterPng in
  items w' = [] /\ blobCache w' = ∅
  /\ idb w' = idb Demo.afterPng
  /\ last (toasts w') = Some (str "Cleared")
  /\ (storage_set_rejects Samples.offlineEnv (ticks Demo.afterPng) = false ->
      clip_hub_v6_state (storage w') = Some []).
Proof.
  apply (HubProps.clearAll_leaves_blobs_when_unreachable Samples.offlineEnv
           Demo.afterPng).
  reflexivity.
Defined.

(** X28: [longNote2] pasted right after [longNote1] is dropped. *)
Lemma dedup_reads_text_prefix_witness :
  signature [CText (Some Samples.longNote2) None]
  = signature [CText (Some Samples.longNote1) None]
  /\ exec (ingestCandidates Demo.env [CText (Some Samples.longNote2) None] (str "paste"))
          Samples.afterLongNote
     = set_ticks (S (ticks Samples.afterLongNote)) Samples.afterLongNote.
Proof.
  apply (HubProps.dedup_reads_text_prefix Demo.env (Some Samples.longNote1)
           (Some Samples.longNote2) None None (str "paste") Samples.afterLongNote).
  - vm_compute. reflexivity.
  - reflexivity.
  - vm_compute. reflexivity.
  - reflexivity.
  - vm_compute. reflexivity.
  - vm_compute. reflexivity.
Defined.

(** X29, on a session that starts on one stored image, off line. *)
Lemma load_offline_lists_stored_witness :
  let w' := exec (load Samples.offlineEnv) Samples.restart in
  itemsOf w' = [Demo.bareItem]
  /\ blobCache w' = blobCache Samples.restart
  /\ storage w' = storage Samples.restart /\ idb w' = idb Samples.restart.
Proof.
  apply (HubProps.load_offline_lists_stored Samples.offlineEnv Samples.restart
           [Demo.bareItem]).
  - intros n. reflexivity.
  - reflexivity.
  - discriminate.
Defined.

(** The two notes of X26 come back as "first", an empty line, "second";
    the blob that X27 leaves behind is the PNG. *)
Example runs_in_full :
  copyAllText (itemsOf (exec (processCandidates Demo.env Samples.twoNotes 0) Demo.start))
  = Some (str "first" ++ [10; 10]%N ++ str "second")
  /\ is_Some (idb (exec (clearAll Samples.offlineEnv) Demo.afterPng) !! Demo.pngId)
  /\ Text.escapeHtml (str "<a href='x'>&</a>")
     = str "&lt;a href=&#39;x&#39;&gt;&amp;&lt;/a&gt;"
  /\ hash32 [] = str "811c9dc5".
Proof.
  split; [vm_compute; reflexivity|]. split; [|split; vm_compute; reflexivity].
  apply (bool_decide_unpack _). vm_compute. exact I.
Qed.

End Runs.
